(** * Basket rebalancer: the portfolio calculations of
    [src/utils/portfolio_utils.py], embedded in Rocq.

    Numbers are the runtime's: a float64 is a primitive binary64 float
    (NaN is the missing value), an integer cell is a [Z].  A DataFrame
    is the length of its index together with its columns in order; the
    functions of the module mutate the frame they are given, so they are
    written in a state-and-exception monad over the frame.

    What is taken from pandas and numpy, and how far:
    - a column of numbers is int64 or float64: int64 arithmetic wraps
      around, and an int64 column met by a float64 one is promoted cell
      by cell, correctly rounded; a list of share counts that does not
      fit int64 would make a uint64 or an object column, which is not
      followed any further ([NotModelled]);
    - [Series.sum()] on float64 counts a missing value as 0.0 and adds
      the cells as numpy does, one after the other below eight cells
      and with eight accumulators combined pairwise from eight on, the
      reduction starting from 0.0; on int64 it is the int64 sum;
    - [Series.round(2)] is numpy's: multiply by 100, round to the nearest
      integer with ties to even, divide by 100;
    - a frame's column names are distinct, as they are after a CSV is
      read and in every table the application builds; [df[name]] and
      [df[names]] take the column of that name (on a frame with a
      repeated name pandas would return every match, which is not
      followed: the statements that depend on it assume distinct
      names). *)

From Stdlib Require Import ZArith List String Ascii Bool Lia Floats QArith Qabs.
From Stdlib Require Import Permutation.
Import ListNotations.

Set Warnings "-inexact-float".
Local Open Scope Z_scope.

(** ** Exceptions and results *)

Inductive exn : Type :=
| KeyError (key : string)
| TypeError
| ValueError
| OverflowError
| NotModelled.

Inductive result (A : Type) : Type :=
| Ok (a : A)
| Raise (e : exn).

Arguments Ok {A} a.
Arguments Raise {A} e.

Definition rbind {A B} (r : result A) (k : A -> result B) : result B :=
  match r with
  | Ok a => k a
  | Raise e => Raise e
  end.

(** ** float64 arithmetic beyond the primitive operations *)

Module F64.

(** int -> float conversion (round to nearest, ties to even). *)
Definition of_Z (z : Z) : float :=
  SF2Prim (binary_normalize prec emax z 0 false).

(** [m / 2^k] rounded to the nearest integer, ties to the even one
    ([0 <= m], [0 < k]). *)
Definition rne_shift (m k : Z) : Z :=
  let q := m / 2 ^ k in
  let r := m mod 2 ^ k in
  let half := 2 ^ (k - 1) in
  if r <? half then q
  else if half <? r then q + 1
  else if Z.even q then q else q + 1.

(** The integer nearest to [(-1)^s * m * 2^e], ties to even. *)
Definition nearest_int (s : bool) (m : positive) (e : Z) : Z :=
  let a := if 0 <=? e then Zpos m * 2 ^ e else rne_shift (Zpos m) (- e) in
  if s then - a else a.

(** Python's [round(x)] on a float, no [ndigits]: an [int], half to
    even; NaN raises ValueError and an infinity OverflowError. *)
Definition py_round (x : float) : result Z :=
  match Prim2SF x with
  | S754_nan => Raise ValueError
  | S754_infinity _ => Raise OverflowError
  | S754_zero _ => Ok 0
  | S754_finite s m e => Ok (nearest_int s m e)
  end.

(** numpy's [rint]: nearest integer as a float, ties to even, the sign
    kept on a zero result; NaN, infinities and zeros are returned. *)
Definition rint (x : float) : float :=
  match Prim2SF x with
  | S754_finite s m e =>
      if 0 <=? e then x
      else
        let n := nearest_int s m e in
        if n =? 0 then (if s then neg_zero else zero) else of_Z n
  | _ => x
  end.

(** numpy's [round(x, 2)], the one behind [Series.round(2)] and behind
    [round(s, 2)] on a numpy scalar: scale, [rint], scale back. *)
Definition round2 (x : float) : float :=
  (rint (x * 100) / 100)%float.

(** numpy's sum of a block of float64 cells, [pairwise_sum] at 128
    cells or less: below 8 cells they are added one after the other
    from 0.0; from 8 cells on, eight accumulators start as the first
    eight cells, each later group of eight is added to them cell by
    cell, the accumulators are combined pairwise, and the cells left
    over are added one after the other. *)
Fixpoint accumulate8 (blocks : nat) (r l : list float)
  : list float * list float :=
  match blocks with
  | O => (r, l)
  | S b =>
      accumulate8 b
        (map (fun p => (fst p + snd p)%float) (combine r (firstn 8 l)))
        (skipn 8 l)
  end.

Definition block_sum (l : list float) : float :=
  let n := List.length l in
  if (n <? 8)%nat then fold_left PrimFloat.add l 0%float
  else
    let (r, rest) := accumulate8 (n / 8 - 1) (firstn 8 l) (skipn 8 l) in
    match r with
    | [r0; r1; r2; r3; r4; r5; r6; r7] =>
        fold_left PrimFloat.add rest
          (((r0 + r1) + (r2 + r3)) + ((r4 + r5) + (r6 + r7)))%float
    | _ => 0%float
    end.

(** Above 128 cells the array is cut in two, the first part of
    [n / 2] cells rounded down to a multiple of 8, and the sums of the
    parts are added; [fuel] bounds the depth of the cuts. *)
Fixpoint pairwise_sum (fuel : nat) (l : list float) : float :=
  match fuel with
  | O => block_sum l
  | S fuel' =>
      let n := List.length l in
      if (n <=? 128)%nat then block_sum l
      else
        let n2 := (n / 2 - (n / 2) mod 8)%nat in
        (pairwise_sum fuel' (firstn n2 l) + pairwise_sum fuel' (skipn n2 l))%float
  end.

(** [numpy.sum] of a float64 array: the reduction starts from 0.0. *)
Definition np_sum (l : list float) : float :=
  (0 + pairwise_sum (List.length l) l)%float.

(** The cells as [Series.sum()] adds them with its default
    [skipna=True]: a missing value counts as 0.0. *)
Definition fillna0 (l : list float) : list float :=
  map (fun x => if is_nan x then 0%float else x) l.

(** [Series.sum()] on a float64 column. *)
Definition nansum (l : list float) : float :=
  np_sum (fillna0 l).

(** The exact value of a finite float, as a rational. *)
Definition SF2Q (s : bool) (m : positive) (e : Z) : Q :=
  let sm := if s then Zneg m else Zpos m in
  if 0 <=? e then inject_Z (sm * 2 ^ e)
  else Qmake sm (Z.to_pos (2 ^ (- e))).

End F64.

(** ** Series and frames *)

(** A column: int64, float64 (NaN is the missing value) or object
    (strings, [None] the missing value). *)
Inductive series : Type :=
| Int64 (l : list Z)
| Float64 (l : list float)
| Object (l : list (option string)).

Definition series_len (s : series) : nat :=
  match s with
  | Int64 l => List.length l
  | Float64 l => List.length l
  | Object l => List.length l
  end.

Record DataFrame : Type := mkDF {
  index_len : nat;
  columns : list (string * series)
}.

Definition zip_with {A B C} (f : A -> B -> C) (xs : list A) (ys : list B)
  : list C :=
  map (fun p => f (fst p) (snd p)) (combine xs ys).

(** The float64 view of a numeric column; arithmetic on a string or on
    [None] is a TypeError (an object column without a row has no cell to
    raise it). *)
Definition to_floats (s : series) : result (list float) :=
  match s with
  | Int64 l => Ok (map F64.of_Z l)
  | Float64 l => Ok l
  | Object [] => Ok []
  | Object (_ :: _) => Raise TypeError
  end.

Definition in_int64 (z : Z) : bool :=
  (- 2 ^ 63 <=? z) && (z <? 2 ^ 63).

(** The int64 an integer result wraps around to. *)
Definition wrap64 (z : Z) : Z :=
  (z + 2 ^ 63) mod 2 ^ 64 - 2 ^ 63.

(** Element-wise arithmetic of two columns of one frame: int64
    arithmetic ([fz], wrapped around) on two int64 columns, float64
    arithmetic ([ff]) otherwise, an int64 operand being promoted. *)
Definition series_binop (fz : Z -> Z -> Z) (ff : float -> float -> float)
  (a b : series) : result series :=
  match a, b with
  | Int64 xs, Int64 ys => Ok (Int64 (zip_with (fun x y => wrap64 (fz x y)) xs ys))
  | _, _ =>
      rbind (to_floats a) (fun xs =>
      rbind (to_floats b) (fun ys =>
      Ok (Float64 (zip_with ff xs ys))))
  end.

Definition series_mul := series_binop Z.mul PrimFloat.mul.
Definition series_sub := series_binop Z.sub PrimFloat.sub.

Definition series_map (f : float -> float) (a : series) : result series :=
  rbind (to_floats a) (fun xs => Ok (Float64 (map f xs))).

(** A number as a reduction returns it: a numpy int64 or float64. *)
Inductive scalar : Type :=
| IntS (z : Z)
| FloatS (x : float).

(** The float64 a scalar is in float arithmetic. *)
Definition scalar_float (t : scalar) : float :=
  match t with
  | IntS z => F64.of_Z z
  | FloatS x => x
  end.

(** [t > 0] *)
Definition scalar_pos (t : scalar) : bool :=
  match t with
  | IntS z => 0 <? z
  | FloatS x => (0 <? x)%float
  end.

(** [round(t, 2)] on a numpy scalar: an integer is returned as it is. *)
Definition scalar_round2 (t : scalar) : scalar :=
  match t with
  | IntS z => IntS z
  | FloatS x => FloatS (F64.round2 x)
  end.

(** [Series.sum()]: the int64 sum of an int64 column, which wraps
    around, and the float64 sum of a float64 column. *)
Definition series_sum (a : series) : result scalar :=
  match a with
  | Int64 l => Ok (IntS (wrap64 (fold_left Z.add l 0)))
  | Float64 l => Ok (FloatS (F64.nansum l))
  | Object [] => Ok (IntS 0)
  | Object (_ :: _) => Raise TypeError
  end.

(** [s < 0], element by element; ordering a string or [None] against a
    number is a TypeError. *)
Definition series_lt0 (s : series) : result (list bool) :=
  match s with
  | Int64 l => Ok (map (fun z => z <? 0) l)
  | Float64 l => Ok (map (fun x => (x <? 0)%float) l)
  | Object [] => Ok []
  | Object (_ :: _) => Raise TypeError
  end.

Definition series_isna (s : series) : list bool :=
  match s with
  | Int64 l => map (fun _ => false) l
  | Float64 l => map is_nan l
  | Object l => map (fun o => match o with None => true | Some _ => false end) l
  end.

(** [s == t] for a string [t], element by element (never raises). *)
Definition series_eq_str (s : series) (t : string) : list bool :=
  match s with
  | Int64 l => map (fun _ => false) l
  | Float64 l => map (fun _ => false) l
  | Object l =>
      map (fun o => match o with None => false | Some u => String.eqb u t end) l
  end.

Definition any (l : list bool) : bool := existsb (fun b => b) l.

Fixpoint lookup (name : string) (cols : list (string * series))
  : option series :=
  match cols with
  | [] => None
  | (n, s) :: rest => if String.eqb n name then Some s else lookup name rest
  end.

(** [df[name] = s] on the column list: overwrite in place, or append. *)
Fixpoint assign (name : string) (s : series) (cols : list (string * series))
  : list (string * series) :=
  match cols with
  | [] => [(name, s)]
  | (n, s') :: rest =>
      if String.eqb n name then (n, s) :: rest
      else (n, s') :: assign name s rest
  end.

Definition column_names (df : DataFrame) : list string :=
  map fst (columns df).

Definition mem (name : string) (names : list string) : bool :=
  existsb (String.eqb name) names.

(** Every column has one cell per index entry. *)
Definition wf (df : DataFrame) : Prop :=
  Forall (fun c => series_len (snd c) = index_len df) (columns df).

(** ** The monad of the functions that mutate the frame *)

Definition M (A : Type) : Type := DataFrame -> result A * DataFrame.

Definition ret {A} (a : A) : M A := fun df => (Ok a, df).

Definition bind {A B} (m : M A) (k : A -> M B) : M B :=
  fun df =>
    match m df with
    | (Ok a, df') => k a df'
    | (Raise e, df') => (Raise e, df')
    end.

Definition lift {A} (r : result A) : M A := fun df => (r, df).

Notation "x <- m ;; k" := (bind m (fun x => k))
  (at level 61, m at next level, right associativity).
Notation "m ;;; k" := (bind m (fun _ => k))
  (at level 61, right associativity).

(** [df[name]] *)
Definition getitem (name : string) : M series :=
  fun df =>
    match lookup name (columns df) with
    | Some s => (Ok s, df)
    | None => (Raise (KeyError name), df)
    end.

(** [df[name] = s] for a series on the frame's index *)
Definition setitem (name : string) (s : series) : M unit :=
  fun df => (Ok tt, mkDF (index_len df) (assign name s (columns df))).

(** [df[name] = l] for a Python list of ints: its length must be the
    index's, and the column is int64 when every count fits. *)
Definition setitem_list (name : string) (l : list Z) : M unit :=
  fun df =>
    if Nat.eqb (List.length l) (index_len df)
    then if forallb in_int64 l then setitem name (Int64 l) df
         else (Raise NotModelled, df)
    else (Raise ValueError, df).

(** [df[name] = x] for a scalar: one cell per index entry. *)
Definition setitem_scalar (name : string) (x : float) : M unit :=
  fun df => setitem name (Float64 (repeat x (index_len df))) df.

(** [df.columns] *)
Definition get_columns : M (list string) :=
  fun df => (Ok (column_names df), df).

(** [name in df.columns] *)
Definition has_column (name : string) : M bool :=
  fun df => (Ok (mem name (column_names df)), df).

(** ** [src/utils/portfolio_utils.py] *)

Local Open Scope string_scope.

(** [calculate_portfolio_metrics(df)]: adds or overwrites "Current Value"
    and "Current Weight (%)" and returns
    [(total_value, total_current_weight, total_target_weight)]. *)
Definition calculate_portfolio_metrics : M (scalar * scalar * scalar) :=
  shares <- getitem "Shares Held" ;;
  price <- getitem "Current Price (per share)" ;;
  value <- lift (series_mul shares price) ;;
  setitem "Current Value" value ;;;
  cv <- getitem "Current Value" ;;
  total_value <- lift (series_sum cv) ;;
  (if scalar_pos total_value then
     cv <- getitem "Current Value" ;;
     w <- lift (series_map
                  (fun v => F64.round2
                              (v / scalar_float total_value * 100)%float) cv) ;;
     setitem "Current Weight (%)" w
   else setitem_scalar "Current Weight (%)" 0%float) ;;;
  cw <- getitem "Current Weight (%)" ;;
  cw_sum <- lift (series_sum cw) ;;
  tw <- getitem "Target Weight (%)" ;;
  tw_sum <- lift (series_sum tw) ;;
  ret (total_value, scalar_round2 cw_sum, scalar_round2 tw_sum).

(** The loop of [optimize_shares] over [zip(prices, target_values)],
    [shares] being the list built so far. *)
Fixpoint optimize_loop (rows : list (float * float)) (shares : list Z)
  : result (list Z) :=
  match rows with
  | [] => Ok shares
  | (price, target) :: rest =>
      if (0 <? price)%float then
        rbind (F64.py_round (target / price)%float) (fun n =>
        optimize_loop rest (shares ++ [n])%list)
      else optimize_loop rest (shares ++ [0%Z])%list
  end.

Definition optimize_shares (prices target_values : list float)
  : result (list Z) :=
  optimize_loop (combine prices target_values) [].

(** Python's [repr] of a list of strings that hold no quote, backslash
    or control character (the required column names). *)
Definition py_repr_list (l : list string) : string :=
  "[" ++ String.concat ", " (map (fun s => "'" ++ s ++ "'") l) ++ "]".

Definition required_columns : list string :=
  ["Ticker"; "Shares Held"; "Target Weight (%)"].

Definition is_empty {A} (l : list A) : bool :=
  match l with [] => true | _ => false end.

Definition validate_portfolio_data : M (list string) :=
  let errors : list string := [] in
  cols <- get_columns ;;
  let missing_columns :=
    filter (fun col => negb (mem col cols)) required_columns in
  let errors :=
    if is_empty missing_columns then errors
    else (errors ++ [("Missing required columns: " ++ py_repr_list missing_columns)%string])%list in
  has_shares <- has_column "Shares Held" ;;
  errors <- (if has_shares then
               s <- getitem "Shares Held" ;;
               neg <- lift (series_lt0 s) ;;
               ret (if any neg
                    then (errors ++ ["Shares held cannot be negative"])%list
                    else errors)
             else ret errors) ;;
  has_weights <- has_column "Target Weight (%)" ;;
  errors <- (if has_weights then
               s <- getitem "Target Weight (%)" ;;
               neg <- lift (series_lt0 s) ;;
               ret (if any neg
                    then (errors ++ ["Target weights cannot be negative"])%list
                    else errors)
             else ret errors) ;;
  has_ticker <- has_column "Ticker" ;;
  errors <- (if has_ticker then
               s <- getitem "Ticker" ;;
               s' <- getitem "Ticker" ;;
               ret (if any (series_isna s) || any (series_eq_str s' EmptyString)
                    then (errors ++ ["Ticker symbols cannot be empty"])%list
                    else errors)
             else ret errors) ;;
  ret errors.

Definition column_order : list string :=
  ["Ticker";
   "Shares Held";
   "Current Price (per share)";
   "Current Weight (%)";
   "Current Value";
   "Target Weight (%)";
   "Target Value";
   "Target Shares";
   "Target Value (Actual)";
   "Difference";
   "Action";
   "Shares to Buy/Sell";
   "Real Weight (%)"].

(** [df[names]] on a frame whose column names are distinct: a new
    frame with the named columns, in that order. *)
Fixpoint select (names : list string) (cols : list (string * series))
  : result (list (string * series)) :=
  match names with
  | [] => Ok []
  | n :: rest =>
      match lookup n cols with
      | Some s => rbind (select rest cols) (fun r => Ok ((n, s) :: r))
      | None => Raise (KeyError n)
      end
  end.

Definition reorder_rebalanced_columns (df : DataFrame) : result DataFrame :=
  let available_columns :=
    filter (fun col => mem col (column_names df)) column_order in
  let remaining_columns :=
    filter (fun col => negb (mem col available_columns)) (column_names df) in
  let final_column_order := (available_columns ++ remaining_columns)%list in
  rbind (select final_column_order (columns df)) (fun cols =>
  Ok (mkDF (index_len df) cols)).

Definition action_of (x : float) : option string :=
  Some (if (0 <? x)%float then "Buy"
        else if (x <? 0)%float then "Sell" else "Hold").

(** [calculate_rebalancing_metrics(df, additional_capital)]: mutates
    [df] and returns the reordered frame. *)
Definition calculate_rebalancing_metrics (additional_capital : float)
  : M DataFrame :=
  cv <- getitem "Current Value" ;;
  total_current_value <- lift (series_sum cv) ;;
  let new_total_value :=
    (scalar_float total_current_value + additional_capital)%float in
  tw <- getitem "Target Weight (%)" ;;
  tv <- lift (series_map (fun w => (w / 100 * new_total_value)%float) tw) ;;
  setitem "Target Value" tv ;;;
  prices <- getitem "Current Price (per share)" ;;
  target_values <- getitem "Target Value" ;;
  ps <- lift (to_floats prices) ;;
  ts <- lift (to_floats target_values) ;;
  shares <- lift (optimize_shares ps ts) ;;
  setitem_list "Target Shares" shares ;;;
  target_shares <- getitem "Target Shares" ;;
  prices <- getitem "Current Price (per share)" ;;
  actual <- lift (series_mul target_shares prices) ;;
  setitem "Target Value (Actual)" actual ;;;
  actual <- getitem "Target Value (Actual)" ;;
  cv <- getitem "Current Value" ;;
  difference <- lift (series_sub actual cv) ;;
  setitem "Difference" difference ;;;
  difference <- getitem "Difference" ;;
  ds <- lift (to_floats difference) ;;
  setitem "Action" (Object (map action_of ds)) ;;;
  target_shares <- getitem "Target Shares" ;;
  held <- getitem "Shares Held" ;;
  delta <- lift (series_sub target_shares held) ;;
  setitem "Shares to Buy/Sell" delta ;;;
  actual <- getitem "Target Value (Actual)" ;;
  total_rebalanced_value <- lift (series_sum actual) ;;
  (if scalar_pos total_rebalanced_value then
     actual <- getitem "Target Value (Actual)" ;;
     w <- lift (series_map
                  (fun v => F64.round2
                              (v / scalar_float total_rebalanced_value
                               * 100)%float)
                  actual) ;;
     setitem "Real Weight (%)" w
   else setitem_scalar "Real Weight (%)" 0%float) ;;;
  (fun df => (reorder_rebalanced_columns df, df)).

(** The caller's sequence ([PortfolioRebalancerApp.run] in
    [src/app/portfolio_app.py]): the Metrics Calculator, then the
    Rebalancing Engine on the frame it has enriched. *)
Definition rebalance (additional_capital : float)
  : M (scalar * scalar * scalar * DataFrame) :=
  totals <- calculate_portfolio_metrics ;;
  out <- calculate_rebalancing_metrics additional_capital ;;
  ret (totals, out).

(** ** The fixture of the default portfolio *)

Definition fixture : DataFrame :=
  mkDF 3
    [("Ticker", Object [Some "TCS"; Some "INFY"; Some "HDFC"]);
     ("Shares Held", Int64 [10; 20; 12]%Z);
     ("Target Weight (%)", Float64 [25; 50; 25]%float);
     ("Current Price (per share)", Float64 [100; 50; 80]%float)].

(** ** Notions used in the statements *)

(** A price is unusable when it is not positive or missing. *)
Definition unpriced (price : float) : Prop :=
  (price <=? 0)%float = true \/ is_nan price = true.

(** The share count of one holding: the body of the loop of
    [optimize_shares]. *)
Definition share_of (row : float * float) : result Z :=
  let (price, target) := row in
  if (0 <? price)%float then F64.py_round (target / price)%float else Ok 0%Z.

Fixpoint mapM {A B} (f : A -> result B) (l : list A) : result (list B) :=
  match l with
  | [] => Ok []
  | a :: rest =>
      rbind (f a) (fun b => rbind (mapM f rest) (fun bs => Ok (b :: bs)))
  end.

(** A cell that contributes nothing: missing or zero. *)
Definition missing_or_zero (x : float) : bool :=
  is_nan x || is_zero x.

(** [n] is the integer nearest to the float [q], the even one of the
    two when [q] lies half way. *)
Definition rounds_half_even (q : float) (n : Z) : Prop :=
  match Prim2SF q with
  | S754_finite s m e =>
      let d := Qabs (inject_Z n - F64.SF2Q s m e) in
      (d <= 1 # 2)%Q /\ ((d == 1 # 2)%Q -> Z.even n = true)
  | S754_zero _ => n = 0%Z
  | _ => False
  end.

(** [w] is the float64 quotient of the integer [n] by 100 (a zero of
    either sign when [n] is 0). *)
Definition hundredths (n : Z) (w : float) : Prop :=
  if (n =? 0)%Z then is_zero w = true else w = (F64.of_Z n / 100)%float.

(** [w] is [x] to two decimals as numpy rounds: the float64 product
    [x * 100] is taken to the nearest integer, the even one of the two
    when it lies half way, and that integer is divided by 100 in
    float64.  A product of 2^52 or more is an integer already, and a
    product that is zero, infinite or missing is divided as it is. *)
Definition rounded_to_cents (x w : float) : Prop :=
  let y := (x * 100)%float in
  match Prim2SF y with
  | S754_finite _ _ e =>
      if (0 <=? e)%Z then w = (y / 100)%float
      else exists n, rounds_half_even y n /\ hundredths n w
  | _ => w = (y / 100)%float
  end.

(** Two floats that are equal, or zeros of either sign. *)
Definition same_but_zero_sign (x y : float) : Prop :=
  x = y \/ (is_zero x = true /\ is_zero y = true).

(** A zipped row (price, target) whose quotient Python can round. *)
Definition finite_quotient (row : float * float) : Prop :=
  (0 <? fst row)%float = true -> is_finite (snd row / fst row)%float = true.

(** Nine values, the first one missing, whose sum depends on the
    missing one being there. *)
Definition nine_values : list float :=
  [nan; 0.1; 0.2; 0.3; 0.4; 0.5; 0.6; 0.7; 0.8]%float.

(** The four checks of [validate_portfolio_data], each on its own. *)
Definition check_missing (df : DataFrame) : list string :=
  let missing :=
    filter (fun col => negb (mem col (column_names df))) required_columns in
  if is_empty missing then []
  else [("Missing required columns: " ++ py_repr_list missing)%string].

Definition check_negative (name msg : string) (df : DataFrame)
  : result (list string) :=
  match lookup name (columns df) with
  | None => Ok []
  | Some s => rbind (series_lt0 s) (fun neg => Ok (if any neg then [msg] else []))
  end.

Definition check_ticker (df : DataFrame) : list string :=
  match lookup "Ticker" (columns df) with
  | None => []
  | Some s =>
      if any (series_isna s) || any (series_eq_str s EmptyString)
      then ["Ticker symbols cannot be empty"] else []
  end.


(** A numeric column with a cell equal to -5. *)
Definition holds_minus_five (s : series) : Prop :=
  match s with
  | Int64 l => In (-5)%Z l
  | Float64 l => In (-5)%float l
  | Object _ => False
  end.

(** A numeric column without a negative cell. *)
Definition nonnegative (s : series) : Prop :=
  match s with
  | Int64 l => Forall (fun z => 0 <= z)%Z l
  | Float64 l => Forall (fun x => (x <? 0)%float = false) l
  | Object _ => False
  end.

(** A column of tickers, none missing and none empty. *)
Definition tickers_present (s : series) : Prop :=
  match s with
  | Object l => Forall (fun o => exists t, o = Some t /\ t <> EmptyString) l
  | _ => False
  end.

(** The percentage weights of the values of a column whose sum is
    [total], on an index of [n] rows: value / total * 100 to two
    decimals when the total is positive, else 0.0 on every row. *)
Definition weights_from (n : nat) (total : scalar) (values : list float)
  : list float :=
  if scalar_pos total
  then map (fun v => F64.round2 (v / scalar_float total * 100)%float) values
  else repeat 0%float n.

(** The same for a float64 column, whose sum is a float64. *)
Definition weights_of (n : nat) (values : list float) : list float :=
  weights_from n (FloatS (F64.nansum values)) values.

(** The weights of a numeric column. *)
Definition series_weights (n : nat) (values : series) : result (list float) :=
  rbind (series_sum values) (fun total =>
  rbind (to_floats values) (fun vs => Ok (weights_from n total vs))).

(** The target values, from the sum [total] of "Current Value" and the
    float view [ws] of "Target Weight (%)". *)
Definition target_values (cap : float) (total : scalar) (ws : list float)
  : list float :=
  map (fun w => (w / 100 * (scalar_float total + cap))%float) ws.

(** The post-trade values and the differences when prices and current
    values are float64 columns. *)
Definition actual_values (shares : list Z) (ps : list float) : list float :=
  zip_with PrimFloat.mul (map F64.of_Z shares) ps.

Definition differences (actual cv : list float) : list float :=
  zip_with PrimFloat.sub actual cv.

(** The columns of the frame once the engine has written its seven. *)
Definition rebalanced_columns (tv : list float) (shares : list Z)
  (actual difference : series) (ds : list float) (delta : series)
  (rw : list float) (cols : list (string * series))
  : list (string * series) :=
  assign "Real Weight (%)" (Float64 rw)
    (assign "Shares to Buy/Sell" delta
       (assign "Action" (Object (map action_of ds))
          (assign "Difference" difference
             (assign "Target Value (Actual)" actual
                (assign "Target Shares" (Int64 shares)
                   (assign "Target Value" (Float64 tv) cols)))))).

(** What the engine derives from the columns it reads: the sum of
    "Current Value", the float views of the target weights and of the
    prices, the share counts, the post-trade values, the differences
    and their float view, the share deltas and the real weights. *)
Record derived : Type := mkDerived {
  d_total : scalar;
  d_weights : list float;
  d_prices : list float;
  d_shares : list Z;
  d_actual : series;
  d_difference : series;
  d_diffs : list float;
  d_delta : series;
  d_real : list float
}.

Definition derives (n : nat) (cap : float) (cvs tws prs hs : series)
  (d : derived) : Prop :=
  series_sum cvs = Ok (d_total d) /\
  to_floats tws = Ok (d_weights d) /\
  to_floats prs = Ok (d_prices d) /\
  optimize_shares (d_prices d) (target_values cap (d_total d) (d_weights d))
  = Ok (d_shares d) /\
  List.length (d_shares d) = n /\
  forallb in_int64 (d_shares d) = true /\
  series_mul (Int64 (d_shares d)) prs = Ok (d_actual d) /\
  series_sub (d_actual d) cvs = Ok (d_difference d) /\
  to_floats (d_difference d) = Ok (d_diffs d) /\
  series_sub (Int64 (d_shares d)) hs = Ok (d_delta d) /\
  series_weights n (d_actual d) = Ok (d_real d).

Definition derived_columns (cap : float) (d : derived)
  (cols : list (string * series)) : list (string * series) :=
  rebalanced_columns (target_values cap (d_total d) (d_weights d))
    (d_shares d) (d_actual d) (d_difference d) (d_diffs d) (d_delta d)
    (d_real d) cols.

(** The input columns that are not canonical, in their order. *)
Definition extra_columns (df : DataFrame) : list string :=
  filter (fun col => negb (mem col column_order)) (column_names df).

(** A list without its [i]-th element. *)
Fixpoint remove_nth {A} (i : nat) (l : list A) : list A :=
  match l, i with
  | [], _ => []
  | _ :: rest, O => rest
  | a :: rest, S j => a :: remove_nth j rest
  end.

(** The columns each component writes. *)
Definition metrics_columns : list string :=
  ["Current Value"; "Current Weight (%)"].

Definition engine_columns : list string :=
  ["Target Value"; "Target Shares"; "Target Value (Actual)"; "Difference";
   "Action"; "Shares to Buy/Sell"; "Real Weight (%)"].

(** The fixture with every price at 0. *)
Definition zero_price_fixture : DataFrame :=
  mkDF 3
    [("Ticker", Object [Some "TCS"; Some "INFY"; Some "HDFC"]);
     ("Shares Held", Int64 [10; 20; 12]%Z);
     ("Target Weight (%)", Float64 [25; 50; 25]%float);
     ("Current Price (per share)", Float64 [0; 0; 0]%float)].

(** Two holdings of one share each whose first weight, 1.115, lies
    next to a tie of two decimals. *)
Definition tie_fixture : DataFrame :=
  mkDF 2
    [("Shares Held", Int64 [1; 1]%Z);
     ("Current Price (per share)", Float64 [1.115; 98.885]%float)].

(** The table an engine run returns, and the empty table if it raises. *)
Definition returned (r : result DataFrame * DataFrame) : DataFrame :=
  match r with
  | (Ok out, _) => out
  | (Raise _, _) => mkDF 0 []
  end.

Definition zero_price_enriched : DataFrame :=
  Eval vm_compute in snd (calculate_portfolio_metrics zero_price_fixture).

Definition zero_price_out : DataFrame :=
  Eval vm_compute in
    returned (calculate_rebalancing_metrics 0%float zero_price_enriched).

(** The fixture with no price for HDFC. *)
Definition missing_price_fixture : DataFrame :=
  mkDF 3
    [("Ticker", Object [Some "TCS"; Some "INFY"; Some "HDFC"]);
     ("Shares Held", Int64 [10; 20; 12]%Z);
     ("Target Weight (%)", Float64 [25; 50; 25]%float);
     ("Current Price (per share)", Float64 [100; 50; nan]%float)].

Definition missing_price_enriched : DataFrame :=
  Eval vm_compute in snd (calculate_portfolio_metrics missing_price_fixture).

Definition missing_price_out : DataFrame :=
  Eval vm_compute in
    returned (calculate_rebalancing_metrics 0%float missing_price_enriched).

(** The fixture with a column of the caller's own. *)
Definition fixture_with_sector : DataFrame :=
  mkDF 3
    [("Sector", Object [Some "IT"; Some "IT"; Some "Bank"]);
     ("Ticker", Object [Some "TCS"; Some "INFY"; Some "HDFC"]);
     ("Shares Held", Int64 [10; 20; 12]%Z);
     ("Target Weight (%)", Float64 [25; 50; 25]%float);
     ("Current Price (per share)", Float64 [100; 50; 80]%float)].

Definition sector_enriched : DataFrame :=
  Eval vm_compute in snd (calculate_portfolio_metrics fixture_with_sector).

Definition sector_out : DataFrame :=
  Eval vm_compute in
    returned (calculate_rebalancing_metrics 0%float sector_enriched).

(** The column a frame holds under a name. *)
Definition column (name : string) (df : DataFrame) : option series :=
  lookup name (columns df).

(** ** [src/app/portfolio_app.py]: prices *)

(** [self._price_cache], a dict from ticker to price. *)
Definition price_cache : Type := list (string * float).

Fixpoint cache_get (ticker : string) (cache : price_cache) : option float :=
  match cache with
  | [] => None
  | (t, p) :: rest => if String.eqb t ticker then Some p else cache_get ticker rest
  end.

(** The cells of a column as keys of the cache: only a string can be one
    (the cache is filled with tickers). *)
Definition ticker_cells (s : series) : list (option string) :=
  match s with
  | Object l => l
  | Int64 l => map (fun _ => None) l
  | Float64 l => map (fun _ => None) l
  end.

(** [self._price_cache.get(ticker, np.nan)] *)
Definition cached_price (cache : price_cache) (cell : option string) : float :=
  match cell with
  | Some ticker =>
      match cache_get ticker cache with
      | Some p => p
      | None => nan
      end
  | None => nan
  end.

(** [tickers.apply(lambda ticker: cache.get(ticker, np.nan))]: a float64
    column with one price per row; on a column without a row [apply]
    returns a copy of the column. *)
Definition price_column (cache : price_cache) (tickers : series) : series :=
  match ticker_cells tickers with
  | [] => tickers
  | cells => Float64 (map (cached_price cache) cells)
  end.

Section PriceService.

(** [PriceService.get_portfolio_prices], whose source is not part of the
    files at hand: any function from the tickers to a dict of prices that
    may raise. *)
Variable get_portfolio_prices : series -> result price_cache.

(** [PortfolioRebalancerApp.update_portfolio_prices(df)], on the cache
    and the frame: the cache is filled by the service when it is empty,
    and the price column is written from the cache. *)
Definition update_portfolio_prices (cache : price_cache) (df : DataFrame)
  : result unit * price_cache * DataFrame :=
  match lookup "Ticker" (columns df) with
  | None => (Raise (KeyError "Ticker"), cache, df)
  | Some tickers =>
      match (if is_empty cache then get_portfolio_prices tickers else Ok cache) with
      | Raise e => (Raise e, cache, df)
      | Ok cache' =>
          match lookup "Ticker" (columns df) with
          | None => (Raise (KeyError "Ticker"), cache', df)
          | Some column =>
              (Ok tt, cache',
               mkDF (index_len df)
                 (assign "Current Price (per share)"
                    (price_column cache' column) (columns df)))
          end
      end
  end.

End PriceService.

(** ** [src/services/data_service.py] *)

Definition core_columns : list string :=
  ["Ticker"; "Shares Held"; "Target Weight (%)"].

(** [df[names]] for a list of names: a new frame on the same index. *)
Definition getitem_list (names : list string) (df : DataFrame)
  : result DataFrame :=
  rbind (select names (columns df)) (fun cols => Ok (mkDF (index_len df) cols)).

(** What a call of [save_portfolio_data] ends with: the file written
    (the frame the CSV is made of), the ValueError it raises itself, with
    its message, or an exception of the selection.  The exceptions of the
    file system are not modelled. *)
Inductive save_outcome : Type :=
| Written (file : DataFrame)
| MissingColumn (message : string)
| SaveRaised (e : exn).

(** [DataService.save_portfolio_data(df)] *)
Definition save_portfolio_data (df : DataFrame) : save_outcome :=
  match find (fun col => negb (mem col (column_names df))) core_columns with
  | Some col => MissingColumn ("Missing required column: " ++ col)
  | None =>
      match getitem_list core_columns df with
      | Ok df_to_save => Written df_to_save
      | Raise e => SaveRaised e
      end
  end.

(** ** [src/ui/components.py] *)

(** The frame [render_download_button] turns into the CSV of the basket
    state: the tickers, the target shares as the shares held, and the
    target weights. *)
Definition basket_state (df : DataFrame) : result DataFrame :=
  match lookup "Ticker" (columns df) with
  | None => Raise (KeyError "Ticker")
  | Some tickers =>
      match lookup "Target Shares" (columns df) with
      | None => Raise (KeyError "Target Shares")
      | Some shares =>
          match lookup "Target Weight (%)" (columns df) with
          | None => Raise (KeyError "Target Weight (%)")
          | Some weights =>
              Ok (mkDF (index_len df)
                    [("Ticker", tickers); ("Shares Held", shares);
                     ("Target Weight (%)", weights)])
          end
      end
  end.

(** ** [str.strip()] on UTF-8 text *)

(** The encodings of the characters Python's [str.isspace] accepts:
    U+0009..U+000D, U+001C..U+0020, U+0085, U+00A0, U+1680,
    U+2000..U+200A, U+2028, U+2029, U+202F, U+205F and U+3000. *)
Definition ascii_space (c : ascii) : bool :=
  let n := nat_of_ascii c in
  ((9 <=? n) && (n <=? 13) || (28 <=? n) && (n <=? 32))%nat.

Definition byte_is (n : nat) (c : ascii) : bool := Nat.eqb (nat_of_ascii c) n.

(** The number of bytes of the white-space character a list of bytes
    starts with, 0 when it starts with none. *)
Definition space_prefix (l : list ascii) : nat :=
  match l with
  | c :: rest =>
      if ascii_space c then 1
      else
        match rest with
        | d :: rest' =>
            if byte_is 194 c && (byte_is 133 d || byte_is 160 d) then 2
            else
              match rest' with
              | e :: _ =>
                  let n := nat_of_ascii e in
                  if byte_is 225 c && byte_is 154 d && byte_is 128 e then 3
                  else if byte_is 226 c && byte_is 128 d
                          && ((128 <=? n) && (n <=? 138)
                              || byte_is 168 e || byte_is 169 e
                              || byte_is 175 e)%nat then 3
                  else if byte_is 226 c && byte_is 129 d && byte_is 159 e then 3
                  else if byte_is 227 c && byte_is 128 d && byte_is 128 e then 3
                  else 0
              | [] => 0
              end
        | [] => 0
        end
  | [] => 0
  end%nat.

(** The same at the end of the text, on the reversed bytes. *)
Definition space_suffix (r : list ascii) : nat :=
  match r with
  | c :: rest =>
      if ascii_space c then 1
      else
        match rest with
        | d :: rest' =>
            if byte_is 194 d && (byte_is 133 c || byte_is 160 c) then 2
            else
              match rest' with
              | e :: _ =>
                  let n := nat_of_ascii c in
                  if byte_is 225 e && byte_is 154 d && byte_is 128 c then 3
                  else if byte_is 226 e && byte_is 128 d
                          && ((128 <=? n) && (n <=? 138)
                              || byte_is 168 c || byte_is 169 c
                              || byte_is 175 c)%nat then 3
                  else if byte_is 226 e && byte_is 129 d && byte_is 159 c then 3
                  else if byte_is 227 e && byte_is 128 d && byte_is 128 c then 3
                  else 0
              | [] => 0
              end
        | [] => 0
        end
  | [] => 0
  end%nat.

(** Drop white space from the front, at most [fuel] characters. *)
Fixpoint drop_spaces (prefix : list ascii -> nat) (fuel : nat) (l : list ascii)
  : list ascii :=
  match fuel with
  | O => l
  | S fuel' =>
      match prefix l with
      | O => l
      | k => drop_spaces prefix fuel' (skipn k l)
      end
  end.

Definition py_strip (s : string) : string :=
  let l := list_ascii_of_string s in
  let l := drop_spaces space_prefix (List.length l) l in
  let r := drop_spaces space_suffix (List.length l) (rev l) in
  string_of_list_ascii (rev r).

(** ** Reading a portfolio *)

Definition expected_columns : list string :=
  ["Ticker"; "Shares Held"; "Target Weight (%)"].

Definition list_string_eqb (a b : list string) : bool :=
  if list_eq_dec string_dec a b then true else false.

(** What [read_portfolio_csv] ends with once pandas has parsed the file:
    the frame it returns, the ValueError of the schema check (with the
    stripped names it met), or another exception. *)
Inductive read_outcome : Type :=
| Loaded (df : DataFrame)
| SchemaMismatch (incoming : list string)
| ReadRaised (e : exn).

(** [DataService._validate_csv_columns(df)]: the stripped names when they
    are not the expected ones. *)
Definition validate_csv_columns (df : DataFrame) : option (list string) :=
  let incoming_columns := map py_strip (column_names df) in
  if list_string_eqb incoming_columns expected_columns then None
  else Some incoming_columns.

Section ReadCsv.

(** The conversions of pandas [read_portfolio_csv] applies to the three
    columns ([astype(str).str.strip()], [to_numeric(..).astype(int)],
    [to_numeric(..).astype(float)]): any functions that may raise. *)
Variables clean_tickers coerce_shares coerce_weights : series -> result series.

(** [DataService.read_portfolio_csv], from the frame [pd.read_csv] has
    parsed. *)
Definition read_portfolio_csv (df : DataFrame) : read_outcome :=
  match validate_csv_columns df with
  | Some incoming => SchemaMismatch incoming
  | None =>
      let run : M unit :=
        tickers <- getitem "Ticker" ;;
        tickers' <- lift (clean_tickers tickers) ;;
        setitem "Ticker" tickers' ;;;
        shares <- getitem "Shares Held" ;;
        shares' <- lift (coerce_shares shares) ;;
        setitem "Shares Held" shares' ;;;
        weights <- getitem "Target Weight (%)" ;;
        weights' <- lift (coerce_weights weights) ;;
        setitem "Target Weight (%)" weights' in
      match run df with
      | (Ok _, df') => Loaded df'
      | (Raise e, _) => ReadRaised e
      end
  end.

End ReadCsv.

(** ** More notions used in the statements *)

(** A float that is not negative; a missing value is not. *)
Definition not_negative (x : float) : Prop := (x <? 0)%float = false.

(** The same on the value a float stands for. *)
Definition sf_nonneg (x : spec_float) : Prop :=
  match x with
  | S754_nan => True
  | S754_zero _ => True
  | S754_infinity s => s = false
  | S754_finite s _ _ => s = false
  end.

(** A value above zero. *)
Definition sf_pos (x : spec_float) : Prop :=
  match x with
  | S754_infinity false | S754_finite false _ _ => True
  | _ => False
  end.

(** The table as the editor hands it over, before prices are attached. *)
Definition bare_fixture : DataFrame :=
  mkDF 3
    [("Ticker", Object [Some "TCS"; Some "INFY"; Some "HDFC"]);
     ("Shares Held", Int64 [10; 20; 12]%Z);
     ("Target Weight (%)", Float64 [25; 50; 25]%float)].

(** A price service that knows TCS and INFY, and one that knows no
    ticker. *)
Definition two_prices (tickers : series) : result price_cache :=
  Ok [("TCS", 100%float); ("INFY", 50%float)].

Definition no_price (tickers : series) : result price_cache := Ok [].

(** A parsed CSV whose header has a blank after each comma. *)
Definition padded_csv : DataFrame :=
  mkDF 1
    [("Ticker", Object [Some "TCS"]);
     (String (ascii_of_nat 32) "Shares Held", Int64 [10]%Z);
     (String (ascii_of_nat 32) "Target Weight (%)", Float64 [100]%float)].

(** ** Facts on float64 comparisons and NaN *)

Section FloatFacts.

Local Open Scope float_scope.

Lemma Prim2SF_nan : Prim2SF nan = S754_nan.
Proof. reflexivity. Qed.

Lemma Prim2SF_zero : Prim2SF 0 = S754_zero false.
Proof. reflexivity. Qed.

Lemma SFcompare_refl (x : spec_float) :
  x <> S754_nan -> SFcompare x x = Some Eq.
Proof.
  destruct x as [s | s | | s m e]; simpl; intros H;
    try (destruct s; reflexivity); try congruence.
  destruct s; rewrite Z.compare_refl;
    change (Pos.compare_cont Eq m m) with (Pos.compare m m);
    rewrite Pos.compare_refl; reflexivity.
Qed.

Lemma is_nan_Prim2SF (x : float) :
  is_nan x = true <-> Prim2SF x = S754_nan.
Proof.
  unfold is_nan. rewrite FloatAxioms.eqb_spec. unfold SFeqb. split.
  - intros H. destruct (Prim2SF x) eqn:E; try reflexivity;
      rewrite SFcompare_refl in H by discriminate; discriminate.
  - intros ->. reflexivity.
Qed.

Lemma is_nan_eq (x : float) : is_nan x = true <-> x = nan.
Proof.
  rewrite is_nan_Prim2SF. split.
  - intros H. apply Prim2SF_inj. rewrite H. reflexivity.
  - intros ->. reflexivity.
Qed.

Lemma ltb_nan_l (x : float) : (nan <? x) = false.
Proof. rewrite FloatAxioms.ltb_spec, Prim2SF_nan. reflexivity. Qed.

Lemma ltb_nan_r (x : float) : (x <? nan) = false.
Proof.
  rewrite FloatAxioms.ltb_spec, Prim2SF_nan. unfold SFltb.
  destruct (Prim2SF x); reflexivity.
Qed.

Lemma mul_nan_r (x : float) : x * nan = nan.
Proof.
  apply Prim2SF_inj. rewrite mul_spec, Prim2SF_nan.
  destruct (Prim2SF x); reflexivity.
Qed.

Lemma sub_nan_l (x : float) : nan - x = nan.
Proof. apply Prim2SF_inj. rewrite sub_spec, Prim2SF_nan. reflexivity. Qed.

(** [price <= 0] excludes [0 < price]. *)
Lemma leb_zero_not_pos (x : float) : (x <=? 0) = true -> (0 <? x) = false.
Proof.
  rewrite FloatAxioms.leb_spec, FloatAxioms.ltb_spec, Prim2SF_zero. unfold SFleb, SFltb.
  destruct (Prim2SF x) as [s | s | | s m e]; simpl;
    try (destruct s; simpl; congruence); congruence.
Qed.

Lemma unpriced_not_pos (price : float) :
  unpriced price -> (0 <? price) = false.
Proof.
  intros [H | H].
  - now apply leb_zero_not_pos.
  - apply is_nan_eq in H. subst. apply ltb_nan_r.
Qed.

End FloatFacts.

(** ** The nearest integer, ties to even *)

Section Rounding.

Lemma rne_shift_spec (m k : Z) :
  0 <= m -> 0 < k ->
  let n := F64.rne_shift m k in
  2 * Z.abs (n * 2 ^ k - m) <= 2 ^ k /\
  (2 * Z.abs (n * 2 ^ k - m) = 2 ^ k -> Z.even n = true).
Proof.
  intros Hm Hk. unfold F64.rne_shift.
  assert (HD : 2 ^ k = 2 * 2 ^ (k - 1)).
  { replace k with (Z.succ (k - 1)) at 1 by lia.
    rewrite Z.pow_succ_r by lia. reflexivity. }
  assert (Hh : 0 < 2 ^ (k - 1)) by (apply Z.pow_pos_nonneg; lia).
  pose proof (Z.div_mod m (2 ^ k) ltac:(lia)) as Hdm.
  pose proof (Z.mod_pos_bound m (2 ^ k) ltac:(lia)) as Hr.
  set (q := m / 2 ^ k) in *. set (r := m mod 2 ^ k) in *.
  set (h := 2 ^ (k - 1)) in *.
  destruct (Z.ltb_spec r h) as [H1 | H1]; cbn zeta.
  - split; [lia | intros; lia].
  - destruct (Z.ltb_spec h r) as [H2 | H2].
    + split; [lia | intros; lia].
    + assert (r = h) by lia.
      destruct (Z.even q) eqn:Hq.
      * split; [lia | auto].
      * split; [lia | intros _].
        rewrite Z.even_add, Hq. reflexivity.
Qed.

(** [nearest_int] is within one half of the float's exact value, and
    even when exactly one half away. *)
Lemma nearest_int_spec (s : bool) (m : positive) (e : Z) :
  let d := Qabs (inject_Z (F64.nearest_int s m e) - F64.SF2Q s m e) in
  (d <= 1 # 2)%Q /\
  (d == 1 # 2 -> Z.even (F64.nearest_int s m e) = true)%Q.
Proof.
  unfold F64.nearest_int, F64.SF2Q.
  destruct (Z.leb_spec 0 e) as [He | He].
  - assert (E : ((if s then - (Z.pos m * 2 ^ e) else Z.pos m * 2 ^ e)
                 = (if s then Z.neg m else Z.pos m) * 2 ^ e)%Z)
      by (destruct s; lia).
    rewrite E. cbn zeta.
    set (v := ((if s then Z.neg m else Z.pos m) * 2 ^ e)%Z).
    assert (Hz : (inject_Z v - inject_Z v == 0)%Q) by ring.
    split.
    + rewrite Hz. discriminate.
    + rewrite Hz. intros H. discriminate H.
  - pose proof (rne_shift_spec (Z.pos m) (- e) ltac:(lia) ltac:(lia)) as [A B].
    assert (HD : (0 < 2 ^ (- e))%Z) by (apply Z.pow_pos_nonneg; lia).
    set (a := F64.rne_shift (Z.pos m) (- e)) in *.
    cbn zeta.
    unfold Qabs, Qminus, Qplus, Qopp, Qle, Qeq, inject_Z; simpl.
    rewrite !Z2Pos.id by lia.
    destruct s; split; try lia.
    + intros H. rewrite Z.even_opp. apply B. lia.
    + intros H. apply B. lia.
Qed.

End Rounding.

(** ** [optimize_shares] *)

Section OptimizeShares.

Lemma optimize_loop_mapM (rows : list (float * float)) (acc : list Z) :
  optimize_loop rows acc =
  rbind (mapM share_of rows) (fun l => Ok (acc ++ l)%list).
Proof.
  revert acc. induction rows as [| [price target] rows IH]; intros acc; simpl.
  - now rewrite app_nil_r.
  - destruct (0 <? price)%float.
    + destruct (F64.py_round (target / price)) as [n | e]; simpl; [| reflexivity].
      rewrite IH. destruct (mapM share_of rows); simpl; [| reflexivity].
      now rewrite <- app_assoc.
    + rewrite IH. destruct (mapM share_of rows); simpl; [| reflexivity].
      now rewrite <- app_assoc.
Qed.

Lemma optimize_shares_mapM (prices targets : list float) :
  optimize_shares prices targets = mapM share_of (combine prices targets).
Proof.
  unfold optimize_shares. rewrite optimize_loop_mapM.
  destruct (mapM share_of (combine prices targets)); reflexivity.
Qed.

Lemma mapM_Ok_Forall2 {A B} (f : A -> result B) (l : list A) (r : list B) :
  mapM f l = Ok r <-> Forall2 (fun a b => f a = Ok b) l r.
Proof.
  revert r. induction l as [| a l IH]; intros r; simpl.
  - split; [intros [= <-]; constructor | intros H; inversion H; reflexivity].
  - split.
    + destruct (f a) as [b |] eqn:Ea; simpl; [| discriminate].
      destruct (mapM f l) as [bs |] eqn:El; simpl; [| discriminate].
      intros [= <-]. constructor; [assumption | now apply IH].
    + intros H. inversion H as [| ? b ? bs Ha Hl]; subst.
      rewrite Ha. simpl. apply IH in Hl. rewrite Hl. reflexivity.
Qed.

Lemma mapM_length {A B} (f : A -> result B) (l : list A) (r : list B) :
  mapM f l = Ok r -> List.length r = List.length l.
Proof.
  intros H. apply mapM_Ok_Forall2 in H.
  symmetry. eapply Forall2_length; eassumption.
Qed.

Lemma mapM_nth {A B} (f : A -> result B) (l : list A) (r : list B) i a :
  mapM f l = Ok r -> nth_error l i = Some a ->
  exists b, nth_error r i = Some b /\ f a = Ok b.
Proof.
  intros H. apply mapM_Ok_Forall2 in H. revert i.
  induction H as [| x y l r Hxy Hl IH]; intros i Hi.
  - destruct i; discriminate.
  - destruct i as [| i]; simpl in *.
    + injection Hi as <-. eauto.
    + auto.
Qed.

Lemma mapM_total {A B} (f : A -> result B) (l : list A) :
  Forall (fun a => exists b, f a = Ok b) l -> exists r, mapM f l = Ok r.
Proof.
  induction 1 as [| a l [b Hb] _ [r Hr]]; simpl.
  - eauto.
  - rewrite Hb, Hr. simpl. eauto.
Qed.

Lemma combine_nth_error {A B} (xs : list A) (ys : list B) i x y :
  nth_error xs i = Some x -> nth_error ys i = Some y ->
  nth_error (combine xs ys) i = Some (x, y).
Proof.
  revert ys i. induction xs as [| x' xs IH]; intros [| y' ys] [| i];
    simpl; try discriminate.
  - now intros [= ->] [= ->].
  - apply IH.
Qed.

End OptimizeShares.

Section OptimizeSharesClaims.

Local Open Scope float_scope.

Lemma is_finite_Prim2SF (x : float) :
  is_finite x = true ->
  Prim2SF x <> S754_nan /\ forall s, Prim2SF x <> S754_infinity s.
Proof.
  unfold is_finite, is_infinity. rewrite negb_true_iff, orb_false_iff.
  intros [Hn Hi]. split.
  - intros E. apply is_nan_Prim2SF in E. congruence.
  - intros s E. rewrite FloatAxioms.eqb_spec, abs_spec, E in Hi.
    discriminate Hi.
Qed.

Lemma py_round_rounds (q : float) (n : Z) :
  F64.py_round q = Ok n -> rounds_half_even q n.
Proof.
  unfold F64.py_round, rounds_half_even.
  destruct (Prim2SF q) as [s | s | | s m e]; try discriminate.
  - now intros [= <-].
  - intros [= <-]. apply nearest_int_spec.
Qed.

Lemma py_round_finite (q : float) :
  is_finite q = true -> exists n, F64.py_round q = Ok n.
Proof.
  intros H. apply is_finite_Prim2SF in H as [Hn Hi]. unfold F64.py_round.
  destruct (Prim2SF q) as [s | s | | s m e]; eauto.
  - now destruct (Hi s).
  - now destruct Hn.
Qed.

(** C3: a holding with a positive price gets
    [round(target_value / current_price)], the nearest integer with
    ties to the even one (Python's convention for [round] on a float);
    at price 50 and target 125 the quotient is exactly 2.5 and the
    share count is 2. *)
Theorem optimize_shares_rounds_half_even :
  (forall prices targets shares i price target,
      optimize_shares prices targets = Ok shares ->
      nth_error prices i = Some price ->
      nth_error targets i = Some target ->
      (0 <? price) = true ->
      exists n, nth_error shares i = Some n /\
                F64.py_round (target / price) = Ok n /\
                rounds_half_even (target / price) n) /\
  (forall price target,
      (0 <? price) = true ->
      is_finite (target / price) = true ->
      exists n, optimize_shares [price] [target] = Ok [n] /\
                rounds_half_even (target / price) n) /\
  125 / 50 = 2.5 /\
  optimize_shares [50] [125] = Ok [2%Z].
Proof.
  split; [| split; [| split]].
  - intros prices targets shares i price target Hs Hp Ht Hpos.
    rewrite optimize_shares_mapM in Hs.
    destruct (mapM_nth _ _ _ i (price, target) Hs
                (combine_nth_error _ _ _ _ _ Hp Ht)) as (n & Hn & Hf).
    simpl in Hf. rewrite Hpos in Hf.
    exists n. auto using py_round_rounds.
  - intros price target Hpos Hfin.
    destruct (py_round_finite _ Hfin) as [n Hn].
    exists n. split; [| now apply py_round_rounds].
    unfold optimize_shares; simpl. rewrite Hpos, Hn. reflexivity.
  - reflexivity.
  - reflexivity.
Qed.

Lemma optimize_shares_rounds_half_even_witness :
  exists n, nth_error [5%Z; 2%Z] 1 = Some n /\
            F64.py_round (125 / 50) = Ok n /\
            rounds_half_even (125 / 50) n.
Proof.
  apply (proj1 optimize_shares_rounds_half_even
           [100; 50] [500; 125] [5%Z; 2%Z] 1%nat 50 125);
    reflexivity.
Defined.

(** C4: a holding whose price is not positive or is missing gets 0
    shares, whatever its target value. *)
Theorem optimize_shares_unpriced_zero :
  (forall price target,
      unpriced price -> optimize_shares [price] [target] = Ok [0%Z]) /\
  (forall prices targets shares i price,
      optimize_shares prices targets = Ok shares ->
      nth_error prices i = Some price ->
      (i < List.length targets)%nat ->
      unpriced price ->
      nth_error shares i = Some 0%Z).
Proof.
  split.
  - intros price target H. apply unpriced_not_pos in H.
    unfold optimize_shares; simpl. now rewrite H.
  - intros prices targets shares i price Hs Hp Hi H.
    apply unpriced_not_pos in H.
    destruct (nth_error targets i) as [target |] eqn:Ht;
      [| apply nth_error_None in Ht; lia].
    rewrite optimize_shares_mapM in Hs.
    destruct (mapM_nth _ _ _ i (price, target) Hs
                (combine_nth_error _ _ _ _ _ Hp Ht)) as (n & Hn & Hf).
    simpl in Hf. rewrite H in Hf. congruence.
Qed.

Lemma optimize_shares_unpriced_zero_witness :
  optimize_shares [nan] [500] = Ok [0%Z] /\
  nth_error [5%Z; 0%Z; 0%Z] 2 = Some 0%Z.
Proof.
  split.
  - apply (proj1 optimize_shares_unpriced_zero nan 500).
    right. reflexivity.
  - apply (proj2 optimize_shares_unpriced_zero
             [100; nan; -3] [500; 500; 500] [5%Z; 0%Z; 0%Z] 2%nat (-3));
      try reflexivity.
    + simpl. lia.
    + left. reflexivity.
Defined.

End OptimizeSharesClaims.

(** ** The fixture, end to end *)

(** C1: on the fixture TCS 10 @ 100 (25%), INFY 20 @ 50 (50%), HDFC 12 @
    80 (25%), the Metrics Calculator followed by the Rebalancing Engine
    gives, without additional capital, current values 1000, 1000, 960,
    total 2960, current weights 33.78, 33.78, 32.43, target values 740,
    1480, 740, target shares 7, 30, 9 and actions Sell, Buy, Sell; with
    additional capital 1000 the total becomes 3960, the target values
    990, 1980, 990 and the target shares 10, 40, 12. *)
Theorem fixture_end_to_end :
  match rebalance 0 fixture with
  | (Ok (total, _, _, out), _) =>
      total = FloatS 2960 /\
      column "Current Value" out = Some (Float64 [1000; 1000; 960]%float) /\
      column "Current Weight (%)" out
        = Some (Float64 [33.78; 33.78; 32.43]%float) /\
      column "Target Value" out = Some (Float64 [740; 1480; 740]%float) /\
      column "Target Shares" out = Some (Int64 [7; 30; 9]) /\
      column "Action" out = Some (Object [Some "Sell"; Some "Buy"; Some "Sell"])
  | _ => False
  end /\
  match rebalance 1000 fixture with
  | (Ok (total, _, _, out), _) =>
      (scalar_float total + 1000 = 3960)%float /\
      column "Target Value" out = Some (Float64 [990; 1980; 990]%float) /\
      column "Target Shares" out = Some (Int64 [10; 40; 12])
  | _ => False
  end.
Proof. vm_compute. repeat split. Qed.

(** ** Frames: lookup and assignment *)

Section Frames.

Lemma mem_lookup (name : string) (cols : list (string * series)) :
  mem name (map fst cols) =
  match lookup name cols with Some _ => true | None => false end.
Proof.
  induction cols as [| [n s] cols IH]; simpl; [reflexivity |].
  rewrite (String.eqb_sym name n).
  destruct (String.eqb n name); simpl; auto.
Qed.

Lemma lookup_assign_eq (name : string) (s : series) cols :
  lookup name (assign name s cols) = Some s.
Proof.
  induction cols as [| [n s'] cols IH]; simpl.
  - now rewrite String.eqb_refl.
  - destruct (String.eqb n name) eqn:E; simpl; rewrite E; auto.
Qed.

Lemma lookup_assign_neq (name name' : string) (s : series) cols :
  String.eqb name' name = false ->
  lookup name (assign name' s cols) = lookup name cols.
Proof.
  intros Hne. induction cols as [| [n s'] cols IH]; simpl.
  - now rewrite Hne.
  - destruct (String.eqb n name') eqn:E; simpl.
    + apply String.eqb_eq in E. subst n. now rewrite Hne.
    + now rewrite IH.
Qed.

Lemma assign_same (name : string) (s : series) cols :
  lookup name cols = Some s -> assign name s cols = cols.
Proof.
  induction cols as [| [n s'] cols IH]; simpl; [discriminate |].
  destruct (String.eqb n name).
  - now intros [= ->].
  - intros H. now rewrite IH.
Qed.

End Frames.

(** ** One step of a monadic computation *)

Section Steps.

Context {A B : Type}.
Implicit Types (k : A -> M B) (df : DataFrame).

Lemma bind_ret (a : A) k df : bind (ret a) k df = k a df.
Proof. reflexivity. Qed.

Lemma bind_lift (r : result A) k df :
  bind (lift r) k df =
  match r with Ok a => k a df | Raise e => (Raise e, df) end.
Proof. unfold bind, lift. destruct r; reflexivity. Qed.

Lemma bind_assoc {C} (m : M C) (f : C -> M A) k df :
  bind (bind m f) k df = bind m (fun c => bind (f c) k) df.
Proof. unfold bind. destruct (m df) as [[c | e] df']; reflexivity. Qed.

Lemma bind_if {C} (b : bool) (m1 m2 : M C) (f : C -> M B) df :
  bind (if b then m1 else m2) f df =
  if b then bind m1 f df else bind m2 f df.
Proof. destruct b; reflexivity. Qed.

End Steps.

Section FrameSteps.

Context {B : Type}.
Implicit Types (df : DataFrame).

Lemma bind_getitem (name : string) (k : series -> M B) df :
  bind (getitem name) k df =
  match lookup name (columns df) with
  | Some s => k s df
  | None => (Raise (KeyError name), df)
  end.
Proof.
  unfold bind, getitem. destruct (lookup name (columns df)); reflexivity.
Qed.

Lemma bind_setitem (name : string) (s : series) (k : unit -> M B) df :
  bind (setitem name s) k df =
  k tt (mkDF (index_len df) (assign name s (columns df))).
Proof. reflexivity. Qed.

Lemma bind_setitem_scalar (name : string) (x : float) (k : unit -> M B) df :
  bind (setitem_scalar name x) k df =
  k tt (mkDF (index_len df)
          (assign name (Float64 (repeat x (index_len df))) (columns df))).
Proof. reflexivity. Qed.

Lemma bind_setitem_list (name : string) (l : list Z) (k : unit -> M B) df :
  bind (setitem_list name l) k df =
  if Nat.eqb (List.length l) (index_len df)
  then if forallb in_int64 l
       then k tt (mkDF (index_len df) (assign name (Int64 l) (columns df)))
       else (Raise NotModelled, df)
  else (Raise ValueError, df).
Proof.
  unfold bind, setitem_list.
  destruct (Nat.eqb (List.length l) (index_len df)); [| reflexivity].
  destruct (forallb in_int64 l); reflexivity.
Qed.

Lemma bind_has_column (name : string) (k : bool -> M B) df :
  bind (has_column name) k df =
  k (match lookup name (columns df) with Some _ => true | None => false end) df.
Proof. unfold bind, has_column, column_names. now rewrite mem_lookup. Qed.

Lemma bind_get_columns (k : list string -> M B) df :
  bind get_columns k df = k (column_names df) df.
Proof. reflexivity. Qed.

End FrameSteps.

Ltac mstep :=
  first [ rewrite bind_assoc
        | rewrite bind_ret
        | rewrite bind_lift
        | rewrite bind_getitem
        | rewrite bind_setitem
        | rewrite bind_setitem_scalar
        | rewrite bind_setitem_list
        | rewrite bind_has_column
        | rewrite bind_get_columns ];
  cbv beta.

(** ** [validate_portfolio_data] *)

Section Validate.

(** The validator reads the frame and never writes it; its messages are
    those of the four checks, in order. *)
Lemma validate_checks (df : DataFrame) :
  validate_portfolio_data df =
  (rbind (check_negative "Shares Held" "Shares held cannot be negative" df)
     (fun e2 =>
      rbind (check_negative "Target Weight (%)"
               "Target weights cannot be negative" df)
        (fun e3 => Ok (check_missing df ++ e2 ++ e3 ++ check_ticker df)%list)),
   df).
Proof.
  unfold validate_portfolio_data, check_negative, check_ticker, check_missing.
  cbv zeta. mstep.
  set (missing := filter _ required_columns).
  assert (He1 : (if is_empty missing then []
                 else ([] ++ [("Missing required columns: "
                              ++ py_repr_list missing)%string])%list)
                = if is_empty missing then []
                  else [("Missing required columns: "
                              ++ py_repr_list missing)%string])
    by reflexivity.
  rewrite He1. clear He1.
  set (e1 := if is_empty missing then _ else _).
  mstep.
  destruct (lookup "Shares Held" (columns df)) as [sh |] eqn:Esh;
    destruct (lookup "Target Weight (%)" (columns df)) as [tw |] eqn:Etw;
    destruct (lookup "Ticker" (columns df)) as [tk |] eqn:Etk;
    repeat (first [ mstep | rewrite Esh | rewrite Etw | rewrite Etk
                  | match goal with
                    | |- context [series_lt0 ?s] =>
                        destruct (series_lt0 s); simpl; [| reflexivity]
                    end ]);
    unfold ret; simpl;
    repeat match goal with
           | |- context [any ?l] => destruct (any l); simpl
           end;
    rewrite ?app_nil_r, <- ?app_assoc; reflexivity.
Qed.

End Validate.

Section ValidateClaims.

Lemma any_false_Forall {A} (f : A -> bool) (l : list A) :
  Forall (fun a => f a = false) l -> any (map f l) = false.
Proof.
  unfold any. induction 1 as [| a l Ha _ IH]; simpl; [reflexivity |].
  now rewrite Ha, IH.
Qed.

Lemma any_true_In {A} (f : A -> bool) (l : list A) (a : A) :
  In a l -> f a = true -> any (map f l) = true.
Proof.
  intros Hin Ha. unfold any. apply existsb_exists.
  exists true. split; [| reflexivity].
  rewrite <- Ha. now apply in_map.
Qed.

Lemma holds_minus_five_lt0 (s : series) :
  holds_minus_five s -> exists neg, series_lt0 s = Ok neg /\ any neg = true.
Proof.
  destruct s as [l | l | l]; simpl; intros H; [| | contradiction].
  - eexists; split; [reflexivity |]. now apply any_true_In with (a := (-5)%Z).
  - eexists; split; [reflexivity |]. now apply any_true_In with (a := (-5)%float).
Qed.

Lemma nonnegative_lt0 (s : series) :
  nonnegative s -> exists neg, series_lt0 s = Ok neg /\ any neg = false.
Proof.
  destruct s as [l | l | l]; simpl; intros H; [| | contradiction].
  - eexists; split; [reflexivity |]. apply any_false_Forall.
    eapply Forall_impl; [| exact H]. intros z Hz. apply Z.ltb_ge. exact Hz.
  - eexists; split; [reflexivity |]. now apply any_false_Forall.
Qed.

Lemma tickers_present_ok (s : series) :
  tickers_present s ->
  any (series_isna s) || any (series_eq_str s EmptyString) = false.
Proof.
  destruct s as [l | l | l]; simpl; try contradiction. intros H.
  rewrite !any_false_Forall; [reflexivity | |].
  - eapply Forall_impl; [| exact H]. intros o (t & -> & Ht).
    now apply String.eqb_neq.
  - eapply Forall_impl; [| exact H]. now intros o (t & -> & _).
Qed.

Lemma check_negative_length (name msg : string) (df : DataFrame) e :
  check_negative name msg df = Ok e -> (List.length e <= 1)%nat.
Proof.
  unfold check_negative. destruct (lookup name (columns df)) as [s |].
  - destruct (series_lt0 s) as [neg |]; simpl; [| discriminate].
    intros [= <-]. destruct (any neg); simpl; lia.
  - intros [= <-]. simpl. lia.
Qed.

(** C6: a table with the three required columns, a row whose shares
    held are -5, no negative target weight and no empty ticker is
    answered with the one message "Shares held cannot be negative", and
    is left as it was.  In general the frame is never written, the four
    checks are made one after the other whatever the earlier ones found,
    and each adds at most one message. *)
Theorem validate_negative_shares :
  (forall df tk sh tw,
      column "Ticker" df = Some tk ->
      column "Shares Held" df = Some sh ->
      column "Target Weight (%)" df = Some tw ->
      tickers_present tk -> holds_minus_five sh -> nonnegative tw ->
      validate_portfolio_data df = (Ok ["Shares held cannot be negative"], df)) /\
  (forall df,
      snd (validate_portfolio_data df) = df /\
      fst (validate_portfolio_data df) =
        rbind (check_negative "Shares Held"
                 "Shares held cannot be negative" df) (fun e2 =>
        rbind (check_negative "Target Weight (%)"
                 "Target weights cannot be negative" df) (fun e3 =>
        Ok (check_missing df ++ e2 ++ e3 ++ check_ticker df)%list)) /\
      (List.length (check_missing df) <= 1)%nat /\
      (forall name msg e,
          check_negative name msg df = Ok e -> (List.length e <= 1)%nat) /\
      (List.length (check_ticker df) <= 1)%nat).
Proof.
  split.
  - intros df tk sh tw Htk Hsh Htw Ptk Psh Ptw. unfold column in *.
    rewrite validate_checks.
    destruct (holds_minus_five_lt0 _ Psh) as (n1 & E1 & A1).
    destruct (nonnegative_lt0 _ Ptw) as (n2 & E2 & A2).
    pose proof (tickers_present_ok _ Ptk) as A3.
    unfold check_negative, check_ticker, check_missing, column_names.
    rewrite Hsh, Htw, Htk, E1, E2, A3. simpl. rewrite A1, A2.
    unfold required_columns. simpl. rewrite !mem_lookup, Hsh, Htw, Htk.
    reflexivity.
  - intros df. rewrite validate_checks. simpl.
    repeat split.
    + unfold check_missing. destruct (is_empty _); simpl; lia.
    + intros name msg e. apply check_negative_length.
    + unfold check_ticker. destruct (lookup "Ticker" (columns df)); simpl; [| lia].
      destruct (_ || _); simpl; lia.
Qed.

Lemma validate_negative_shares_witness :
  validate_portfolio_data
    (mkDF 3 [("Ticker", Object [Some "TCS"; Some "INFY"; Some "HDFC"]);
             ("Shares Held", Int64 [10; -5; 12]);
             ("Target Weight (%)", Float64 [25; 50; 25]%float)])
  = (Ok ["Shares held cannot be negative"],
     mkDF 3 [("Ticker", Object [Some "TCS"; Some "INFY"; Some "HDFC"]);
             ("Shares Held", Int64 [10; -5; 12]);
             ("Target Weight (%)", Float64 [25; 50; 25]%float)]).
Proof.
  eapply (proj1 validate_negative_shares); try reflexivity.
  - simpl. repeat constructor; eexists; (split; [reflexivity | discriminate]).
  - simpl. auto.
  - simpl. repeat constructor.
Defined.




(** What the validator answers on that table: the missing columns are
    listed and the shares are still checked. *)
Example validate_missing_columns_example :
  validate_portfolio_data (mkDF 2 [("Shares Held", Int64 [3; -1])]) =
  (Ok ["Missing required columns: ['Ticker', 'Target Weight (%)']";
       "Shares held cannot be negative"],
   mkDF 2 [("Shares Held", Int64 [3; -1])]).
Proof. reflexivity. Qed.

End ValidateClaims.

(** ** [calculate_portfolio_metrics] *)

Lemma series_sum_floats (l : list float) :
  series_sum (Float64 l) = Ok (FloatS (F64.nansum l)).
Proof. reflexivity. Qed.

Lemma series_map_floats (f : float -> float) (l : list float) :
  series_map f (Float64 l) = Ok (Float64 (map f l)).
Proof. reflexivity. Qed.

(** A product or a difference is an int64 or a float64 column: it has
    a sum and a float view. *)
Lemma series_binop_numeric fz ff (a b c : series) :
  series_binop fz ff a b = Ok c ->
  exists total vs, series_sum c = Ok total /\ to_floats c = Ok vs.
Proof.
  unfold series_binop, to_floats.
  destruct a as [xs | xs | [| o xs]], b as [ys | ys | [| p ys]]; simpl;
    intros [= <-]; simpl; eauto.
Qed.

(** It is there exactly when both operands are numeric. *)
Lemma series_binop_ok fz ff (a b : series) xs ys :
  to_floats a = Ok xs -> to_floats b = Ok ys ->
  exists c, series_binop fz ff a b = Ok c.
Proof.
  unfold series_binop, to_floats.
  destruct a as [l | l | [| o l]], b as [l' | l' | [| p l']]; simpl;
    intros [= <-] [= <-]; eauto.
Qed.

Lemma series_binop_inv fz ff (a b c : series) :
  series_binop fz ff a b = Ok c ->
  exists xs ys, to_floats a = Ok xs /\ to_floats b = Ok ys.
Proof.
  unfold series_binop, to_floats.
  destruct a as [xs | xs | [| o xs]], b as [ys | ys | [| p ys]]; simpl;
    intros [= <-]; eauto.
Qed.

(** With a float64 operand the result is the float64 one. *)
Lemma series_binop_floats fz ff (a b : series) xs ys :
  to_floats a = Ok xs -> to_floats b = Ok ys ->
  (forall l l', a = Int64 l -> b = Int64 l' -> False) ->
  series_binop fz ff a b = Ok (Float64 (zip_with ff xs ys)).
Proof.
  unfold series_binop, to_floats. intros Ha Hb H.
  destruct a as [l | l | [| o l]], b as [l' | l' | [| p l']]; simpl in *;
    try (exfalso; eapply H; reflexivity);
    revert Ha Hb; intros [= <-] [= <-]; reflexivity.
Qed.

Lemma series_sum_ok (s : series) (xs : list float) :
  to_floats s = Ok xs -> exists total, series_sum s = Ok total.
Proof.
  destruct s as [l | l | [| o l]]; simpl; eauto. discriminate.
Qed.

Lemma series_sum_inv (s : series) (total : scalar) :
  series_sum s = Ok total -> exists xs, to_floats s = Ok xs.
Proof.
  destruct s as [l | l | [| o l]]; simpl; eauto. discriminate.
Qed.

Lemma series_map_ok (f : float -> float) (s : series) (xs : list float) :
  to_floats s = Ok xs -> series_map f s = Ok (Float64 (map f xs)).
Proof. unfold series_map. now intros ->. Qed.

Lemma to_floats_floats (l : list float) : to_floats (Float64 l) = Ok l.
Proof. reflexivity. Qed.

Ltac frame_simpl :=
  cbn [columns index_len];
  repeat first
    [ rewrite lookup_assign_eq
    | rewrite lookup_assign_neq by reflexivity ].

Ltac msteps :=
  repeat (first [ mstep | progress frame_simpl
                | rewrite series_sum_floats
                | rewrite series_map_floats
                | rewrite to_floats_floats
                | match goal with
                  | H : lookup ?n ?c = _ |- context [lookup ?n ?c] => rewrite H
                  | H : to_floats ?s = _ |- context [to_floats ?s] => rewrite H
                  | H : series_sum ?s = _ |- context [series_sum ?s] => rewrite H
                  | H : series_mul ?a ?b = _ |- context [series_mul ?a ?b] =>
                      rewrite H
                  | H : series_sub ?a ?b = _ |- context [series_sub ?a ?b] =>
                      rewrite H
                  end ];
          cbv beta iota).

Section Metrics.

(** The run of the Metrics Calculator on a frame whose shares and prices
    have a product [cv], of sum [total] and float view [vs]. *)
Lemma metrics_run (df : DataFrame) sh pr cv total vs :
  lookup "Shares Held" (columns df) = Some sh ->
  lookup "Current Price (per share)" (columns df) = Some pr ->
  series_mul sh pr = Ok cv ->
  series_sum cv = Ok total -> to_floats cv = Ok vs ->
  let w := weights_from (index_len df) total vs in
  calculate_portfolio_metrics df =
  (match lookup "Target Weight (%)" (columns df) with
   | None => Raise (KeyError "Target Weight (%)")
   | Some tw =>
       rbind (series_sum tw) (fun t =>
       Ok (total, scalar_round2 (FloatS (F64.nansum w)), scalar_round2 t))
   end,
   mkDF (index_len df)
     (assign "Current Weight (%)" (Float64 w)
        (assign "Current Value" cv (columns df)))).
Proof.
  intros Hsh Hpr Hcv Ht Hvs w.
  unfold calculate_portfolio_metrics.
  msteps. subst w. unfold weights_from.
  destruct (scalar_pos total); msteps;
    try (rewrite (series_map_ok _ _ _ Hvs); msteps);
    (destruct (lookup "Target Weight (%)" (columns df)) as [tw |];
     [| reflexivity]);
    msteps; destruct (series_sum tw); reflexivity.
Qed.

(** Without a product of shares and prices the calculator raises before
    it writes anything. *)
Lemma metrics_fail (df : DataFrame) :
  (forall sh pr cv,
      lookup "Shares Held" (columns df) = Some sh ->
      lookup "Current Price (per share)" (columns df) = Some pr ->
      series_mul sh pr = Ok cv -> False) ->
  exists e, calculate_portfolio_metrics df = (Raise e, df).
Proof.
  intros H. unfold calculate_portfolio_metrics.
  destruct (lookup "Shares Held" (columns df)) as [sh |] eqn:Hsh;
    [| msteps; eauto].
  destruct (lookup "Current Price (per share)" (columns df)) as [pr |] eqn:Hpr;
    [| msteps; eauto].
  msteps.
  destruct (series_mul sh pr) as [cv |] eqn:Hcv; [| simpl; eauto].
  exfalso. eauto.
Qed.

(** C7: the Metrics Calculator is idempotent: run again on the table it
    has just enriched, it returns the same totals (or raises the same
    exception) and leaves the table, derived columns included, as the
    first run left it. *)
Theorem metrics_idempotent :
  forall df,
    calculate_portfolio_metrics (snd (calculate_portfolio_metrics df))
    = calculate_portfolio_metrics df.
Proof.
  intros df.
  destruct (lookup "Shares Held" (columns df)) as [sh |] eqn:Hsh.
  2: { destruct (metrics_fail df) as [e E]; [congruence |].
       rewrite E. exact E. }
  destruct (lookup "Current Price (per share)" (columns df)) as [pr |] eqn:Hpr.
  2: { destruct (metrics_fail df) as [e E]; [congruence |].
       rewrite E. exact E. }
  destruct (series_mul sh pr) as [cv |] eqn:Hcv.
  2: { destruct (metrics_fail df) as [e' E]; [intros; congruence |].
       rewrite E. exact E. }
  destruct (series_binop_numeric _ _ _ _ _ Hcv) as (total & vs & Ht & Hvs).
  rewrite (metrics_run df sh pr cv total vs Hsh Hpr Hcv Ht Hvs). cbn [snd].
  rewrite (metrics_run _ sh pr cv total vs); frame_simpl; auto.
  f_equal. f_equal.
  rewrite (assign_same "Current Value"); frame_simpl; auto.
  rewrite (assign_same "Current Weight (%)"); frame_simpl; auto.
Qed.

End Metrics.

(** ** [reorder_rebalanced_columns] *)

Section Reorder.

Lemma lookup_None_names (name : string) (cols : list (string * series)) :
  lookup name cols = None <-> ~ In name (map fst cols).
Proof.
  induction cols as [| [n s] cols IH]; simpl.
  - tauto.
  - destruct (String.eqb n name) eqn:E.
    + apply String.eqb_eq in E. split; [discriminate | intros H; tauto].
    + apply String.eqb_neq in E. rewrite IH. tauto.
Qed.

Lemma mem_In (name : string) (names : list string) :
  mem name names = true <-> In name names.
Proof.
  unfold mem. rewrite existsb_exists. split.
  - intros (x & Hx & E). apply String.eqb_eq in E. now subst.
  - intros H. exists name. split; [assumption | apply String.eqb_refl].
Qed.

Lemma select_spec (names : list string) (cols : list (string * series)) :
  Forall (fun n => In n (map fst cols)) names ->
  exists r, select names cols = Ok r /\ map fst r = names /\
            forall n, In n names -> lookup n r = lookup n cols.
Proof.
  induction 1 as [| n names Hn _ (r & Hr & Hnames & Hl)]; simpl.
  - exists []. repeat split. intros n [].
  - destruct (lookup n cols) as [s |] eqn:E.
    2: { apply lookup_None_names in E. contradiction. }
    rewrite Hr. simpl. exists ((n, s) :: r). repeat split.
    + simpl. now rewrite Hnames.
    + intros n' [-> | Hin]; simpl.
      * now rewrite String.eqb_refl.
      * destruct (String.eqb n n') eqn:E'; [| auto].
        apply String.eqb_eq in E'. now subst.
Qed.

(** Reordering never fails; it keeps the index and every column, and
    lists the canonical columns that are present before the others. *)
Lemma reorder_spec (df : DataFrame) :
  exists out,
    reorder_rebalanced_columns df = Ok out /\
    index_len out = index_len df /\
    column_names out =
      (filter (fun col => mem col (column_names df)) column_order
       ++ extra_columns df)%list /\
    forall name, column name out = column name df.
Proof.
  unfold reorder_rebalanced_columns, extra_columns.
  set (available := filter _ column_order).
  assert (Hrem : filter (fun col => negb (mem col available)) (column_names df)
                 = filter (fun col => negb (mem col column_order))
                     (column_names df)).
  { apply filter_ext_in. intros n Hn. f_equal.
    apply eq_true_iff_eq. rewrite !mem_In. subst available.
    rewrite filter_In, mem_In. tauto. }
  rewrite Hrem. clear Hrem.
  set (remaining := filter _ (column_names df)).
  destruct (select_spec (available ++ remaining) (columns df))
    as (r & Hr & Hnames & Hl).
  { apply Forall_forall. intros n Hn. apply in_app_or in Hn.
    fold (column_names df).
    destruct Hn as [Hn | Hn]; [subst available | subst remaining];
      apply filter_In in Hn; [apply mem_In |]; tauto. }
  rewrite Hr. simpl. eexists. split; [reflexivity |].
  split; [reflexivity |]. split; [exact Hnames |].
  intros name. unfold column. simpl.
  destruct (lookup name (columns df)) as [s |] eqn:E.
  - rewrite <- E. apply Hl. apply in_or_app.
    assert (Hin : In name (column_names df)).
    { destruct (in_dec string_dec name (column_names df)) as [H | H];
        [assumption |].
      apply lookup_None_names in H. congruence. }
    destruct (mem name column_order) eqn:Hm.
    + left. subst available. apply filter_In. split; [| now apply mem_In].
      now apply mem_In.
    + right. subst remaining. apply filter_In. now rewrite Hm.
  - apply lookup_None_names. rewrite Hnames. intros Hin.
    apply lookup_None_names in E. apply E.
    apply in_app_or in Hin.
    destruct Hin as [Hn | Hn]; [subst available | subst remaining];
      apply filter_In in Hn; [apply mem_In |]; tauto.
Qed.

End Reorder.

(** ** [calculate_rebalancing_metrics] *)

Ltac esteps :=
  repeat (first
            [ mstep | progress frame_simpl
            | rewrite to_floats_floats
            | match goal with
              | H : lookup ?n ?c = _ |- context [lookup ?n ?c] => rewrite H
              | H : to_floats ?s = _ |- context [to_floats ?s] => rewrite H
              | H : series_sum ?s = _ |- context [series_sum ?s] => rewrite H
              | H : series_mul ?a ?b = _ |- context [series_mul ?a ?b] =>
                  rewrite H
              | H : series_sub ?a ?b = _ |- context [series_sub ?a ?b] =>
                  rewrite H
              | H : optimize_shares ?a ?b = _
                |- context [optimize_shares ?a ?b] => rewrite H
              | H : Nat.eqb ?a ?b = _ |- context [Nat.eqb ?a ?b] => rewrite H
              | H : forallb ?f ?l = _ |- context [forallb ?f ?l] => rewrite H
              | H : scalar_pos ?t = _ |- context [scalar_pos ?t] => rewrite H
              end
            | progress unfold series_map
            | progress cbn [rbind] ];
          cbv beta iota).

Ltac engine_fails H :=
  exfalso; revert H; unfold calculate_rebalancing_metrics, target_values in *;
  esteps; intros [=].

Section Engine.

Variable cap : float.

(** The run of the engine on a frame that has what it reads. *)
Lemma engine_run (df : DataFrame) cvs tws prs hs d :
  lookup "Current Value" (columns df) = Some cvs ->
  lookup "Target Weight (%)" (columns df) = Some tws ->
  lookup "Current Price (per share)" (columns df) = Some prs ->
  lookup "Shares Held" (columns df) = Some hs ->
  derives (index_len df) cap cvs tws prs hs d ->
  let df' := mkDF (index_len df) (derived_columns cap d (columns df)) in
  calculate_rebalancing_metrics cap df = (reorder_rebalanced_columns df', df').
Proof.
  intros Hcv Htw Hpr Hsh
    (Ht & Ews & Eps & Hopt & Hlen & Hfit & Hact & Hdiff & Eds & Hdelta & Hrw) df'.
  apply Nat.eqb_eq in Hlen.
  unfold series_weights in Hrw.
  destruct (series_sum (d_actual d)) as [total' |] eqn:Ht'; [| discriminate].
  destruct (to_floats (d_actual d)) as [av |] eqn:Eav; [| discriminate].
  injection Hrw as Hrw.
  subst df'. unfold derived_columns, rebalanced_columns.
  unfold calculate_rebalancing_metrics, target_values in *.
  esteps. rewrite <- Hrw. unfold weights_from.
  destruct (scalar_pos total') eqn:Hpos; esteps; reflexivity.
Qed.

(** A run of the engine that returns has found what it reads, and has
    left the frame described by [derived_columns]. *)
Lemma engine_inv (df out df' : DataFrame) :
  calculate_rebalancing_metrics cap df = (Ok out, df') ->
  exists cvs tws prs hs d,
    lookup "Current Value" (columns df) = Some cvs /\
    lookup "Target Weight (%)" (columns df) = Some tws /\
    lookup "Current Price (per share)" (columns df) = Some prs /\
    lookup "Shares Held" (columns df) = Some hs /\
    derives (index_len df) cap cvs tws prs hs d /\
    df' = mkDF (index_len df) (derived_columns cap d (columns df)) /\
    reorder_rebalanced_columns df' = Ok out.
Proof.
  intros H.
  destruct (lookup "Current Value" (columns df)) as [cvs |] eqn:Hcv;
    [| engine_fails H].
  destruct (series_sum cvs) as [total |] eqn:Ht; [| engine_fails H].
  destruct (lookup "Target Weight (%)" (columns df)) as [tws |] eqn:Htw;
    [| engine_fails H].
  destruct (to_floats tws) as [ws |] eqn:Ews; [| engine_fails H].
  destruct (lookup "Current Price (per share)" (columns df)) as [prs |] eqn:Hpr;
    [| engine_fails H].
  destruct (to_floats prs) as [ps |] eqn:Eps; [| engine_fails H].
  destruct (optimize_shares ps (target_values cap total ws)) as [shares |] eqn:Hopt;
    [| engine_fails H].
  destruct (Nat.eqb (List.length shares) (index_len df)) eqn:Hlen;
    [| engine_fails H].
  pose proof (proj1 (Nat.eqb_eq _ _) Hlen) as Hlen'.
  destruct (forallb in_int64 shares) eqn:Hfit; [| engine_fails H].
  destruct (series_mul (Int64 shares) prs) as [actual |] eqn:Hact;
    [| engine_fails H].
  destruct (series_sub actual cvs) as [diff |] eqn:Hdiff; [| engine_fails H].
  destruct (series_binop_numeric _ _ _ _ _ Hdiff) as (dt & ds & _ & Eds).
  destruct (lookup "Shares Held" (columns df)) as [hs |] eqn:Hsh;
    [| engine_fails H].
  destruct (series_sub (Int64 shares) hs) as [delta |] eqn:Hdelta;
    [| engine_fails H].
  destruct (series_binop_numeric _ _ _ _ _ Hact) as (total' & av & Ht' & Eav).
  set (d := mkDerived total ws ps shares actual diff ds delta
              (weights_from (index_len df) total' av)).
  assert (D : derives (index_len df) cap cvs tws prs hs d).
  { unfold derives, series_weights; cbn [d_total d_weights d_prices d_shares
      d_actual d_difference d_diffs d_delta d_real d].
    rewrite Ht', Eav. repeat split; auto. }
  rewrite (engine_run df cvs tws prs hs d) in H by assumption.
  injection H as Hout Hdf. subst df'.
  exists cvs, tws, prs, hs, d. repeat split; auto; apply D.
Qed.

End Engine.

(** ** Rows and columns under assignment *)

Section FrameShape.

Lemma filter_names_assign (P : string -> bool) name s cols :
  P name = false ->
  filter P (map fst (assign name s cols)) = filter P (map fst cols).
Proof.
  intros HP. induction cols as [| [n s'] cols IH]; simpl.
  - now rewrite HP.
  - destruct (String.eqb n name); simpl; [reflexivity |].
    now rewrite IH.
Qed.

Lemma Forall_assign (P : string * series -> Prop) name s cols :
  P (name, s) -> Forall P cols -> Forall P (assign name s cols).
Proof.
  intros Hs. induction 1 as [| [n s'] cols Hc Hcols IH]; simpl.
  - repeat constructor. assumption.
  - destruct (String.eqb n name) eqn:E.
    + apply String.eqb_eq in E. subst. now constructor.
    + now constructor.
Qed.

Lemma lookup_In (name : string) (s : series) cols :
  lookup name cols = Some s -> In (name, s) cols.
Proof.
  induction cols as [| [n s'] cols IH]; simpl; [discriminate |].
  destruct (String.eqb n name) eqn:E.
  - apply String.eqb_eq in E. subst. intros [= ->]. now left.
  - auto.
Qed.

Lemma lookup_len (df : DataFrame) name s :
  wf df -> lookup name (columns df) = Some s -> series_len s = index_len df.
Proof.
  intros Hwf H. apply lookup_In in H.
  unfold wf in Hwf. rewrite Forall_forall in Hwf. exact (Hwf _ H).
Qed.

Lemma to_floats_length (s : series) (xs : list float) :
  to_floats s = Ok xs -> List.length xs = series_len s.
Proof.
  destruct s as [l | l | [| o l]]; simpl; try discriminate;
    intros [= <-]; [apply length_map | reflexivity | reflexivity].
Qed.

Lemma zip_with_length {A B C} (f : A -> B -> C) xs ys :
  List.length (zip_with f xs ys) = Nat.min (List.length xs) (List.length ys).
Proof. unfold zip_with. now rewrite length_map, length_combine. Qed.

Lemma zip_with_nth {A B C} (f : A -> B -> C) xs ys i x y :
  nth_error xs i = Some x -> nth_error ys i = Some y ->
  nth_error (zip_with f xs ys) i = Some (f x y).
Proof.
  intros Hx Hy. unfold zip_with.
  rewrite nth_error_map, (combine_nth_error _ _ _ _ _ Hx Hy). reflexivity.
Qed.

Lemma weights_of_length (n : nat) (values : list float) :
  List.length values = n -> List.length (weights_of n values) = n.
Proof.
  intros H. unfold weights_of, weights_from.
  destruct (scalar_pos _); [now rewrite length_map | apply repeat_length].
Qed.

Lemma weights_from_length (n : nat) (total : scalar) (values : list float) :
  List.length values = n -> List.length (weights_from n total values) = n.
Proof.
  intros H. unfold weights_from.
  destruct (scalar_pos _); [now rewrite length_map | apply repeat_length].
Qed.

Lemma select_Forall (P : series -> Prop) names cols r :
  select names cols = Ok r ->
  Forall (fun c => P (snd c)) cols -> Forall (fun c => P (snd c)) r.
Proof.
  intros Hsel Hall. revert r Hsel.
  induction names as [| n names IH]; simpl; intros r.
  - intros [= <-]. constructor.
  - destruct (lookup n cols) as [s |] eqn:E; [| discriminate].
    destruct (select names cols) as [r' |]; simpl; [| discriminate].
    intros [= <-]. constructor; [| now apply IH].
    apply lookup_In in E. rewrite Forall_forall in Hall.
    exact (Hall _ E).
Qed.

Lemma series_binop_len fz ff (a b c : series) (n : nat) :
  series_len a = n -> series_len b = n ->
  series_binop fz ff a b = Ok c -> series_len c = n.
Proof.
  unfold series_binop, to_floats.
  destruct a as [xs | xs | [| o xs]], b as [ys | ys | [| p ys]]; simpl;
    intros Ha Hb [= <-]; cbn [series_len];
    rewrite ?zip_with_length, ?length_map; simpl in *; lia.
Qed.

End FrameShape.

(** ** What the engine returns *)

Section EngineOutput.

Variable cap : float.

Lemma engine_output (df out df' : DataFrame) :
  calculate_rebalancing_metrics cap df = (Ok out, df') ->
  exists cvs tws prs hs d,
    (lookup "Current Value" (columns df) = Some cvs /\
     lookup "Target Weight (%)" (columns df) = Some tws /\
     lookup "Current Price (per share)" (columns df) = Some prs /\
     lookup "Shares Held" (columns df) = Some hs /\
     derives (index_len df) cap cvs tws prs hs d) /\
    df' = mkDF (index_len df) (derived_columns cap d (columns df)) /\
    index_len out = index_len df /\
    (forall name,
        column name out = lookup name (derived_columns cap d (columns df))) /\
    column_names out =
      (filter (fun col =>
                 mem col (map fst (derived_columns cap d (columns df))))
         column_order
       ++ extra_columns df)%list.
Proof.
  intros H. apply engine_inv in H.
  destruct H as (cvs & tws & prs & hs & d & H1 & H2 & H3 & H4 & D & Hdf & Hout).
  exists cvs, tws, prs, hs, d.
  split; [tauto |]. split; [exact Hdf |].
  destruct (reorder_spec df') as (out' & Hr & Hi & Hn & Hc).
  assert (out' = out) by congruence. subst out' df'.
  split; [exact Hi |]. split; [exact Hc |].
  rewrite Hn. f_equal.
  unfold extra_columns, column_names, derived_columns, rebalanced_columns.
  cbn [columns].
  now rewrite !filter_names_assign by reflexivity.
Qed.

End EngineOutput.

(** ** The zero-division guards *)

Section Weights.

Local Open Scope float_scope.

Lemma round2_rounded (x : float) : rounded_to_cents x (F64.round2 x).
Proof.
  unfold rounded_to_cents, F64.round2, F64.rint. cbv zeta.
  destruct (Prim2SF (x * 100)) as [s | s | | s m e] eqn:E; try reflexivity.
  destruct (0 <=? e)%Z; [reflexivity |].
  exists (F64.nearest_int s m e). split.
  - unfold rounds_half_even. rewrite E. apply nearest_int_spec.
  - unfold hundredths. destruct (F64.nearest_int s m e =? 0)%Z; [| reflexivity].
    destruct s; reflexivity.
Qed.

Lemma Forall2_map_self {A B} (R : A -> B -> Prop) (f : A -> B) (l : list A) :
  (forall a, R a (f a)) -> Forall2 R l (map f l).
Proof. intros H. induction l; simpl; constructor; auto. Qed.

Lemma weights_from_rounded (n : nat) (total : scalar) (vs : list float) :
  scalar_pos total = true ->
  Forall2 (fun v w => rounded_to_cents (v / scalar_float total * 100) w)
    vs (weights_from n total vs).
Proof.
  intros H. unfold weights_from. rewrite H.
  apply Forall2_map_self. intros v. apply round2_rounded.
Qed.

(** C5 as stated fails in its last sentence: on two holdings of one
    share at 1.115 and 98.885 the first weight is written as 1.12, while
    value / total * 100 is the float64 1.115, which lies below 1.115 and
    nearer to 1.11 than to 1.12. *)
Lemma weight_not_nearest_hundredth :
  column "Current Weight (%)" (snd (calculate_portfolio_metrics tie_fixture))
  = Some (Float64 [1.12; 98.88]) /\
  1.115 / F64.nansum [1.115; 98.885] * 100 = 1.115 /\
  Prim2SF 1.115 = S754_finite false 5021513584518103 (-52) /\
  (Qabs (F64.SF2Q false 5021513584518103 (-52) - (111 # 100))
   < Qabs (F64.SF2Q false 5021513584518103 (-52) - (112 # 100)))%Q.
Proof. vm_compute. repeat split. Qed.

(** C5, amended: when the total current value is not greater than 0 the
    Metrics Calculator writes the weight 0.0 on every row, and nothing
    is raised on a table whose shares, prices and target weights are
    numeric; the Rebalancing Engine writes the real weights the same way
    from the total of the post-trade values.  When the total is greater
    than 0 each weight is value / total * 100 to two decimals as numpy
    rounds: that float64 times 100, taken to the nearest integer with
    ties to the even one, divided by 100. *)
Theorem weights_zero_guard :
  (forall df sh pr cv total vs,
      column "Shares Held" df = Some sh ->
      column "Current Price (per share)" df = Some pr ->
      series_mul sh pr = Ok cv ->
      series_sum cv = Ok total -> to_floats cv = Ok vs ->
      let df1 := snd (calculate_portfolio_metrics df) in
      column "Current Value" df1 = Some cv /\
      (scalar_pos total = false ->
       column "Current Weight (%)" df1
       = Some (Float64 (repeat 0 (index_len df)))) /\
      (scalar_pos total = true ->
       exists w,
         column "Current Weight (%)" df1 = Some (Float64 w) /\
         Forall2 (fun v wi =>
                    rounded_to_cents (v / scalar_float total * 100) wi) vs w) /\
      (forall tws ws,
          column "Target Weight (%)" df = Some tws -> to_floats tws = Ok ws ->
          exists cw_sum tw_sum,
            fst (calculate_portfolio_metrics df) = Ok (total, cw_sum, tw_sum))) /\
  (forall cap df out df',
      calculate_rebalancing_metrics cap df = (Ok out, df') ->
      exists actual total vs,
        column "Target Value (Actual)" out = Some actual /\
        series_sum actual = Ok total /\ to_floats actual = Ok vs /\
        (scalar_pos total = false ->
         column "Real Weight (%)" out
         = Some (Float64 (repeat 0 (index_len out)))) /\
        (scalar_pos total = true ->
         exists w,
           column "Real Weight (%)" out = Some (Float64 w) /\
           Forall2 (fun v wi =>
                      rounded_to_cents (v / scalar_float total * 100) wi)
             vs w)).
Proof.
  split.
  - intros df sh pr cv total vs Hsh Hpr Hcv Ht Evs df1. unfold column in *.
    subst df1. rewrite (metrics_run df sh pr cv total vs Hsh Hpr Hcv Ht Evs).
    cbn [snd fst]. frame_simpl.
    repeat split.
    + intros H. unfold weights_from. now rewrite H.
    + intros H. eexists. split; [reflexivity |].
      now apply weights_from_rounded.
    + intros tws ws Htw Ews. rewrite Htw.
      destruct (series_sum_ok _ _ Ews) as [t ->]. simpl. eauto.
  - intros cap df out df' H.
    destruct (engine_output cap df out df' H)
      as (cvs & tws & prs & hs & d & (_ & _ & _ & _ & D) & _ & Hi & Hc & _).
    destruct D as (_ & _ & _ & _ & _ & _ & _ & _ & _ & _ & Hrw).
    unfold series_weights in Hrw.
    destruct (series_sum (d_actual d)) as [total |] eqn:Ht; [| discriminate].
    destruct (to_floats (d_actual d)) as [vs |] eqn:Evs; [| discriminate].
    injection Hrw as Hrw.
    exists (d_actual d), total, vs. rewrite !Hc, Hi.
    unfold derived_columns, rebalanced_columns. frame_simpl.
    repeat split; auto.
    + intros H'. rewrite <- Hrw. unfold weights_from. now rewrite H'.
    + intros H'. eexists. split; [reflexivity |].
      rewrite <- Hrw. now apply weights_from_rounded.
Qed.

Lemma weights_zero_guard_witness :
  column "Current Weight (%)" (snd (calculate_portfolio_metrics zero_price_fixture))
  = Some (Float64 [0; 0; 0]) /\
  (exists w,
      column "Current Weight (%)" (snd (calculate_portfolio_metrics fixture))
      = Some (Float64 w) /\
      Forall2 (fun v wi => rounded_to_cents (v / 2960 * 100) wi)
        [1000; 1000; 960] w) /\
  exists actual total vs,
    column "Target Value (Actual)" zero_price_out = Some actual /\
    series_sum actual = Ok total /\ to_floats actual = Ok vs /\
    (scalar_pos total = false ->
     column "Real Weight (%)" zero_price_out
     = Some (Float64 (repeat 0 (index_len zero_price_out)))) /\
    (scalar_pos total = true ->
     exists w,
       column "Real Weight (%)" zero_price_out = Some (Float64 w) /\
       Forall2 (fun v wi =>
                  rounded_to_cents (v / scalar_float total * 100) wi) vs w).
Proof.
  split; [| split].
  - exact (proj1 (proj2 (proj1 weights_zero_guard zero_price_fixture
                           (Int64 [10; 20; 12]%Z) (Float64 [0; 0; 0])
                           (Float64 [0; 0; 0]) (FloatS 0) [0; 0; 0]
                           eq_refl eq_refl eq_refl eq_refl eq_refl))
             eq_refl).
  - exact (proj1 (proj2 (proj2 (proj1 weights_zero_guard fixture
                           (Int64 [10; 20; 12]%Z) (Float64 [100; 50; 80])
                           (Float64 [1000; 1000; 960]) (FloatS 2960)
                           [1000; 1000; 960]
                           eq_refl eq_refl eq_refl eq_refl eq_refl)))
             eq_refl).
  - apply (proj2 weights_zero_guard 0 zero_price_enriched zero_price_out
             (snd (calculate_rebalancing_metrics 0 zero_price_enriched))).
    vm_compute. reflexivity.
Defined.

End Weights.

(** ** Rows and columns are kept *)

Section Preservation.

Lemma metrics_state (df : DataFrame) :
  snd (calculate_portfolio_metrics df) = df \/
  exists sh pr cv total vs,
    lookup "Shares Held" (columns df) = Some sh /\
    lookup "Current Price (per share)" (columns df) = Some pr /\
    series_mul sh pr = Ok cv /\
    series_sum cv = Ok total /\ to_floats cv = Ok vs /\
    snd (calculate_portfolio_metrics df) =
    mkDF (index_len df)
      (assign "Current Weight (%)"
         (Float64 (weights_from (index_len df) total vs))
         (assign "Current Value" cv (columns df))).
Proof.
  destruct (lookup "Shares Held" (columns df)) as [sh |] eqn:Hsh.
  2: { left. destruct (metrics_fail df) as [e E]; [congruence |]. now rewrite E. }
  destruct (lookup "Current Price (per share)" (columns df)) as [pr |] eqn:Hpr.
  2: { left. destruct (metrics_fail df) as [e E]; [congruence |]. now rewrite E. }
  destruct (series_mul sh pr) as [cv |] eqn:Hcv.
  2: { left. destruct (metrics_fail df) as [e' E]; [intros; congruence |].
       now rewrite E. }
  destruct (series_binop_numeric _ _ _ _ _ Hcv) as (total & vs & Ht & Evs).
  right. exists sh, pr, cv, total, vs.
  rewrite (metrics_run df sh pr cv total vs Hsh Hpr Hcv Ht Evs).
  repeat split; auto.
Qed.

Lemma filter_all {A} (P : A -> bool) (l : list A) :
  Forall (fun a => P a = true) l -> filter P l = l.
Proof.
  induction 1 as [| a l Ha _ IH]; simpl; [reflexivity |].
  now rewrite Ha, IH.
Qed.

Lemma not_In_eqb (name n : string) (l : list string) :
  ~ In name l -> In n l -> String.eqb n name = false.
Proof. intros H Hn. apply String.eqb_neq. intros ->. contradiction. Qed.

Lemma engine_wf (cap : float) (df out df' : DataFrame) :
  calculate_rebalancing_metrics cap df = (Ok out, df') -> wf df -> wf out.
Proof.
  intros H Hwf. apply engine_inv in H.
  destruct H as (cvs & tws & prs & hs & d & H1 & H3 & H5 & H9 & D & Hdf & Hout).
  destruct D as (_ & Ews & _ & _ & Hlen & _ & Hact & Hdiff & Eds & Hdelta & Hrw).
  pose proof (lookup_len df _ _ Hwf H1) as L1.
  pose proof (lookup_len df _ _ Hwf H3) as L3.
  pose proof (lookup_len df _ _ Hwf H5) as L5.
  pose proof (lookup_len df _ _ Hwf H9) as L9.
  apply to_floats_length in Ews, Eds.
  assert (La : series_len (d_actual d) = index_len df)
    by (eapply series_binop_len; [| | exact Hact]; auto).
  assert (Ld : series_len (d_difference d) = index_len df)
    by (eapply series_binop_len; [| | exact Hdiff]; auto).
  assert (Lt : series_len (d_delta d) = index_len df)
    by (eapply series_binop_len; [| | exact Hdelta]; auto).
  assert (Lr : List.length (d_real d) = index_len df).
  { unfold series_weights in Hrw.
    destruct (series_sum (d_actual d)) as [t |]; [| discriminate].
    destruct (to_floats (d_actual d)) as [av |] eqn:Eav; [| discriminate].
    injection Hrw as <-. apply weights_from_length.
    apply to_floats_length in Eav. lia. }
  assert (Hwf' : wf df').
  { subst df'. unfold wf, derived_columns, rebalanced_columns.
    cbn [columns index_len].
    repeat apply Forall_assign; cbn [snd series_len]; try exact Hwf; auto.
    - rewrite length_map. lia.
    - unfold target_values. rewrite length_map. lia. }
  unfold reorder_rebalanced_columns in Hout.
  destruct (select _ (columns df')) as [r |] eqn:Hsel; simpl in Hout;
    [| discriminate].
  injection Hout as <-. unfold wf. cbn [columns index_len].
  exact (select_Forall (fun s => series_len s = index_len df') _ _ _ Hsel Hwf').
Qed.

(** C8: neither component adds or removes a row: the index and the
    "Ticker" column are the input's, and every column has one cell per
    row.  Both only add or overwrite the columns they derive, every
    other column is kept with its content, and the Metrics Calculator
    keeps the order of the input columns.  The table the engine returns
    lists the canonical columns it holds in the canonical order, all
    thirteen of them when the input has "Ticker" and "Current Weight
    (%)", and after them the other input columns in their input order. *)
Theorem rows_and_columns_preserved :
  (forall df,
      let df1 := snd (calculate_portfolio_metrics df) in
      index_len df1 = index_len df /\
      column "Ticker" df1 = column "Ticker" df /\
      (forall name,
          ~ In name metrics_columns -> column name df1 = column name df) /\
      filter (fun c => negb (mem c metrics_columns)) (column_names df1)
      = filter (fun c => negb (mem c metrics_columns)) (column_names df) /\
      (wf df -> wf df1)) /\
  (forall cap df out df',
      calculate_rebalancing_metrics cap df = (Ok out, df') ->
      index_len out = index_len df /\
      column "Ticker" out = column "Ticker" df /\
      (forall name,
          ~ In name engine_columns -> column name out = column name df) /\
      column_names out =
        (filter (fun c => mem c (column_names out)) column_order
         ++ extra_columns df)%list /\
      (column "Ticker" df <> None -> column "Current Weight (%)" df <> None ->
       column_names out = (column_order ++ extra_columns df)%list) /\
      (wf df -> wf out)).
Proof.
  split.
  - intros df df1. subst df1.
    assert (K : forall name,
               ~ In name metrics_columns ->
               column name (snd (calculate_portfolio_metrics df))
               = column name df).
    { intros name Hn.
      destruct (metrics_state df) as [-> | (sh & pr & cv & total & vs & _ & _ & _ & _ & _ & ->)];
        [reflexivity |].
      unfold column. cbn [columns].
      rewrite !lookup_assign_neq;
        [reflexivity | |];
        apply (not_In_eqb _ _ _ Hn); simpl; auto. }
    split; [| split; [| split; [| split]]].
    + destruct (metrics_state df) as [-> | (sh & pr & cv & total & vs & _ & _ & _ & _ & _ & ->)];
        reflexivity.
    + apply K. simpl. intros [H | [H | []]]; discriminate.
    + exact K.
    + destruct (metrics_state df) as [-> | (sh & pr & cv & total & vs & _ & _ & _ & _ & _ & ->)];
        [reflexivity |].
      unfold column_names. cbn [columns].
      now rewrite !filter_names_assign by reflexivity.
    + intros Hwf.
      destruct (metrics_state df)
        as [-> | (sh & pr & cv & total & vs & H1 & H2 & Hcv & _ & Evs & ->)];
        [assumption |].
      pose proof (lookup_len df _ _ Hwf H1) as L1.
      pose proof (lookup_len df _ _ Hwf H2) as L2.
      assert (L : series_len cv = index_len df)
        by (eapply series_binop_len; [| | exact Hcv]; auto).
      apply to_floats_length in Evs.
      unfold wf. cbn [columns index_len].
      repeat apply Forall_assign; cbn [snd series_len]; try exact Hwf.
      * apply weights_from_length. lia.
      * exact L.
  - intros cap df out df' H.
    pose proof (engine_wf cap df out df' H) as Hwf.
    destruct (engine_output cap df out df' H)
      as (cvs & tws & prs & hs & d & Hin & _ & Hi & Hc & Hn).
    destruct Hin as (H1 & H3 & H5 & H9 & _).
    assert (K : forall name,
               ~ In name engine_columns -> column name out = column name df).
    { intros name Hnot. rewrite Hc. unfold derived_columns, rebalanced_columns, column.
      rewrite !lookup_assign_neq;
        [reflexivity | | | | | | |];
        apply (not_In_eqb _ _ _ Hnot); simpl; tauto. }
    split; [exact Hi |]. split.
    { apply K. simpl. intros Hx.
      repeat (destruct Hx as [Hx | Hx]; [discriminate |]). exact Hx. }
    split; [exact K |]. split; [| split; [| exact Hwf]].
    + rewrite Hn at 1. f_equal. apply filter_ext. intros c.
      unfold column_names. rewrite !mem_lookup.
      specialize (Hc c). unfold column in Hc. now rewrite Hc.
    + intros Htk Hcw. rewrite Hn. f_equal. unfold column in Htk, Hcw.
      apply filter_all. unfold column_order, derived_columns, rebalanced_columns.
      destruct (lookup "Ticker" (columns df)) eqn:Etk; [| congruence].
      destruct (lookup "Current Weight (%)" (columns df)) eqn:Ecw;
        [| congruence].
      repeat constructor; rewrite mem_lookup; frame_simpl;
        rewrite ?H1, ?H3, ?H5, ?H9, ?Etk, ?Ecw; reflexivity.
Qed.

Lemma rows_and_columns_preserved_witness :
  index_len sector_out = 3%nat /\
  column "Ticker" sector_out
  = Some (Object [Some "TCS"; Some "INFY"; Some "HDFC"]) /\
  column_names sector_out = (column_order ++ ["Sector"])%list /\
  wf sector_out.
Proof.
  destruct (proj2 rows_and_columns_preserved 0%float sector_enriched sector_out
              (snd (calculate_rebalancing_metrics 0%float sector_enriched)))
    as (A & B & _ & _ & E & F).
  - vm_compute. reflexivity.
  - split; [exact A |]. split; [exact B |]. split.
    + apply E; discriminate.
    + apply F. unfold wf. simpl. repeat constructor.
Defined.

End Preservation.

(** ** A holding without a price *)

Section MissingPrice.

Local Open Scope float_scope.

Lemma nth_error_exists {A} (l : list A) (i : nat) :
  (i < List.length l)%nat -> exists a, nth_error l i = Some a.
Proof.
  intros H. destruct (nth_error l i) as [a |] eqn:E; [eauto |].
  apply nth_error_None in E. lia.
Qed.

Lemma nth_error_lt {A} (l : list A) (i : nat) (a : A) :
  nth_error l i = Some a -> (i < List.length l)%nat.
Proof. intros H. apply nth_error_Some. congruence. Qed.

Lemma action_of_nan : action_of nan = Some "Hold"%string.
Proof. reflexivity. Qed.

(** The share count, post-trade value and difference of a row whose
    price is NaN. *)
Lemma nan_price_row (ps cv tv : list float) (shares : list Z) (i : nat) c :
  optimize_shares ps tv = Ok shares ->
  nth_error ps i = Some nan ->
  (i < List.length tv)%nat ->
  nth_error cv i = Some c ->
  nth_error shares i = Some 0%Z /\
  nth_error (actual_values shares ps) i = Some nan /\
  nth_error (differences (actual_values shares ps) cv) i = Some nan.
Proof.
  intros Hopt Hp Hi Hc.
  destruct (nth_error_exists tv i Hi) as [t Ht].
  rewrite optimize_shares_mapM in Hopt.
  destruct (mapM_nth _ _ _ i (nan, t) Hopt (combine_nth_error _ _ _ _ _ Hp Ht))
    as (n & Hn & Hf).
  simpl in Hf. injection Hf as <-.
  assert (Ha : nth_error (actual_values shares ps) i = Some nan).
  { unfold actual_values.
    rewrite (zip_with_nth _ _ _ i (F64.of_Z 0) nan).
    - now rewrite mul_nan_r.
    - rewrite nth_error_map, Hn. reflexivity.
    - exact Hp. }
  repeat split; [exact Hn | exact Ha |].
  unfold differences. rewrite (zip_with_nth _ _ _ i nan c Ha Hc).
  now rewrite sub_nan_l.
Qed.

(** With float64 prices the post-trade values and the differences are
    float64 columns. *)
Lemma derives_float_prices n cap cvs tws hs ps d :
  derives n cap cvs tws (Float64 ps) hs d ->
  d_prices d = ps /\
  d_actual d = Float64 (actual_values (d_shares d) ps) /\
  exists cv,
    to_floats cvs = Ok cv /\
    d_difference d = Float64 (differences (actual_values (d_shares d) ps) cv) /\
    d_diffs d = differences (actual_values (d_shares d) ps) cv.
Proof.
  intros (_ & _ & Eps & _ & _ & _ & Hact & Hdiff & Eds & _).
  injection Eps as Eps. split; [now symmetry |].
  unfold series_mul, series_binop in Hact. simpl in Hact.
  injection Hact as Hact. fold (actual_values (d_shares d) ps) in Hact.
  split; [now symmetry |].
  rewrite <- Hact in Hdiff.
  destruct (series_binop_inv _ _ _ _ _ Hdiff) as (xs & cv & Exs & Ecv).
  injection Exs as <-.
  unfold series_sub in Hdiff.
  rewrite (series_binop_floats Z.sub PrimFloat.sub (Float64 _) cvs _ cv
             (to_floats_floats _) Ecv) in Hdiff
    by (intros; discriminate).
  injection Hdiff as Hdiff. exists cv. split; [exact Ecv |].
  rewrite <- Hdiff in Eds. injection Eds as Eds.
  split; now symmetry.
Qed.

(** C9: a holding whose price is missing (NaN) is given the action
    "Hold": its difference is NaN, which is neither above nor below 0. *)
Theorem unpriced_holding_is_held :
  forall cap df out df' ps i p,
    wf df ->
    calculate_rebalancing_metrics cap df = (Ok out, df') ->
    column "Current Price (per share)" df = Some (Float64 ps) ->
    nth_error ps i = Some p -> is_nan p = true ->
    exists diffs acts,
      column "Difference" out = Some (Float64 diffs) /\
      nth_error diffs i = Some nan /\
      (0 <? nan) = false /\ (nan <? 0) = false /\
      column "Action" out = Some (Object acts) /\
      nth_error acts i = Some (Some "Hold"%string).
Proof.
  intros cap df out df' ps i p Hwf H Hps Hp Hnan.
  apply is_nan_eq in Hnan. subst p. unfold column in Hps.
  destruct (engine_output cap df out df' H)
    as (cvs & tws & prs & hs & d & Hin & _ & _ & Hc & _).
  destruct Hin as (H1 & H3 & H5 & _ & D).
  rewrite Hps in H5. injection H5 as <-.
  destruct (derives_float_prices _ _ _ _ _ _ _ D)
    as (Eps & Eact & cv & E1 & Ediff & Eds).
  destruct D as (_ & E3 & _ & Hopt & Hlen & _).
  rewrite Eps in Hopt.
  pose proof (lookup_len df _ _ Hwf H1) as L1.
  pose proof (lookup_len df _ _ Hwf H3) as L3.
  pose proof (lookup_len df _ _ Hwf Hps) as L5. simpl in L5.
  apply to_floats_length in E1, E3.
  pose proof (nth_error_lt _ _ _ Hp) as Hi.
  destruct (nth_error_exists cv i ltac:(lia)) as [c Hcv].
  destruct (nan_price_row ps cv (target_values cap (d_total d) (d_weights d))
              (d_shares d) i c Hopt Hp)
    as (_ & _ & Hd); [unfold target_values; rewrite length_map; lia | exact Hcv |].
  exists (differences (actual_values (d_shares d) ps) cv),
    (map action_of (differences (actual_values (d_shares d) ps) cv)).
  rewrite !Hc. unfold derived_columns, rebalanced_columns. frame_simpl.
  rewrite Ediff, Eds.
  repeat split.
  - exact Hd.
  - rewrite nth_error_map, Hd. reflexivity.
Qed.

Lemma unpriced_holding_is_held_witness :
  exists diffs acts,
    column "Difference" missing_price_out = Some (Float64 diffs) /\
    nth_error diffs 2 = Some nan /\
    (0 <? nan) = false /\ (nan <? 0) = false /\
    column "Action" missing_price_out = Some (Object acts) /\
    nth_error acts 2 = Some (Some "Hold"%string).
Proof.
  apply (unpriced_holding_is_held 0 missing_price_enriched missing_price_out
           (snd (calculate_rebalancing_metrics 0 missing_price_enriched))
           [100; 50; nan] 2%nat nan).
  - unfold wf. simpl. repeat constructor.
  - vm_compute. reflexivity.
  - reflexivity.
  - reflexivity.
  - reflexivity.
Defined.

End MissingPrice.

(** ** numpy's summation *)

Section Summation.

Local Open Scope nat_scope.

(** The cuts of [pairwise_sum] halve the array, so the fuel it is given
    by [np_sum], the number of cells, is never used up: more fuel gives
    the same sum. *)
Lemma pairwise_sum_fuel (f k : nat) (l : list float) :
  List.length l <= 112 * 2 ^ f + 16 ->
  F64.pairwise_sum (f + k) l = F64.pairwise_sum f l.
Proof.
  revert k l. induction f as [| f IH]; intros k l H.
  - simpl in H. destruct k as [| k]; [reflexivity |].
    cbn [Nat.add F64.pairwise_sum].
    destruct (Nat.leb_spec (List.length l) 128) as [_ | H']; [reflexivity | lia].
  - cbn [Nat.add F64.pairwise_sum].
    destruct (List.length l <=? 128); [reflexivity |].
    rewrite Nat.pow_succ_r' in H.
    set (n := List.length l) in *.
    set (n2 := n / 2 - (n / 2) mod 8).
    assert (B : n2 <= n / 2 /\ n / 2 <= n2 + 7).
    { subst n2. pose proof (Nat.mod_upper_bound (n / 2) 8 ltac:(lia)).
      pose proof (Nat.Div0.mod_le (n / 2) 8). lia. }
    assert (D : 2 * (n / 2) <= n /\ n <= 2 * (n / 2) + 1).
    { pose proof (Nat.div_mod_eq n 2).
      pose proof (Nat.mod_upper_bound n 2 ltac:(lia)). lia. }
    f_equal; apply IH.
    + rewrite length_firstn. fold n. clearbody n2 n.
      clear IH. set (p := 2 ^ f) in *. clearbody p. lia.
    + rewrite length_skipn. fold n. clearbody n2 n.
      clear IH. set (p := 2 ^ f) in *. clearbody p. lia.
Qed.

Lemma pairwise_sum_enough (l : list float) (k : nat) :
  F64.pairwise_sum (List.length l + k) l = F64.pairwise_sum (List.length l) l.
Proof.
  apply pairwise_sum_fuel.
  pose proof (Nat.pow_gt_lin_r 2 (List.length l) ltac:(lia)). lia.
Qed.

End Summation.

(** ** The table with a missing price, end to end *)

Section SoftFailure.

Local Open Scope float_scope.

Lemma is_zero_Prim2SF (x : float) :
  is_zero x = true <-> exists s, Prim2SF x = S754_zero s.
Proof.
  unfold is_zero. rewrite FloatAxioms.eqb_spec.
  change (Prim2SF zero) with (S754_zero false). unfold SFeqb.
  destruct (Prim2SF x) as [s | s | | s m e]; simpl; split;
    try (intros [s' H]; discriminate H); try discriminate; eauto;
    destruct s; simpl; try discriminate; eauto.
Qed.

Lemma add_zero_r (x : float) : is_zero x = false -> x + 0 = x.
Proof.
  intros H. apply Prim2SF_inj. rewrite add_spec, Prim2SF_zero.
  destruct (Prim2SF x) as [s | s | | s m e] eqn:E; try reflexivity.
  assert (Z : is_zero x = true) by (apply is_zero_Prim2SF; eauto).
  congruence.
Qed.

Lemma zeros_add_zero (x y : float) :
  is_zero x = true -> is_zero y = true -> is_zero (x + y) = true.
Proof.
  intros Hx Hy. apply is_zero_Prim2SF in Hx as [sx Hx], Hy as [sy Hy].
  apply is_zero_Prim2SF. rewrite add_spec, Hx, Hy. unfold SF64add, SFadd.
  destruct sx, sy; eauto.
Qed.

Lemma same_add (x y b : float) :
  same_but_zero_sign x y -> same_but_zero_sign (x + b) (y + b).
Proof.
  intros [-> | [Hx Hy]]; [now left |].
  destruct (is_zero b) eqn:Hb.
  - right. split; now apply zeros_add_zero.
  - left. apply is_zero_Prim2SF in Hx as [sx Hx], Hy as [sy Hy].
    apply Prim2SF_inj. rewrite !add_spec, Hx, Hy.
    destruct (Prim2SF b) as [s | s | | s m e] eqn:E; try reflexivity.
    assert (Z : is_zero b = true) by (apply is_zero_Prim2SF; eauto).
    congruence.
Qed.

Lemma same_add_zero (x y : float) :
  same_but_zero_sign x y -> same_but_zero_sign x (y + 0).
Proof.
  intros H. destruct (is_zero y) eqn:Hy.
  - right. split; [| now apply zeros_add_zero].
    destruct H as [-> | [Hx _]]; assumption.
  - rewrite (add_zero_r _ Hy). exact H.
Qed.

Lemma same_fold (l : list float) (a b : float) :
  same_but_zero_sign a b ->
  same_but_zero_sign (fold_left PrimFloat.add l a) (fold_left PrimFloat.add l b).
Proof.
  revert a b. induction l as [| x l IH]; intros a b H; simpl; [exact H |].
  apply IH. now apply same_add.
Qed.

Lemma zero_add_same (x y : float) : same_but_zero_sign x y -> 0 + x = 0 + y.
Proof.
  intros [-> | [Hx Hy]]; [reflexivity |].
  apply is_zero_Prim2SF in Hx as [sx Hx], Hy as [sy Hy].
  apply Prim2SF_inj. rewrite !add_spec, Hx, Hy, Prim2SF_zero.
  destruct sx, sy; reflexivity.
Qed.

(** Below eight cells numpy adds them one after the other. *)
Lemma np_sum_short (l : list float) :
  (List.length l < 8)%nat ->
  F64.np_sum l = 0 + fold_left PrimFloat.add l 0.
Proof.
  intros H. unfold F64.np_sum. f_equal.
  assert (B : F64.block_sum l = fold_left PrimFloat.add l 0).
  { unfold F64.block_sum. cbv zeta.
    destruct (Nat.ltb_spec (List.length l) 8) as [_ | H']; [reflexivity | lia]. }
  destruct (List.length l) as [| n] eqn:E at 1; simpl; [exact B |].
  destruct (Nat.leb_spec (List.length l) 128) as [_ | H']; [exact B | lia].
Qed.

Lemma fold_without_nan (l : list float) (i : nat) (a b : float) :
  nth_error l i = Some nan -> same_but_zero_sign a b ->
  same_but_zero_sign
    (fold_left PrimFloat.add (F64.fillna0 (remove_nth i l)) a)
    (fold_left PrimFloat.add (F64.fillna0 l) b).
Proof.
  revert i a b. induction l as [| x l IH]; intros [| i] a b; simpl;
    try discriminate.
  - intros [= ->] H. simpl. apply same_fold. now apply same_add_zero.
  - intros Hi H. apply IH; [exact Hi |]. now apply same_add.
Qed.

Lemma remove_nth_length {A} (l : list A) (i : nat) :
  (List.length (remove_nth i l) <= List.length l)%nat.
Proof.
  revert i. induction l as [| x l IH]; intros [| i]; simpl; try lia.
  specialize (IH i). lia.
Qed.

(** On fewer than eight cells a missing value can be left out of the
    sum. *)
Lemma nansum_remove_nan (l : list float) (i : nat) :
  (List.length l < 8)%nat ->
  nth_error l i = Some nan -> F64.nansum (remove_nth i l) = F64.nansum l.
Proof.
  intros Hl H. unfold F64.nansum.
  pose proof (remove_nth_length l i) as Hr.
  rewrite !np_sum_short by (unfold F64.fillna0; rewrite length_map; lia).
  apply zero_add_same. apply fold_without_nan; [exact H | now left].
Qed.

(** From eight cells on it cannot: numpy's grouping of the cells
    depends on the missing one being there. *)
Example nansum_of_nine :
  F64.nansum nine_values = 3.5999999999999996 /\
  F64.nansum (remove_nth 0 nine_values) = 3.6.
Proof. split; reflexivity. Qed.

(** The missing value counts as 0.0. *)
Lemma fillna0_nan (l : list float) (i : nat) :
  nth_error l i = Some nan -> nth_error (F64.fillna0 l) i = Some 0.
Proof.
  intros H. unfold F64.fillna0. rewrite nth_error_map, H. reflexivity.
Qed.

Lemma share_of_finite (row : float * float) :
  ((0 <? fst row) = true -> is_finite (snd row / fst row) = true) ->
  exists n, share_of row = Ok n.
Proof.
  destruct row as [price target]. simpl. intros H.
  destruct (0 <? price); [| eauto].
  now apply py_round_finite, H.
Qed.

(** C2 as stated fails: on the fixture without a price for HDFC the
    target value of HDFC is 500, neither missing nor zero. *)
Lemma missing_price_target_value_kept :
  column "Current Price (per share)" missing_price_fixture
  = Some (Float64 [100; 50; nan]) /\
  fst (rebalance 0 missing_price_fixture)
  = Ok (FloatS 2000, FloatS 100, FloatS 100, missing_price_out) /\
  column "Target Value" missing_price_out = Some (Float64 [500; 1000; 500]) /\
  missing_or_zero 500 = false.
Proof. vm_compute. repeat split. Qed.

(** C2, amended: on a table with numeric shares and target weights in
    which a ticker has no price (NaN), the Metrics Calculator followed by
    the Rebalancing Engine raises nothing, provided no priced row's
    quotient target value / price is NaN or infinite and the share
    counts fit int64.  The ticker's current value and post-trade value
    are missing (NaN) and its target shares are 0; in the total current
    value and in the total post-trade value its cell counts as 0.0, and
    on a table of fewer than eight rows these totals are the sums over
    the other rows.  Its target value is target weight / 100 * (total +
    additional capital), as for any other holding. *)
Theorem missing_price_soft_failure :
  forall cap df sh xs tws ws ps i,
    wf df ->
    column "Shares Held" df = Some sh -> to_floats sh = Ok xs ->
    column "Current Price (per share)" df = Some (Float64 ps) ->
    column "Target Weight (%)" df = Some tws -> to_floats tws = Ok ws ->
    nth_error ps i = Some nan ->
    let cv := zip_with PrimFloat.mul xs ps in
    let total := F64.nansum cv in
    let tv := target_values cap (FloatS total) ws in
    Forall finite_quotient (combine ps tv) ->
    (forall shares,
        optimize_shares ps tv = Ok shares -> forallb in_int64 shares = true) ->
    exists cw_sum tw_sum out df' shares,
      rebalance cap df = (Ok (FloatS total, cw_sum, tw_sum, out), df') /\
      column "Current Value" out = Some (Float64 cv) /\
      nth_error cv i = Some nan /\
      nth_error (F64.fillna0 cv) i = Some 0 /\
      total = F64.np_sum (F64.fillna0 cv) /\
      ((List.length cv < 8)%nat -> total = F64.nansum (remove_nth i cv)) /\
      column "Target Value" out = Some (Float64 tv) /\
      (forall w, nth_error ws i = Some w ->
                 nth_error tv i = Some (w / 100 * (total + cap))) /\
      column "Target Shares" out = Some (Int64 shares) /\
      nth_error shares i = Some 0%Z /\
      column "Target Value (Actual)" out
      = Some (Float64 (actual_values shares ps)) /\
      nth_error (actual_values shares ps) i = Some nan /\
      nth_error (F64.fillna0 (actual_values shares ps)) i = Some 0 /\
      column "Real Weight (%)" out
      = Some (Float64 (weights_of (index_len df) (actual_values shares ps))) /\
      ((List.length cv < 8)%nat ->
       F64.nansum (actual_values shares ps)
       = F64.nansum (remove_nth i (actual_values shares ps))).
Proof.
  intros cap df sh xs tws ws ps i Hwf Hsh Exs Hps Htw Ews Hp cv total tv
    Hfin Hfit.
  unfold column in Hsh, Hps, Htw.
  pose proof (lookup_len df _ _ Hwf Hsh) as Lsh.
  pose proof (lookup_len df _ _ Hwf Hps) as Lps. simpl in Lps.
  pose proof (lookup_len df _ _ Hwf Htw) as Ltw.
  pose proof (to_floats_length _ _ Exs) as Lxs.
  pose proof (to_floats_length _ _ Ews) as Lws.
  pose proof (nth_error_lt _ _ _ Hp) as Hi.
  assert (Lcv : List.length cv = index_len df)
    by (subst cv; rewrite zip_with_length; lia).
  assert (Ltv : List.length tv = index_len df)
    by (subst tv; unfold target_values; rewrite length_map; lia).
  destruct (mapM_total share_of (combine ps tv)) as [shares Hopt].
  { eapply Forall_impl; [| exact Hfin]. intros row. apply share_of_finite. }
  pose proof (mapM_length _ _ _ Hopt) as Hlen.
  rewrite length_combine in Hlen.
  rewrite <- optimize_shares_mapM in Hopt.
  pose proof (Hfit shares Hopt) as Hfit'.
  destruct (series_binop_ok Z.sub PrimFloat.sub (Int64 shares) sh _ xs
              eq_refl Exs) as [delta Hdelta].
  fold series_sub in Hdelta.
  destruct (nth_error_exists xs i ltac:(lia)) as [x Hx].
  assert (Hcv : nth_error cv i = Some nan).
  { subst cv. rewrite (zip_with_nth _ _ _ i x nan Hx Hp). now rewrite mul_nan_r. }
  destruct (nan_price_row ps cv tv shares i nan Hopt Hp ltac:(lia) Hcv)
    as (Hs0 & Ha & _).
  assert (Hmul : series_mul sh (Float64 ps) = Ok (Float64 cv)).
  { unfold series_mul.
    apply (series_binop_floats Z.mul PrimFloat.mul sh (Float64 ps) xs ps Exs
             eq_refl). intros; discriminate. }
  set (df1 := mkDF (index_len df)
                (assign "Current Weight (%)"
                   (Float64 (weights_from (index_len df) (FloatS total) cv))
                   (assign "Current Value" (Float64 cv) (columns df)))).
  set (actual := actual_values shares ps).
  set (d := mkDerived (FloatS total) ws ps shares (Float64 actual)
              (Float64 (differences actual cv)) (differences actual cv) delta
              (weights_of (index_len df) actual)).
  assert (D : derives (index_len df1) cap (Float64 cv) tws (Float64 ps) sh d).
  { unfold derives; cbn [d_total d_weights d_prices d_shares d_actual
      d_difference d_diffs d_delta d_real d index_len df1].
    repeat split; auto; try lia. }
  set (df' := mkDF (index_len df1) (derived_columns cap d (columns df1))).
  assert (Hrun : calculate_rebalancing_metrics cap df1
                 = (reorder_rebalanced_columns df', df')).
  { apply (engine_run cap df1 (Float64 cv) tws (Float64 ps) sh d);
      subst df1; frame_simpl; auto. }
  destruct (reorder_spec df') as (out & Hr & _ & _ & Hc).
  destruct (series_sum_ok _ _ Ews) as [twt Htwt].
  exists (scalar_round2
            (FloatS (F64.nansum
                       (weights_from (index_len df) (FloatS total) cv)))),
    (scalar_round2 twt), out, df', shares.
  split.
  { unfold rebalance. unfold bind at 1.
    rewrite (metrics_run df sh (Float64 ps) (Float64 cv) (FloatS total) cv
               Hsh Hps Hmul eq_refl eq_refl).
    rewrite Htw, Htwt. cbn [rbind].
    fold df1. unfold bind. rewrite Hrun, Hr. reflexivity. }
  rewrite !Hc. unfold column. subst df' df1.
  unfold derived_columns, rebalanced_columns.
  cbn [d_total d_weights d_prices d_shares d_actual d_difference d_diffs
         d_delta d_real d].
  frame_simpl.
  repeat split; auto.
  - now apply fillna0_nan.
  - intros L. symmetry. now apply nansum_remove_nan.
  - intros w Hw. subst tv. unfold target_values.
    rewrite nth_error_map, Hw. reflexivity.
  - now apply fillna0_nan.
  - intros L. symmetry. apply nansum_remove_nan; [| exact Ha].
    subst actual. unfold actual_values.
    rewrite zip_with_length, length_map. lia.
Qed.

Lemma missing_price_soft_failure_witness :
  exists cw_sum tw_sum out df' shares,
    rebalance 0 missing_price_fixture
    = (Ok (FloatS 2000, cw_sum, tw_sum, out), df') /\
    column "Current Value" out = Some (Float64 [1000; 1000; nan]) /\
    column "Target Value" out = Some (Float64 [500; 1000; 500]) /\
    column "Target Shares" out = Some (Int64 shares) /\
    nth_error shares 2 = Some 0%Z /\
    column "Target Value (Actual)" out
    = Some (Float64 (actual_values shares [100; 50; nan])) /\
    nth_error (actual_values shares [100; 50; nan]) 2 = Some nan.
Proof.
  destruct (missing_price_soft_failure 0 missing_price_fixture
              (Int64 [10; 20; 12]%Z) (map F64.of_Z [10; 20; 12]%Z)
              (Float64 [25; 50; 25]) [25; 50; 25] [100; 50; nan] 2%nat)
    as (cw & tw & out & df' & shares & H).
  - unfold wf. simpl. repeat constructor.
  - reflexivity.
  - reflexivity.
  - reflexivity.
  - reflexivity.
  - reflexivity.
  - reflexivity.
  - repeat constructor; unfold finite_quotient; vm_compute; intros H;
      first [reflexivity | discriminate H].
  - intros shares H. vm_compute in H. injection H as <-. reflexivity.
  - exists cw, tw, out, df', shares.
    destruct H as (A & B & _ & _ & _ & _ & C & _ & D & E & F & G & _).
    repeat split; assumption.
Defined.

End SoftFailure.

(** ** The sign of float64 results *)

Section Signs.

Lemma binary_round_aux_nonneg m e l :
  sf_nonneg (binary_round_aux prec emax false m e l).
Proof.
  unfold binary_round_aux.
  destruct (shr_fexp prec emax m e l) as [mrs' e'].
  destruct (shr_fexp prec emax _ e' loc_Exact) as [mrs'' e''].
  destruct (shr_m mrs''); simpl; auto.
  match goal with |- context [if ?b then _ else _] => destruct b end;
    reflexivity.
Qed.

Lemma binary_round_nonneg m e : sf_nonneg (binary_round prec emax false m e).
Proof.
  unfold binary_round. destruct (shl_align _ _ _) as [mz ez].
  apply binary_round_aux_nonneg.
Qed.

Lemma not_negative_sf (x : float) : not_negative x <-> sf_nonneg (Prim2SF x).
Proof.
  unfold not_negative. rewrite FloatAxioms.ltb_spec, Prim2SF_zero. unfold SFltb.
  destruct (Prim2SF x) as [s | s | | s m e]; simpl; try tauto;
    destruct s; simpl; split; auto; discriminate.
Qed.

Lemma SFmul_nonneg x y :
  sf_nonneg x -> sf_nonneg y -> sf_nonneg (SFmul prec emax x y).
Proof.
  destruct x as [sx | sx | | sx mx ex], y as [sy | sy | | sy my ey];
    simpl; intros Hx Hy; subst; simpl; auto.
  apply binary_round_aux_nonneg.
Qed.

Lemma positive_sf (x : float) : (0 <? x)%float = true -> sf_pos (Prim2SF x).
Proof.
  rewrite FloatAxioms.ltb_spec, Prim2SF_zero. unfold SFltb.
  destruct (Prim2SF x) as [s | s | | s m e]; simpl; try discriminate;
    destruct s; simpl; auto; discriminate.
Qed.

Lemma SFdiv_nonneg x y :
  sf_nonneg x -> sf_pos y -> sf_nonneg (SFdiv prec emax x y).
Proof.
  destruct x as [sx | sx | | sx mx ex], y as [sy | sy | | sy my ey];
    simpl; intros Hx Hy; subst; simpl; auto; try contradiction;
    try (destruct sy; [contradiction | simpl; auto]).
  all: try reflexivity.
  match goal with
  | |- context [SFdiv_core_binary ?a ?b ?c ?d ?e ?f] =>
      destruct (SFdiv_core_binary a b c d e f) as [[mz ez] lz]
  end.
  apply binary_round_aux_nonneg.
Qed.

Lemma SFadd_nonneg x y :
  sf_nonneg x -> sf_nonneg y -> sf_nonneg (SFadd prec emax x y).
Proof.
  destruct x as [sx | sx | | sx mx ex], y as [sy | sy | | sy my ey];
    simpl; intros Hx Hy; subst; simpl; auto.
  - destruct sx, sy; simpl; auto.
  - apply binary_round_nonneg.
Qed.

Lemma mul_not_negative (x y : float) :
  not_negative x -> not_negative y -> not_negative (x * y).
Proof.
  rewrite !not_negative_sf, mul_spec. apply SFmul_nonneg.
Qed.

Lemma add_not_negative (x y : float) :
  not_negative x -> not_negative y -> not_negative (x + y).
Proof.
  rewrite !not_negative_sf, add_spec. apply SFadd_nonneg.
Qed.

Lemma div_not_negative (x y : float) :
  not_negative x -> (0 <? y)%float = true -> not_negative (x / y).
Proof.
  rewrite !not_negative_sf, div_spec. intros Hx Hy.
  apply SFdiv_nonneg; [assumption | now apply positive_sf].
Qed.

(** A property of 0.0 that sums keep is kept by numpy's sum, whatever
    the grouping of the cells. *)
Lemma fold_add_closed (P : float -> Prop) (l : list float) (acc : float) :
  (forall x y, P x -> P y -> P (x + y)%float) ->
  Forall P l -> P acc -> P (fold_left PrimFloat.add l acc).
Proof.
  intros Hadd Hl. revert acc.
  induction Hl as [| a l Ha _ IH]; simpl; intros acc Hacc; [assumption |].
  apply IH. now apply Hadd.
Qed.

Lemma Forall_firstn {A} (P : A -> Prop) (n : nat) (l : list A) :
  Forall P l -> Forall P (firstn n l).
Proof.
  intros H. revert n. induction H as [| a l Ha _ IH]; intros [| n]; simpl;
    constructor; auto.
Qed.

Lemma Forall_skipn {A} (P : A -> Prop) (n : nat) (l : list A) :
  Forall P l -> Forall P (skipn n l).
Proof.
  intros H. revert n. induction H as [| a l Ha Hl IH]; intros [| n]; simpl;
    auto.
Qed.

Lemma accumulate8_closed (P : float -> Prop) (b : nat) (r l : list float) :
  (forall x y, P x -> P y -> P (x + y)%float) ->
  Forall P r -> Forall P l ->
  Forall P (fst (F64.accumulate8 b r l)) /\
  Forall P (snd (F64.accumulate8 b r l)).
Proof.
  intros Hadd. revert r l.
  induction b as [| b IH]; intros r l Hr Hl; cbn [F64.accumulate8].
  - simpl. auto.
  - apply IH; [| now apply Forall_skipn].
    pose proof (Forall_firstn P 8 l Hl) as Hf.
    revert Hf. generalize (firstn 8 l). clear Hl.
    induction Hr as [| x r Hx _ IHr]; intros f Hf; simpl; [constructor |].
    destruct Hf as [| y f Hy Hf]; simpl; constructor; auto.
Qed.

Lemma block_sum_closed (P : float -> Prop) (l : list float) :
  P 0%float -> (forall x y, P x -> P y -> P (x + y)%float) ->
  Forall P l -> P (F64.block_sum l).
Proof.
  intros H0 Hadd Hl. unfold F64.block_sum. cbv zeta.
  destruct (Nat.ltb (List.length l) 8); [now apply fold_add_closed |].
  destruct (accumulate8_closed P (List.length l / 8 - 1)%nat (firstn 8 l)
              (skipn 8 l) Hadd) as [Hr Hrest];
    [now apply Forall_firstn | now apply Forall_skipn |].
  destruct (F64.accumulate8 _ _ _) as [r rest]. simpl in Hr, Hrest.
  destruct r as [| r0 [| r1 [| r2 [| r3 [| r4 [| r5 [| r6 [| r7 [| r8 r]]]]]]]]];
    try exact H0.
  repeat match goal with
         | H : Forall P (_ :: _) |- _ => inversion H; subst; clear H
         end.
  apply fold_add_closed; auto.
Qed.

Lemma pairwise_sum_closed (P : float -> Prop) (fuel : nat) (l : list float) :
  P 0%float -> (forall x y, P x -> P y -> P (x + y)%float) ->
  Forall P l -> P (F64.pairwise_sum fuel l).
Proof.
  intros H0 Hadd. revert l.
  induction fuel as [| fuel IH]; intros l Hl; cbn [F64.pairwise_sum].
  - now apply block_sum_closed.
  - destruct (Nat.leb (List.length l) 128); [now apply block_sum_closed |].
    apply Hadd; apply IH; [now apply Forall_firstn | now apply Forall_skipn].
Qed.

Lemma nansum_closed (P : float -> Prop) (l : list float) :
  P 0%float -> (forall x y, P x -> P y -> P (x + y)%float) ->
  Forall (fun x => is_nan x = false -> P x) l -> P (F64.nansum l).
Proof.
  intros H0 Hadd Hl. unfold F64.nansum, F64.np_sum.
  apply Hadd; [exact H0 |]. apply pairwise_sum_closed; auto.
  unfold F64.fillna0. apply Forall_map.
  eapply Forall_impl; [| exact Hl]. intros x Hx. cbv beta in *.
  destruct (is_nan x); [exact H0 | exact (Hx eq_refl)].
Qed.

Lemma nansum_not_negative (l : list float) :
  Forall not_negative l -> not_negative (F64.nansum l).
Proof.
  intros H. apply nansum_closed.
  - reflexivity.
  - apply add_not_negative.
  - eapply Forall_impl; [| exact H]. auto.
Qed.

Lemma rne_shift_nonneg (m k : Z) : 0 <= m -> 0 <= F64.rne_shift m k.
Proof.
  intros Hm. unfold F64.rne_shift.
  assert (0 <= m / 2 ^ k).
  { apply Z_div_nonneg_nonneg; [assumption | apply Z.pow_nonneg; lia]. }
  destruct (Z.ltb _ _); [assumption |].
  destruct (Z.ltb _ _); [lia |].
  destruct (Z.even _); lia.
Qed.

Lemma nearest_int_nonneg (m : positive) (e : Z) : 0 <= F64.nearest_int false m e.
Proof.
  unfold F64.nearest_int. destruct (0 <=? e)%Z eqn:He.
  - apply Z.mul_nonneg_nonneg; [lia | apply Z.pow_nonneg; lia].
  - apply rne_shift_nonneg. lia.
Qed.

Lemma py_round_not_negative (q : float) (n : Z) :
  not_negative q -> F64.py_round q = Ok n -> 0 <= n.
Proof.
  rewrite not_negative_sf. unfold F64.py_round.
  destruct (Prim2SF q) as [s | s | | s m e]; simpl; try discriminate.
  - intros _ [= <-]. lia.
  - intros -> [= <-]. apply nearest_int_nonneg.
Qed.

Lemma SFldexp_nonneg x e :
  sf_nonneg x -> sf_nonneg (SFldexp prec emax x e).
Proof.
  destruct x as [s | s | | s m ex]; simpl; auto.
  intros ->. apply binary_round_nonneg.
Qed.

Lemma binary_normalize_nonneg (z : Z) :
  0 <= z -> sf_nonneg (binary_normalize prec emax z 0 false).
Proof.
  destruct z; simpl; [auto | intros _; apply binary_round_nonneg | lia].
Qed.

Lemma SF2Prim_nonneg (x : spec_float) :
  sf_nonneg x -> sf_nonneg (Prim2SF (SF2Prim x)).
Proof.
  destruct x as [s | s | | s m e]; simpl.
  - destruct s; intros _; vm_compute; exact I.
  - intros ->. vm_compute. reflexivity.
  - intros _. vm_compute. exact I.
  - intros ->. rewrite Z_ldexp_spec. apply SFldexp_nonneg.
    rewrite of_uint63_spec. apply binary_normalize_nonneg.
    apply Uint63.to_Z_bounded.
Qed.

Lemma of_Z_not_negative (z : Z) : 0 <= z -> not_negative (F64.of_Z z).
Proof.
  intros Hz. apply not_negative_sf. unfold F64.of_Z.
  apply SF2Prim_nonneg. now apply binary_normalize_nonneg.
Qed.

End Signs.

(** ** More on [optimize_shares] *)

Section OptimizeSharesMore.

Local Open Scope float_scope.

Lemma py_round_ok_finite (q : float) (n : Z) :
  F64.py_round q = Ok n -> is_finite q = true.
Proof.
  unfold F64.py_round, is_finite, is_infinity.
  destruct (Prim2SF q) as [s | s | | s m e] eqn:E; try discriminate; intros _.
  - assert (Hn : is_nan q = false).
    { destruct (is_nan q) eqn:N; [| reflexivity].
      apply is_nan_Prim2SF in N. congruence. }
    rewrite Hn, FloatAxioms.eqb_spec, abs_spec, E. reflexivity.
  - assert (Hn : is_nan q = false).
    { destruct (is_nan q) eqn:N; [| reflexivity].
      apply is_nan_Prim2SF in N. congruence. }
    rewrite Hn, FloatAxioms.eqb_spec, abs_spec, E. reflexivity.
Qed.

Lemma py_round_raises (q : float) (e : exn) :
  F64.py_round q = Raise e ->
  (e = ValueError /\ is_nan q = true) \/
  (e = OverflowError /\ is_infinity q = true).
Proof.
  unfold F64.py_round, is_infinity.
  destruct (Prim2SF q) as [s | s | | s m ex] eqn:E; try discriminate.
  - intros [= <-]. right. split; [reflexivity |].
    rewrite FloatAxioms.eqb_spec, abs_spec, E. reflexivity.
  - intros [= <-]. left. split; [reflexivity |]. now apply is_nan_Prim2SF.
Qed.

Lemma mapM_Raise {A B} (f : A -> result B) (l : list A) (e : exn) :
  mapM f l = Raise e ->
  exists l1 a l2,
    l = (l1 ++ a :: l2)%list /\ f a = Raise e /\
    Forall (fun x => exists b, f x = Ok b) l1.
Proof.
  induction l as [| a l IH]; simpl; [discriminate |].
  destruct (f a) as [b | e'] eqn:Ea; simpl.
  - destruct (mapM f l) as [bs | e''] eqn:El; simpl; [discriminate |].
    intros [= ->]. destruct (IH eq_refl) as (l1 & a' & l2 & -> & Ha & Hl1).
    exists (a :: l1), a', l2. repeat split; auto.
    constructor; eauto.
  - intros [= ->]. exists [], a, l. repeat split; auto.
Qed.

Lemma Forall2_exists_l {A B} (R : A -> B -> Prop) l r :
  Forall2 R l r -> Forall (fun a => exists b, R a b) l.
Proof. induction 1; constructor; eauto. Qed.

Lemma combine_nth_error_inv {A B} (xs : list A) (ys : list B) i x y :
  nth_error (combine xs ys) i = Some (x, y) ->
  nth_error xs i = Some x /\ nth_error ys i = Some y.
Proof.
  revert ys i. induction xs as [| x' xs IH]; intros [| y' ys] [| i];
    simpl; try discriminate.
  - now intros [= -> ->].
  - apply IH.
Qed.

Lemma nth_error_middle {A} (l1 l2 : list A) (a : A) :
  nth_error (l1 ++ a :: l2)%list (List.length l1) = Some a.
Proof. induction l1; simpl; auto. Qed.

(** X1: [optimize_shares] returns exactly when every zipped row with a
    positive price has a finite quotient target / price; it then gives
    one share count per zipped row.  When it raises, some row with a
    positive price has a NaN quotient (ValueError) or an infinite one
    (OverflowError). *)
Theorem optimize_shares_returns_iff_finite :
  forall prices targets,
    ((exists shares, optimize_shares prices targets = Ok shares) <->
     Forall finite_quotient (combine prices targets)) /\
    (forall shares,
        optimize_shares prices targets = Ok shares ->
        List.length shares
        = Nat.min (List.length prices) (List.length targets)) /\
    (forall e,
        optimize_shares prices targets = Raise e ->
        exists i price target,
          nth_error prices i = Some price /\
          nth_error targets i = Some target /\
          (0 <? price) = true /\
          ((e = ValueError /\ is_nan (target / price) = true) \/
           (e = OverflowError /\ is_infinity (target / price) = true))).
Proof.
  intros prices targets. rewrite optimize_shares_mapM.
  split; [| split].
  - split.
    + intros [shares H]. apply mapM_Ok_Forall2 in H.
      apply Forall2_exists_l in H. eapply Forall_impl; [| exact H].
      intros [p t] [n Hn] Hpos. simpl in *. rewrite Hpos in Hn.
      now apply py_round_ok_finite in Hn.
    + intros H. apply mapM_total. eapply Forall_impl; [| exact H].
      intros row. apply share_of_finite.
  - intros shares H. apply mapM_length in H.
    now rewrite H, length_combine.
  - intros e H. apply mapM_Raise in H.
    destruct H as (l1 & [p t] & l2 & Hl & Hf & _).
    pose proof (nth_error_middle l1 l2 (p, t)) as Hn. rewrite <- Hl in Hn.
    apply combine_nth_error_inv in Hn as [Hp Ht].
    exists (List.length l1), p, t. simpl in Hf.
    destruct (0 <? p) eqn:Hpos; [| discriminate].
    repeat split; auto. now apply py_round_raises.
Qed.


Lemma optimize_shares_returns_iff_finite_witness :
  (exists shares, optimize_shares [100; 0; 50] [740; 5; 120] = Ok shares) /\
  (exists i price target,
      nth_error [100; 50] i = Some price /\
      nth_error [740; nan] i = Some target /\
      (0 <? price) = true /\
      ((ValueError = ValueError /\ is_nan (target / price) = true) \/
       (ValueError = OverflowError /\ is_infinity (target / price) = true))).
Proof.
  split.
  - apply (proj1 (optimize_shares_returns_iff_finite
                    [100; 0; 50] [740; 5; 120])).
    simpl combine.
    repeat (constructor;
            [unfold finite_quotient; vm_compute; intros H;
             first [reflexivity | discriminate H] |]).
    constructor.
  - apply (proj2 (proj2 (optimize_shares_returns_iff_finite
                           [100; 50] [740; nan])) ValueError).
    reflexivity.
Defined.


Lemma mapM_app {A B} (f : A -> result B) (l1 l2 : list A) :
  mapM f (l1 ++ l2)%list =
  rbind (mapM f l1) (fun r1 => rbind (mapM f l2) (fun r2 => Ok (r1 ++ r2)%list)).
Proof.
  induction l1 as [| a l1 IH]; simpl.
  - destruct (mapM f l2); reflexivity.
  - destruct (f a); simpl; [| reflexivity]. rewrite IH.
    destruct (mapM f l1); simpl; [| reflexivity].
    destruct (mapM f l2); reflexivity.
Qed.

Lemma combine_app_eq {A B} (xs1 xs2 : list A) (ys1 ys2 : list B) :
  List.length xs1 = List.length ys1 ->
  combine (xs1 ++ xs2)%list (ys1 ++ ys2)%list
  = (combine xs1 ys1 ++ combine xs2 ys2)%list.
Proof.
  revert ys1. induction xs1 as [| x xs1 IH]; intros [| y ys1]; simpl;
    try discriminate; [reflexivity |].
  intros [= H]. now rewrite IH.
Qed.

(** X2: the holdings are treated one by one: on two lists of holdings
    put end to end, [optimize_shares] gives the share counts of the
    first followed by those of the second, and raises what the first
    raises, else what the second raises. *)
Theorem optimize_shares_app :
  forall prices1 targets1 prices2 targets2,
    List.length prices1 = List.length targets1 ->
    optimize_shares (prices1 ++ prices2)%list (targets1 ++ targets2)%list =
    rbind (optimize_shares prices1 targets1) (fun shares1 =>
    rbind (optimize_shares prices2 targets2) (fun shares2 =>
    Ok (shares1 ++ shares2)%list)).
Proof.
  intros p1 t1 p2 t2 Hlen. rewrite !optimize_shares_mapM.
  rewrite combine_app_eq by assumption. apply mapM_app.
Qed.

Lemma optimize_shares_app_witness :
  optimize_shares ([100; 50] ++ [80])%list ([740; 1480] ++ [740])%list =
  rbind (optimize_shares [100; 50] [740; 1480]) (fun shares1 =>
  rbind (optimize_shares [80] [740]) (fun shares2 =>
  Ok (shares1 ++ shares2)%list)).
Proof. apply optimize_shares_app. reflexivity. Defined.


End OptimizeSharesMore.

(** ** Nothing negative on a valid table *)

Section NotNegative.

Local Open Scope float_scope.

Lemma share_of_not_negative (row : float * float) (n : Z) :
  not_negative (snd row) -> share_of row = Ok n -> (0 <= n)%Z.
Proof.
  destruct row as [p t]. simpl. intros Ht.
  destruct (0 <? p) eqn:Hp.
  - apply py_round_not_negative. now apply div_not_negative.
  - intros [= <-]. lia.
Qed.

Lemma Forall_combine_snd {A B} (P : B -> Prop) (xs : list A) (ys : list B) :
  Forall P ys -> Forall (fun row => P (snd row)) (combine xs ys).
Proof.
  intros H. revert xs. induction H as [| y ys Hy _ IH]; intros [| x xs]; simpl;
    constructor; auto.
Qed.

Lemma optimize_shares_not_negative (ps tv : list float) (shares : list Z) :
  Forall not_negative tv -> optimize_shares ps tv = Ok shares ->
  Forall (fun n => 0 <= n)%Z shares.
Proof.
  intros Htv H. rewrite optimize_shares_mapM in H.
  apply mapM_Ok_Forall2 in H.
  pose proof (Forall_combine_snd not_negative ps tv Htv) as Hc.
  induction H as [| row n rows shares Hrow _ IH]; constructor.
  - inversion Hc; subst. eapply share_of_not_negative; eauto.
  - inversion Hc; subst. auto.
Qed.

Lemma target_values_not_negative (cap : float) (total : scalar)
  (ws : list float) :
  not_negative (scalar_float total) -> Forall not_negative ws ->
  not_negative cap ->
  Forall not_negative (target_values cap total ws).
Proof.
  intros Ht Hws Hcap. unfold target_values. apply Forall_map.
  eapply Forall_impl; [| exact Hws]. intros w Hw.
  apply mul_not_negative.
  - apply div_not_negative; [assumption | reflexivity].
  - now apply add_not_negative.
Qed.



Lemma rint_not_negative (x : float) : not_negative x -> not_negative (F64.rint x).
Proof.
  intros H. unfold F64.rint.
  pose proof (proj1 (not_negative_sf x) H) as Hs.
  destruct (Prim2SF x) as [s | s | | s m e] eqn:E; try assumption.
  simpl in Hs. subst s.
  destruct (0 <=? e)%Z; [assumption |].
  cbv zeta. destruct (Z.eqb_spec (F64.nearest_int false m e) 0).
  - reflexivity.
  - apply of_Z_not_negative. apply nearest_int_nonneg.
Qed.

Lemma round2_not_negative (x : float) :
  not_negative x -> not_negative (F64.round2 x).
Proof.
  intros H. unfold F64.round2. apply div_not_negative; [| reflexivity].
  apply rint_not_negative. apply mul_not_negative; [assumption | reflexivity].
Qed.

Lemma nonnegative_floats (s : series) :
  nonnegative s -> exists xs, to_floats s = Ok xs /\ Forall not_negative xs.
Proof.
  destruct s as [l | l | l]; simpl; intros H; try contradiction.
  - eexists; split; [reflexivity |]. apply Forall_map.
    eapply Forall_impl; [| exact H]. intros z Hz. now apply of_Z_not_negative.
  - eexists; split; [reflexivity | exact H].
Qed.

Lemma zip_with_Forall {A B C} (f : A -> B -> C) (P : A -> Prop) (Q : B -> Prop)
  (R : C -> Prop) xs ys :
  (forall x y, P x -> Q y -> R (f x y)) ->
  Forall P xs -> Forall Q ys -> Forall R (zip_with f xs ys).
Proof.
  intros Hf Hx. revert ys. unfold zip_with.
  induction Hx as [| x xs Px _ IH]; intros ys Hy; simpl; [constructor |].
  destruct Hy as [| y ys Qy Hy]; simpl; constructor; auto.
Qed.

Lemma weights_of_not_negative (n : nat) (values : list float) :
  Forall not_negative values -> Forall not_negative (weights_of n values).
Proof.
  intros H. unfold weights_of, weights_from. cbn [scalar_pos scalar_float].
  destruct (0 <? F64.nansum values) eqn:Hpos.
  - apply Forall_map. eapply Forall_impl; [| exact H]. intros v Hv.
    apply round2_not_negative. apply mul_not_negative; [| reflexivity].
    now apply div_not_negative.
  - apply Forall_forall. intros x Hx. apply repeat_spec in Hx. now subst.
Qed.

(** X4: on a table without a negative share count whose prices are a
    float64 column without a negative price (missing prices allowed),
    the Metrics Calculator writes no negative current value and no
    negative current weight, and its total is not negative. *)
Theorem metrics_values_not_negative :
  forall df sh ps,
    column "Shares Held" df = Some sh -> nonnegative sh ->
    column "Current Price (per share)" df = Some (Float64 ps) ->
    Forall not_negative ps ->
    exists cv w,
      column "Current Value" (snd (calculate_portfolio_metrics df))
      = Some (Float64 cv) /\
      Forall not_negative cv /\
      not_negative (F64.nansum cv) /\
      series_sum (Float64 cv) = Ok (FloatS (F64.nansum cv)) /\
      column "Current Weight (%)" (snd (calculate_portfolio_metrics df))
      = Some (Float64 w) /\
      Forall not_negative w.
Proof.
  intros df sh ps Hsh Nsh Hpr Nys. unfold column in *.
  destruct (nonnegative_floats sh Nsh) as (xs & Exs & Nxs).
  set (cv := zip_with PrimFloat.mul xs ps).
  assert (Hmul : series_mul sh (Float64 ps) = Ok (Float64 cv)).
  { unfold series_mul.
    apply (series_binop_floats Z.mul PrimFloat.mul sh (Float64 ps) xs ps Exs
             eq_refl). intros; discriminate. }
  rewrite (metrics_run df sh (Float64 ps) (Float64 cv) (FloatS (F64.nansum cv))
             cv Hsh Hpr Hmul eq_refl eq_refl).
  cbn [snd].
  assert (Ncv : Forall not_negative cv).
  { eapply zip_with_Forall; [| exact Nxs | exact Nys].
    intros x y. apply mul_not_negative. }
  fold (weights_of (index_len df) cv).
  eexists _, _. frame_simpl.
  split; [reflexivity |]. split; [exact Ncv |].
  split; [now apply nansum_not_negative |].
  split; [reflexivity |].
  split; [reflexivity |]. now apply weights_of_not_negative.
Qed.

Lemma metrics_values_not_negative_witness :
  exists cv w,
    column "Current Value" (snd (calculate_portfolio_metrics missing_price_fixture))
    = Some (Float64 cv) /\
    Forall not_negative cv /\
    not_negative (F64.nansum cv) /\
    series_sum (Float64 cv) = Ok (FloatS (F64.nansum cv)) /\
    column "Current Weight (%)"
      (snd (calculate_portfolio_metrics missing_price_fixture))
    = Some (Float64 w) /\
    Forall not_negative w.
Proof.
  apply (metrics_values_not_negative missing_price_fixture
           (Int64 [10; 20; 12]%Z) [100; 50; nan]).
  - reflexivity.
  - simpl. repeat constructor; lia.
  - reflexivity.
  - repeat constructor.
Defined.

End NotNegative.

(** ** The shares of an unpriced holding *)

Section UnpricedShares.

Local Open Scope float_scope.






End UnpricedShares.

(** ** What is left behind when a component raises *)

Section Exceptions.

Local Open Scope float_scope.

(** X6: without "Shares Held", or without "Current Price (per share)",
    the Metrics Calculator raises KeyError and leaves the table as it
    was; without "Target Weight (%)" it raises KeyError only after it
    has written "Current Value", the product of shares and prices, and
    "Current Weight (%)", the weights of that product. *)
Theorem metrics_exceptions :
  forall df,
    (column "Shares Held" df = None ->
     calculate_portfolio_metrics df = (Raise (KeyError "Shares Held"), df)) /\
    (column "Shares Held" df <> None ->
     column "Current Price (per share)" df = None ->
     calculate_portfolio_metrics df
     = (Raise (KeyError "Current Price (per share)"), df)) /\
    (forall sh pr xs ys,
        column "Shares Held" df = Some sh -> to_floats sh = Ok xs ->
        column "Current Price (per share)" df = Some pr -> to_floats pr = Ok ys ->
        column "Target Weight (%)" df = None ->
        exists cv total vs,
          series_mul sh pr = Ok cv /\
          series_sum cv = Ok total /\ to_floats cv = Ok vs /\
          fst (calculate_portfolio_metrics df)
          = Raise (KeyError "Target Weight (%)") /\
          column "Current Value" (snd (calculate_portfolio_metrics df))
          = Some cv /\
          column "Current Weight (%)" (snd (calculate_portfolio_metrics df))
          = Some (Float64 (weights_from (index_len df) total vs)) /\
          (forall ps,
              pr = Float64 ps ->
              cv = Float64 (zip_with PrimFloat.mul xs ps) /\
              weights_from (index_len df) total vs
              = weights_of (index_len df) (zip_with PrimFloat.mul xs ps))).
Proof.
  intros df. unfold column. split; [| split].
  - intros H. unfold calculate_portfolio_metrics. msteps. reflexivity.
  - intros H1 H2. unfold calculate_portfolio_metrics.
    destruct (lookup "Shares Held" (columns df)) as [sh |] eqn:E;
      [| congruence].
    msteps. reflexivity.
  - intros sh pr xs ys Hsh Exs Hpr Eys Htw.
    destruct (series_binop_ok Z.mul PrimFloat.mul sh pr xs ys Exs Eys)
      as [cv Hcv].
    fold series_mul in Hcv.
    destruct (series_binop_numeric _ _ _ _ _ Hcv) as (total & vs & Ht & Evs).
    exists cv, total, vs.
    rewrite (metrics_run df sh pr cv total vs Hsh Hpr Hcv Ht Evs), Htw.
    cbn [fst snd]. frame_simpl. repeat split; auto.
    + subst pr. injection Eys as <-. unfold series_mul in Hcv.
      rewrite (series_binop_floats Z.mul PrimFloat.mul sh (Float64 ps) xs ps
                 Exs eq_refl) in Hcv by (intros; discriminate).
      congruence.
    + subst pr. injection Eys as <-. unfold series_mul in Hcv.
      rewrite (series_binop_floats Z.mul PrimFloat.mul sh (Float64 ps) xs ps
                 Exs eq_refl) in Hcv by (intros; discriminate).
      injection Hcv as <-. injection Ht as <-. injection Evs as <-.
      reflexivity.
Qed.

Lemma metrics_exceptions_witness :
  calculate_portfolio_metrics (mkDF 1 [("Ticker", Object [Some "TCS"])])
  = (Raise (KeyError "Shares Held"), mkDF 1 [("Ticker", Object [Some "TCS"])]) /\
  calculate_portfolio_metrics (mkDF 1 [("Shares Held", Int64 [10%Z])])
  = (Raise (KeyError "Current Price (per share)"),
     mkDF 1 [("Shares Held", Int64 [10%Z])]) /\
  (fst (calculate_portfolio_metrics
          (mkDF 1 [("Shares Held", Int64 [10%Z]);
                   ("Current Price (per share)", Float64 [100])]))
   = Raise (KeyError "Target Weight (%)") /\
   column "Current Value"
     (snd (calculate_portfolio_metrics
             (mkDF 1 [("Shares Held", Int64 [10%Z]);
                      ("Current Price (per share)", Float64 [100])])))
   = Some (Float64 [1000]) /\
   column "Current Weight (%)"
     (snd (calculate_portfolio_metrics
             (mkDF 1 [("Shares Held", Int64 [10%Z]);
                      ("Current Price (per share)", Float64 [100])])))
   = Some (Float64 [100])).
Proof.
  split; [| split].
  - apply (proj1 (metrics_exceptions
                    (mkDF 1 [("Ticker", Object [Some "TCS"])]))).
    reflexivity.
  - apply (proj1 (proj2 (metrics_exceptions
                           (mkDF 1 [("Shares Held", Int64 [10%Z])]))));
      [discriminate | reflexivity].
  - destruct (proj2 (proj2 (metrics_exceptions
                           (mkDF 1 [("Shares Held", Int64 [10%Z]);
                                    ("Current Price (per share)",
                                     Float64 [100])])))
             (Int64 [10%Z]) (Float64 [100]) _ _
             eq_refl eq_refl eq_refl eq_refl eq_refl)
      as (cv & total & vs & _ & _ & _ & A & B & C & D).
    destruct (D [100] eq_refl) as [D1 D2].
    split; [exact A |]. split.
    + rewrite B, D1. reflexivity.
    + rewrite C, D2. reflexivity.
Defined.

(** X7: on a table without "Current Value" (one the Metrics Calculator
    has not enriched) the engine raises KeyError and leaves the table as
    it was; when the rounding of a share count raises, the engine raises
    the same exception and has added "Target Value" and nothing else. *)
Theorem engine_exceptions :
  forall cap df,
    (column "Current Value" df = None ->
     calculate_rebalancing_metrics cap df
     = (Raise (KeyError "Current Value"), df)) /\
    (forall cvs total tws ws prs ps e,
        column "Current Value" df = Some cvs -> series_sum cvs = Ok total ->
        column "Target Weight (%)" df = Some tws -> to_floats tws = Ok ws ->
        column "Current Price (per share)" df = Some prs ->
        to_floats prs = Ok ps ->
        optimize_shares ps (target_values cap total ws) = Raise e ->
        calculate_rebalancing_metrics cap df
        = (Raise e,
           mkDF (index_len df)
             (assign "Target Value" (Float64 (target_values cap total ws))
                (columns df)))).
Proof.
  intros cap df. unfold column. split.
  - intros H. unfold calculate_rebalancing_metrics. msteps. reflexivity.
  - intros cvs total tws ws prs ps e Hcv Ht Htw Ews Hpr Eps Hopt.
    unfold calculate_rebalancing_metrics, target_values in *.
    esteps. reflexivity.
Qed.

Lemma engine_exceptions_witness :
  calculate_rebalancing_metrics 0 fixture
  = (Raise (KeyError "Current Value"), fixture) /\
  calculate_rebalancing_metrics 0
    (mkDF 1 [("Current Value", Float64 [1000]);
             ("Target Weight (%)", Float64 [nan]);
             ("Current Price (per share)", Float64 [100])])
  = (Raise ValueError,
     mkDF 1 (assign "Target Value"
               (Float64 (target_values 0 (FloatS 1000) [nan]))
               [("Current Value", Float64 [1000]);
                ("Target Weight (%)", Float64 [nan]);
                ("Current Price (per share)", Float64 [100])])).
Proof.
  split.
  - apply (proj1 (engine_exceptions 0 fixture)). reflexivity.
  - apply (proj2 (engine_exceptions 0
                    (mkDF 1 [("Current Value", Float64 [1000]);
                             ("Target Weight (%)", Float64 [nan]);
                             ("Current Price (per share)", Float64 [100])]))
             (Float64 [1000]) (FloatS 1000)
             (Float64 [nan]) [nan] (Float64 [100]) [100] ValueError);
      reflexivity.
Defined.

End Exceptions.

(** ** Rebalancing twice *)

Section EngineTwice.

Local Open Scope float_scope.

Lemma rebalanced_columns_twice tv shares actual diff ds delta rw cols :
  rebalanced_columns tv shares actual diff ds delta rw
    (rebalanced_columns tv shares actual diff ds delta rw cols)
  = rebalanced_columns tv shares actual diff ds delta rw cols.
Proof.
  unfold rebalanced_columns.
  repeat (rewrite assign_same by (frame_simpl; reflexivity)).
  reflexivity.
Qed.

(** X8: the engine is idempotent: run again with the same additional
    capital on the table it has just written, it returns the same table
    and leaves the table as it is. *)
Theorem engine_idempotent :
  forall cap df out df',
    calculate_rebalancing_metrics cap df = (Ok out, df') ->
    calculate_rebalancing_metrics cap df' = (Ok out, df').
Proof.
  intros cap df out df' H. apply engine_inv in H.
  destruct H as (cvs & tws & prs & hs & d & H1 & H3 & H5 & H9 & D & Hdf & Hout).
  subst df'.
  set (cols' := derived_columns cap d (columns df)) in *.
  assert (L : forall name,
             ~ In name engine_columns ->
             lookup name cols' = lookup name (columns df)).
  { intros name Hn. subst cols'. unfold derived_columns, rebalanced_columns.
    rewrite !lookup_assign_neq;
      [reflexivity | | | | | | |];
      apply (not_In_eqb _ _ _ Hn); simpl; tauto. }
  assert (N : forall name, In name
                [("Current Value"); ("Target Weight (%)");
                 ("Current Price (per share)"); ("Shares Held")] ->
              ~ In name engine_columns).
  { intros name Hin Hx. simpl in Hin, Hx.
    repeat (destruct Hin as [<- | Hin];
            [repeat (destruct Hx as [Hx | Hx]; [discriminate |]); exact Hx |]).
    exact Hin. }
  rewrite (engine_run cap (mkDF (index_len df) cols') cvs tws prs hs d);
    cbn [columns index_len]; try assumption;
    try (rewrite L; [assumption | apply N; simpl; tauto]).
  subst cols'. unfold derived_columns.
  rewrite rebalanced_columns_twice. fold (derived_columns cap d (columns df)).
  now rewrite Hout.
Qed.

Lemma engine_idempotent_witness :
  calculate_rebalancing_metrics 0
    (snd (calculate_rebalancing_metrics 0 missing_price_enriched))
  = (Ok missing_price_out,
     snd (calculate_rebalancing_metrics 0 missing_price_enriched)).
Proof.
  apply (engine_idempotent 0 missing_price_enriched). vm_compute. reflexivity.
Defined.


End EngineTwice.

(** ** The weight of an unpriced holding *)

Section UnpricedWeight.

Local Open Scope float_scope.

Lemma div_nan_l (x : float) : nan / x = nan.
Proof. apply Prim2SF_inj. rewrite div_spec, Prim2SF_nan. reflexivity. Qed.

Lemma weight_of_nan (total : float) : F64.round2 (nan / total * 100) = nan.
Proof. rewrite div_nan_l. reflexivity. Qed.

(** X9: when the total is positive, the current weight of a holding
    whose price is missing is missing too (NaN, not 0.0), and so is its
    real weight in the table the engine returns. *)
Theorem unpriced_weight_missing :
  (forall df sh xs ps i x,
      column "Shares Held" df = Some sh -> to_floats sh = Ok xs ->
      column "Current Price (per share)" df = Some (Float64 ps) ->
      nth_error xs i = Some x -> nth_error ps i = Some nan ->
      (0 <? F64.nansum (zip_with PrimFloat.mul xs ps)) = true ->
      exists w,
        column "Current Weight (%)" (snd (calculate_portfolio_metrics df))
        = Some (Float64 w) /\
        nth_error w i = Some nan) /\
  (forall cap df out df' ps i,
      wf df ->
      calculate_rebalancing_metrics cap df = (Ok out, df') ->
      column "Current Price (per share)" df = Some (Float64 ps) ->
      nth_error ps i = Some nan ->
      exists actual w,
        column "Target Value (Actual)" out = Some (Float64 actual) /\
        column "Real Weight (%)" out = Some (Float64 w) /\
        ((0 <? F64.nansum actual) = true -> nth_error w i = Some nan)).
Proof.
  split.
  - intros df sh xs ps i x Hsh Exs Hps Hx Hp Hpos. unfold column in *.
    assert (Hmul : series_mul sh (Float64 ps)
                   = Ok (Float64 (zip_with PrimFloat.mul xs ps))).
    { unfold series_mul.
      apply (series_binop_floats Z.mul PrimFloat.mul sh (Float64 ps) xs ps Exs
               eq_refl). intros; discriminate. }
    rewrite (metrics_run df sh (Float64 ps) _ _ _ Hsh Hps Hmul eq_refl eq_refl).
    cbn [snd]. frame_simpl. eexists. split; [reflexivity |].
    unfold weights_from. cbn [scalar_pos scalar_float]. rewrite Hpos.
    rewrite nth_error_map, (zip_with_nth _ _ _ i x nan Hx Hp), mul_nan_r.
    simpl. now rewrite weight_of_nan.
  - intros cap df out df' ps i Hwf H Hps Hp. unfold column in Hps.
    destruct (engine_output cap df out df' H)
      as (cvs & tws & prs & hs & d & Hin & _ & _ & Hc & _).
    destruct Hin as (H1 & H3 & H5 & _ & D).
    rewrite Hps in H5. injection H5 as <-.
    destruct (derives_float_prices _ _ _ _ _ _ _ D)
      as (Eps & Eact & cv & E1 & _ & _).
    destruct D as (_ & E3 & _ & Hopt & Hlen & _ & _ & _ & _ & _ & Hrw).
    rewrite Eps in Hopt.
    pose proof (lookup_len df _ _ Hwf H1) as L1.
    pose proof (lookup_len df _ _ Hwf H3) as L3.
    pose proof (lookup_len df _ _ Hwf Hps) as L5. simpl in L5.
    apply to_floats_length in E1, E3.
    pose proof (nth_error_lt _ _ _ Hp) as Hi.
    destruct (nth_error_exists cv i ltac:(lia)) as [c Hcv].
    destruct (nan_price_row ps cv (target_values cap (d_total d) (d_weights d))
                (d_shares d) i c Hopt Hp)
      as (_ & Ha & _);
      [unfold target_values; rewrite length_map; lia | exact Hcv |].
    rewrite Eact in Hrw. unfold series_weights in Hrw. simpl in Hrw.
    injection Hrw as Hrw.
    eexists _, _. rewrite !Hc. unfold derived_columns, rebalanced_columns.
    frame_simpl. rewrite Eact.
    split; [reflexivity |]. split; [reflexivity |].
    intros Hpos. rewrite <- Hrw. unfold weights_from.
    cbn [scalar_pos scalar_float]. rewrite Hpos.
    rewrite nth_error_map, Ha. simpl. now rewrite weight_of_nan.
Qed.

Lemma unpriced_weight_missing_witness :
  (exists w,
      column "Current Weight (%)"
        (snd (calculate_portfolio_metrics missing_price_fixture))
      = Some (Float64 w) /\
      nth_error w 2 = Some nan) /\
  (exists actual w,
      column "Target Value (Actual)" missing_price_out = Some (Float64 actual) /\
      column "Real Weight (%)" missing_price_out = Some (Float64 w) /\
      ((0 <? F64.nansum actual) = true -> nth_error w 2 = Some nan)).
Proof.
  split.
  - apply (proj1 unpriced_weight_missing missing_price_fixture
             (Int64 [10; 20; 12]%Z) (map F64.of_Z [10; 20; 12]%Z)
             [100; 50; nan] 2%nat (F64.of_Z 12)); reflexivity.
  - apply (proj2 unpriced_weight_missing 0 missing_price_enriched
             missing_price_out
             (snd (calculate_rebalancing_metrics 0 missing_price_enriched))
             [100; 50; nan] 2%nat).
    + unfold wf. simpl. repeat constructor.
    + vm_compute. reflexivity.
    + reflexivity.
    + reflexivity.
Defined.


End UnpricedWeight.

(** ** Reordering twice *)

Section ReorderTwice.

Lemma select_ext names cols cols' :
  (forall n, In n names -> lookup n cols = lookup n cols') ->
  select names cols = select names cols'.
Proof.
  induction names as [| n names IH]; simpl; intros H; [reflexivity |].
  rewrite <- (H n) by auto. rewrite IH by auto. reflexivity.
Qed.

Lemma filter_filter_same {A} (P : A -> bool) (l : list A) :
  filter P (filter P l) = filter P l.
Proof.
  induction l as [| a l IH]; simpl; [reflexivity |].
  destruct (P a) eqn:E; simpl; [rewrite E |]; now rewrite ?IH.
Qed.

Lemma filter_none {A} (P : A -> bool) (l : list A) :
  Forall (fun a => P a = false) l -> filter P l = [].
Proof.
  induction 1 as [| a l Ha _ IH]; simpl; [reflexivity |]. now rewrite Ha.
Qed.

Lemma NoDup_filter_string (P : string -> bool) (l : list string) :
  NoDup l -> NoDup (filter P l).
Proof.
  induction 1 as [| a l Ha _ IH]; simpl; [constructor |].
  destruct (P a); [| assumption].
  constructor; [| assumption]. intros H. apply filter_In in H. tauto.
Qed.

Lemma filter_partition_perm {A} (P : A -> bool) (l : list A) :
  Permutation l (filter P l ++ filter (fun a => negb (P a)) l)%list.
Proof.
  induction l as [| a l IH]; simpl; [constructor |].
  destruct (P a); simpl.
  - now constructor.
  - now apply Permutation_cons_app.
Qed.

Lemma column_order_NoDup : NoDup column_order.
Proof.
  unfold column_order.
  repeat (constructor; [simpl; intros H;
                        repeat (destruct H as [H | H]; [discriminate |]);
                        exact H |]).
  constructor.
Qed.

(** X10: on a table whose column names are distinct,
    [reorder_rebalanced_columns] does not raise, keeps the index and
    the content of every column, and is idempotent; the column names
    of the result are a permutation of the input's, so that no column
    is lost or repeated. *)
Theorem reorder_idempotent :
  forall df,
    NoDup (column_names df) ->
    exists out,
      reorder_rebalanced_columns df = Ok out /\
      reorder_rebalanced_columns out = Ok out /\
      index_len out = index_len df /\
      (forall name, column name out = column name df) /\
      Permutation (column_names df) (column_names out) /\
      NoDup (column_names out).
Proof.
  intros df Hnd.
  destruct (reorder_spec df) as (out & Hr & Hi & Hn & Hc).
  exists out. split; [exact Hr |].
  assert (Hmem : forall c, mem c (column_names out) = mem c (column_names df)).
  { intros c. unfold column_names. rewrite !mem_lookup.
    specialize (Hc c). unfold column in Hc. now rewrite Hc. }
  split; [| split; [exact Hi | split; [exact Hc |]]].
  - (* the second pass selects the same names from the same columns *)
    unfold reorder_rebalanced_columns in *.
    set (names := (filter (fun col => mem col (column_names df)) column_order
                   ++ filter
                        (fun col =>
                           negb (mem col
                                   (filter (fun col => mem col (column_names df))
                                      column_order)))
                        (column_names df))%list) in *.
    destruct (select names (columns df)) as [r |] eqn:Hsel; simpl in Hr;
      [| discriminate].
    injection Hr as Hout.
    assert (Hnames : column_names out = names).
    { subst out. unfold column_names. cbn [columns].
      destruct (select_spec names (columns df)) as (r' & Hr' & Hn' & _).
      - apply Forall_forall. intros n Hin. subst names.
        apply in_app_or in Hin. fold (column_names df).
        destruct Hin as [Hin | Hin]; apply filter_In in Hin;
          [apply mem_In |]; tauto.
      - congruence. }
    assert (Hav : filter (fun col => mem col (column_names out)) column_order
                  = filter (fun col => mem col (column_names df)) column_order).
    { apply filter_ext. exact Hmem. }
    rewrite Hav.
    set (available := filter (fun col => mem col (column_names df)) column_order)
      in *.
    assert (Hrem : filter (fun col => negb (mem col available))
                     (column_names out)
                   = filter (fun col => negb (mem col available))
                       (column_names df)).
    { rewrite Hnames. subst names. rewrite filter_app.
      rewrite filter_none, filter_filter_same; [reflexivity |].
      apply Forall_forall. intros c Hin.
      apply negb_false_iff. now apply mem_In. }
    rewrite Hrem. fold names.
    rewrite (select_ext names (columns out) (columns df)).
    + rewrite Hsel. simpl. now rewrite Hi, <- Hout.
    + intros n _. specialize (Hc n). exact Hc.
  - assert (P : Permutation (column_names df) (column_names out)).
    { rewrite Hn.
      etransitivity;
        [apply (filter_partition_perm (fun c => mem c column_order)) |].
      apply Permutation_app; [| reflexivity].
      apply NoDup_Permutation.
      + now apply NoDup_filter_string.
      + apply NoDup_filter_string, column_order_NoDup.
      + intros c. rewrite !filter_In, !mem_In. tauto. }
    split; [exact P |]. exact (Permutation_NoDup P Hnd).
Qed.


Lemma reorder_idempotent_witness :
  exists out,
    reorder_rebalanced_columns sector_enriched = Ok out /\
    reorder_rebalanced_columns out = Ok out /\
    index_len out = index_len sector_enriched /\
    (forall name, column name out = column name sector_enriched) /\
    Permutation (column_names sector_enriched) (column_names out) /\
    NoDup (column_names out).
Proof.
  apply (reorder_idempotent sector_enriched).
  unfold column_names. simpl.
  repeat (constructor; [simpl; intros H;
                        repeat (destruct H as [H | H]; [discriminate |]);
                        exact H |]).
  constructor.
Defined.

End ReorderTwice.



(** ** [update_portfolio_prices] *)

Section Prices.

Local Open Scope float_scope.

Variable service : series -> result price_cache.

Lemma is_empty_false {A} (l : list A) : l <> [] -> is_empty l = false.
Proof. destruct l; [congruence | reflexivity]. Qed.

Lemma ticker_cells_length (s : series) :
  List.length (ticker_cells s) = series_len s.
Proof. destruct s; simpl; now rewrite ?length_map. Qed.

Lemma price_column_length (cache : price_cache) (s : series) :
  series_len (price_column cache s) = series_len s.
Proof.
  unfold price_column. rewrite <- (ticker_cells_length s).
  destruct (ticker_cells s) eqn:E.
  - now rewrite <- ticker_cells_length, E.
  - cbn [series_len]. now rewrite length_map.
Qed.

Lemma price_column_floats (cache : price_cache) (s : series) :
  to_floats (price_column cache s)
  = Ok (map (cached_price cache) (ticker_cells s)).
Proof. destruct s as [[| z l] | [| x l] | [| o l]]; reflexivity. Qed.

(** X11: prices are fetched once: after a call that filled the empty
    cache from the price service, a later call on any table takes every
    price from that cache and leaves the cache as it is, whatever the
    service would answer by then ([later]) for the new tickers. *)
Theorem prices_fetched_once :
  forall (later : series -> result price_cache) df1 df2 tickers1 tickers2 cache,
    column "Ticker" df1 = Some tickers1 ->
    service tickers1 = Ok cache -> cache <> [] ->
    column "Ticker" df2 = Some tickers2 ->
    let first := update_portfolio_prices service [] df1 in
    let second := update_portfolio_prices later (snd (fst first)) df2 in
    fst (fst first) = Ok tt /\
    snd (fst first) = cache /\
    fst (fst second) = Ok tt /\
    snd (fst second) = cache /\
    column "Current Price (per share)" (snd second)
    = Some (price_column cache tickers2).
Proof.
  intros later df1 df2 tk1 tk2 cache H1 Hs Hne H2 first second.
  unfold column in *.
  assert (F : exists df1', first = (Ok tt, cache, df1')).
  { subst first. unfold update_portfolio_prices. rewrite H1. simpl is_empty.
    cbv iota. rewrite Hs. eauto. }
  destruct F as [df1' F]. subst second. rewrite F. cbn [fst snd].
  unfold update_portfolio_prices. rewrite H2, (is_empty_false _ Hne).
  cbn [fst snd columns]. rewrite lookup_assign_eq. auto.
Qed.

Lemma update_prices_cases (cache : price_cache) (df : DataFrame) :
  (exists e, update_portfolio_prices service cache df = (Raise e, cache, df)) \/
  (exists tickers cache',
      lookup "Ticker" (columns df) = Some tickers /\
      (if is_empty cache then service tickers else Ok cache) = Ok cache' /\
      update_portfolio_prices service cache df
      = (Ok tt, cache',
         mkDF (index_len df)
           (assign "Current Price (per share)"
              (price_column cache' tickers) (columns df)))).
Proof.
  unfold update_portfolio_prices.
  destruct (lookup "Ticker" (columns df)) as [tk |]; [| eauto].
  destruct (if is_empty cache then service tk else Ok cache) as [c |] eqn:E;
    [| eauto].
  right. exists tk, c. auto.
Qed.

(** X12: [update_portfolio_prices] keeps the index and every column but
    the price column, which it writes from the cache with one cell per
    row; a cache that is not empty is never replaced, and when the call
    raises (no "Ticker" column, or the service raises) the cache and the
    table are as before. *)
Theorem update_prices_frame :
  forall cache df r cache' df',
    update_portfolio_prices service cache df = (r, cache', df') ->
    index_len df' = index_len df /\
    (forall name,
        name <> "Current Price (per share)" ->
        column name df' = column name df) /\
    (cache <> [] -> cache' = cache) /\
    (forall e, r = Raise e -> cache' = cache /\ df' = df) /\
    (r = Ok tt ->
     exists tickers,
       column "Ticker" df = Some tickers /\
       column "Current Price (per share)" df'
       = Some (price_column cache' tickers) /\
       to_floats (price_column cache' tickers)
       = Ok (map (cached_price cache') (ticker_cells tickers))) /\
    (wf df -> wf df').
Proof.
  intros cache df r cache' df' H.
  destruct (update_prices_cases cache df)
    as [[e E] | (tk & c & Htk & Hc & E)];
    rewrite E in H; injection H as <- <- <-.
  - repeat split; auto; discriminate.
  - cbn [index_len]. unfold column. cbn [columns].
    split; [reflexivity |]. split.
    { intros name Hn. apply lookup_assign_neq.
      apply String.eqb_neq. congruence. }
    split.
    { intros Hne. rewrite (is_empty_false _ Hne) in Hc. congruence. }
    split; [discriminate |]. split.
    { intros _. exists tk. rewrite lookup_assign_eq.
      repeat split; auto. apply price_column_floats. }
    intros Hwf. unfold wf. cbn [columns index_len].
    apply Forall_assign; [| exact Hwf].
    cbn [snd]. rewrite price_column_length.
    exact (lookup_len df _ _ Hwf Htk).
Qed.

Lemma nansum_all_nan (l : list float) :
  Forall (fun v => v = nan) l -> F64.nansum l = 0.
Proof.
  intros H. apply (nansum_closed (fun x => x = 0)).
  - reflexivity.
  - intros x y -> ->. reflexivity.
  - eapply Forall_impl; [| exact H]. intros v -> E. discriminate E.
Qed.

Lemma nansum_zeros (n : nat) : F64.nansum (repeat 0 n) = 0.
Proof.
  apply (nansum_closed (fun x => x = 0)).
  - reflexivity.
  - intros x y -> ->. reflexivity.
  - apply Forall_forall. intros x Hx _. now apply repeat_spec in Hx.
Qed.

(** A column without a cell has the sum 0. *)
Lemma series_sum_empty (c : series) :
  to_floats c = Ok [] ->
  exists t, series_sum c = Ok t /\ scalar_pos t = false /\ scalar_float t = 0.
Proof.
  destruct c as [[| z l] | [| x l] | [| o l]]; simpl; try discriminate;
    intros _; eexists; (split; [reflexivity |]); split; reflexivity.
Qed.

Lemma series_binop_nil_r fz ff (a b c : series) :
  to_floats b = Ok [] -> series_binop fz ff a b = Ok c -> to_floats c = Ok [].
Proof.
  unfold series_binop, to_floats, zip_with.
  destruct a as [xs | xs | [| o xs]], b as [[| y ys] | [| y ys] | [| p ys]];
    simpl; try discriminate; intros _ [= <-]; simpl;
    rewrite ?combine_nil; reflexivity.
Qed.

(** X13: when the cache holds a price for none of the tickers, every
    price is NaN, and the Metrics Calculator then gives a total of 0.0,
    a missing current value and the weight 0.0 on every row (on a table
    without a row the columns are empty and the total is the 0 of their
    type). *)
Theorem unknown_prices_zero_total :
  forall cache df cache' df' tickers sh xs,
    update_portfolio_prices service cache df = (Ok tt, cache', df') ->
    column "Ticker" df = Some tickers ->
    Forall (fun cell => cached_price cache' cell = nan) (ticker_cells tickers) ->
    column "Shares Held" df = Some sh -> to_floats sh = Ok xs ->
    exists cvs cv total,
      column "Current Value" (snd (calculate_portfolio_metrics df'))
      = Some cvs /\
      to_floats cvs = Ok cv /\
      Forall (fun v => v = nan) cv /\
      column "Current Weight (%)" (snd (calculate_portfolio_metrics df'))
      = Some (Float64 (repeat 0 (index_len df))) /\
      series_sum cvs = Ok total /\
      scalar_float total = 0 /\
      (ticker_cells tickers <> [] ->
       cvs = Float64 cv /\ total = FloatS 0) /\
      (forall tws t,
          column "Target Weight (%)" df = Some tws -> series_sum tws = Ok t ->
          fst (calculate_portfolio_metrics df')
          = Ok (total, FloatS 0, scalar_round2 t)).
Proof.
  intros cache df cache' df' tk sh xs H Htk Hnan Hsh Exs.
  unfold column in Htk, Hsh.
  destruct (update_prices_cases cache df)
    as [[e E] | (tk' & c & Htk' & Hc & E)];
    rewrite E in H; [discriminate |].
  injection H as <- <-.
  assert (tk' = tk) by congruence. subst tk'.
  set (ps := map (cached_price c) (ticker_cells tk)).
  assert (Hps : Forall (fun p => p = nan) ps).
  { subst ps. apply Forall_map. exact Hnan. }
  pose proof (price_column_floats c tk) as Epc. fold ps in Epc.
  destruct (series_binop_ok Z.mul PrimFloat.mul sh (price_column c tk) xs ps
              Exs Epc) as [cvs Hmul].
  fold series_mul in Hmul.
  assert (V : exists cv total,
             to_floats cvs = Ok cv /\ Forall (fun v => v = nan) cv /\
             series_sum cvs = Ok total /\ scalar_pos total = false /\
             scalar_float total = 0 /\
             (ticker_cells tk <> [] -> cvs = Float64 cv /\ total = FloatS 0)).
  { destruct (ticker_cells tk) as [| cell cells] eqn:Ecells.
    - subst ps. simpl in Epc.
      pose proof (series_binop_nil_r _ _ _ _ _ Epc Hmul) as Ecv.
      destruct (series_sum_empty cvs Ecv) as (t & Et & Pt & Ft).
      exists [], t. repeat split; auto; congruence.
    - assert (Epc' : price_column c tk = Float64 ps).
      { unfold price_column. rewrite Ecells. reflexivity. }
      rewrite Epc' in Hmul. unfold series_mul in Hmul.
      rewrite (series_binop_floats Z.mul PrimFloat.mul sh (Float64 ps) xs ps
                 Exs eq_refl) in Hmul by (intros; discriminate).
      injection Hmul as <-.
      assert (Hcv : Forall (fun v => v = nan) (zip_with PrimFloat.mul xs ps)).
      { eapply (zip_with_Forall _ (fun _ => True)); [| | exact Hps].
        - intros x y _ ->. apply mul_nan_r.
        - apply Forall_forall. auto. }
      exists (zip_with PrimFloat.mul xs ps),
        (FloatS (F64.nansum (zip_with PrimFloat.mul xs ps))).
      rewrite (nansum_all_nan _ Hcv).
      repeat split; auto. simpl. now rewrite (nansum_all_nan _ Hcv). }
  destruct V as (cv & total & Ecv & Ncv & Et & Pt & Ft & Hne).
  exists cvs, cv, total. unfold column.
  rewrite (metrics_run _ sh (price_column c tk) cvs total cv);
    cbn [columns index_len];
    [| now rewrite lookup_assign_neq by reflexivity
     | now rewrite lookup_assign_eq | assumption | assumption | assumption].
  cbn [fst snd]. frame_simpl.
  assert (W : weights_from (index_len df) total cv = repeat 0 (index_len df)).
  { unfold weights_from. now rewrite Pt. }
  rewrite W. repeat split; auto; try apply Hne; auto.
  intros tws t Htw Ht. unfold column in Htw.
  rewrite Htw, Ht. cbn [rbind]. now rewrite nansum_zeros.
Qed.

End Prices.

Lemma prices_fetched_once_witness :
  snd (fst (update_portfolio_prices two_prices [] bare_fixture))
  = [("TCS", 100%float); ("INFY", 50%float)] /\
  column "Current Price (per share)"
    (snd (update_portfolio_prices no_price
            (snd (fst (update_portfolio_prices two_prices [] bare_fixture)))
            bare_fixture))
  = Some (Float64 [100; 50; nan]%float).
Proof.
  pose proof (prices_fetched_once two_prices no_price bare_fixture bare_fixture
                _ _ _ eq_refl eq_refl ltac:(discriminate) eq_refl) as H.
  cbv zeta in H. destruct H as (_ & B & _ & _ & E).
  split; [exact B | exact E].
Defined.

Lemma update_prices_frame_witness :
  index_len (snd (update_portfolio_prices two_prices [] bare_fixture)) = 3%nat /\
  wf (snd (update_portfolio_prices two_prices [] bare_fixture)).
Proof.
  destruct (update_prices_frame two_prices [] bare_fixture
              (fst (fst (update_portfolio_prices two_prices [] bare_fixture)))
              (snd (fst (update_portfolio_prices two_prices [] bare_fixture)))
              (snd (update_portfolio_prices two_prices [] bare_fixture))
              eq_refl)
    as (A & _ & _ & _ & _ & W).
  split; [exact A | apply W; repeat constructor].
Defined.

Lemma unknown_prices_zero_total_witness :
  exists cvs cv total,
    column "Current Value"
      (snd (calculate_portfolio_metrics
              (snd (update_portfolio_prices no_price [] bare_fixture))))
    = Some cvs /\
    to_floats cvs = Ok cv /\
    Forall (fun v => v = nan) cv /\
    column "Current Weight (%)"
      (snd (calculate_portfolio_metrics
              (snd (update_portfolio_prices no_price [] bare_fixture))))
    = Some (Float64 [0; 0; 0]%float) /\
    cvs = Float64 cv /\ total = FloatS 0 /\
    fst (calculate_portfolio_metrics
           (snd (update_portfolio_prices no_price [] bare_fixture)))
    = Ok (total, FloatS 0, FloatS 100).
Proof.
  destruct (unknown_prices_zero_total no_price [] bare_fixture
              (snd (fst (update_portfolio_prices no_price [] bare_fixture)))
              (snd (update_portfolio_prices no_price [] bare_fixture))
              (Object [Some "TCS"; Some "INFY"; Some "HDFC"])
              (Int64 [10; 20; 12]%Z) (map F64.of_Z [10; 20; 12]%Z)
              eq_refl eq_refl ltac:(repeat constructor) eq_refl eq_refl)
    as (cvs & cv & total & A & B & C & D & _ & _ & E & F).
  exists cvs, cv, total.
  destruct E as [E1 E2]; [discriminate |].
  split; [exact A |]. split; [exact B |]. split; [exact C |].
  split; [exact D |]. split; [exact E1 |]. split; [exact E2 |].
  exact (F (Float64 [25; 50; 25]%float) (FloatS 100) eq_refl eq_refl).
Defined.

(** ** Saving, and the basket state *)

Section SaveAndLoad.

Local Open Scope float_scope.

Lemma check_missing_nil (df : DataFrame) :
  check_missing df = [] <->
  (lookup "Ticker" (columns df) <> None /\
   lookup "Shares Held" (columns df) <> None /\
   lookup "Target Weight (%)" (columns df) <> None).
Proof.
  unfold check_missing, required_columns, column_names. simpl.
  rewrite !mem_lookup.
  destruct (lookup "Ticker" (columns df)),
    (lookup "Shares Held" (columns df)),
    (lookup "Target Weight (%)" (columns df)); simpl;
    split; try discriminate; try (intros _; repeat split; discriminate);
    intros (A & B & C); congruence.
Qed.

Lemma validate_passes (df : DataFrame) :
  validate_portfolio_data df = (Ok [], df) ->
  exists tk sh tw neg1 neg2,
    lookup "Ticker" (columns df) = Some tk /\
    lookup "Shares Held" (columns df) = Some sh /\
    lookup "Target Weight (%)" (columns df) = Some tw /\
    series_lt0 sh = Ok neg1 /\ any neg1 = false /\
    series_lt0 tw = Ok neg2 /\ any neg2 = false /\
    any (series_isna tk) || any (series_eq_str tk EmptyString) = false.
Proof.
  rewrite validate_checks. intros [= H].
  unfold check_negative in H.
  destruct (check_missing df) as [| m ms] eqn:Em;
    [| destruct (lookup "Shares Held" (columns df)) as [sh |];
       [destruct (series_lt0 sh); simpl in H |];
       destruct (lookup "Target Weight (%)" (columns df)) as [tw |];
       simpl in H; try discriminate;
       destruct (series_lt0 tw); simpl in H; discriminate].
  apply check_missing_nil in Em. destruct Em as (A & B & C).
  destruct (lookup "Ticker" (columns df)) as [tk |] eqn:Etk; [| congruence].
  destruct (lookup "Shares Held" (columns df)) as [sh |] eqn:Esh; [| congruence].
  destruct (lookup "Target Weight (%)" (columns df)) as [tw |] eqn:Etw;
    [| congruence].
  destruct (series_lt0 sh) as [neg1 |] eqn:E1; simpl in H; [| discriminate].
  destruct (series_lt0 tw) as [neg2 |] eqn:E2; simpl in H; [| discriminate].
  unfold check_ticker in H. rewrite Etk in H.
  destruct (any neg1) eqn:A1; [discriminate |].
  destruct (any neg2) eqn:A2; [discriminate |].
  destruct (any (series_isna tk) || any (series_eq_str tk EmptyString)) eqn:A3;
    [discriminate |].
  exists tk, sh, tw, neg1, neg2. repeat split; auto.
Qed.

(** X14: a table the validator accepts has the three user columns, so
    that selecting them cannot raise, and [save_portfolio_data] writes
    exactly these three columns, in the order of the CSV schema. *)
Theorem validated_table_is_saved :
  forall df,
    validate_portfolio_data df = (Ok [], df) ->
    exists tickers shares weights,
      column "Ticker" df = Some tickers /\
      column "Shares Held" df = Some shares /\
      column "Target Weight (%)" df = Some weights /\
      let user_data :=
        mkDF (index_len df)
          [("Ticker", tickers); ("Shares Held", shares);
           ("Target Weight (%)", weights)] in
      getitem_list core_columns df = Ok user_data /\
      save_portfolio_data user_data = Written user_data /\
      validate_csv_columns user_data = None.
Proof.
  intros df H.
  destruct (validate_passes df H) as (tk & sh & tw & _ & _ & Htk & Hsh & Htw & _).
  exists tk, sh, tw. unfold column. repeat split; auto.
  unfold getitem_list, core_columns. simpl. now rewrite Htk, Hsh, Htw.
Qed.

Lemma validated_table_is_saved_witness :
  exists tickers shares weights,
    column "Ticker" fixture = Some tickers /\
    column "Shares Held" fixture = Some shares /\
    column "Target Weight (%)" fixture = Some weights /\
    let user_data :=
      mkDF (index_len fixture)
        [("Ticker", tickers); ("Shares Held", shares);
         ("Target Weight (%)", weights)] in
    getitem_list core_columns fixture = Ok user_data /\
    save_portfolio_data user_data = Written user_data /\
    validate_csv_columns user_data = None.
Proof. apply validated_table_is_saved. reflexivity. Defined.

(** X15: [save_portfolio_data] writes a file exactly when the validator
    finds no required column missing; the file holds the three core
    columns and nothing else, and otherwise the ValueError names a core
    column the table lacks. *)
Theorem save_column_check :
  forall df,
    ((exists file, save_portfolio_data df = Written file) <->
     check_missing df = []) /\
    (forall file,
        save_portfolio_data df = Written file ->
        column_names file = core_columns /\
        index_len file = index_len df /\
        (forall name, In name core_columns -> column name file = column name df)) /\
    (forall message,
        save_portfolio_data df = MissingColumn message ->
        exists col,
          message = "Missing required column: " ++ col /\
          In col core_columns /\ column col df = None).
Proof.
  intros df. unfold save_portfolio_data, getitem_list, core_columns.
  cbn [find]. unfold column_names. rewrite !mem_lookup.
  rewrite check_missing_nil. unfold column.
  destruct (lookup "Ticker" (columns df)) as [tk |] eqn:Etk;
    destruct (lookup "Shares Held" (columns df)) as [sh |] eqn:Esh;
    destruct (lookup "Target Weight (%)" (columns df)) as [tw |] eqn:Etw;
    cbn [negb select rbind]; rewrite ?Etk, ?Esh, ?Etw; cbn [rbind].
  all: split; [split; [intros [f Hf]; try discriminate Hf;
                       repeat split; discriminate
                      | intros (A & B & C); try congruence; eauto] |].
  all: split; [intros file [= <-] || (intros file Hf; discriminate Hf) |].
  all: try (cbn [columns index_len map fst]; repeat split;
            intros name [<- | [<- | [<- | []]]]; simpl;
            now rewrite ?Etk, ?Esh, ?Etw).
  all: intros message Hm; try discriminate Hm; injection Hm as <-;
    eexists; (split; [reflexivity |]); simpl; auto.
Qed.

Lemma save_column_check_witness :
  (exists file, save_portfolio_data sector_out = Written file) /\
  (column_names
     (mkDF 3 [("Ticker", Object [Some "TCS"; Some "INFY"; Some "HDFC"]);
              ("Shares Held", Int64 [10; 20; 12]%Z);
              ("Target Weight (%)", Float64 [25; 50; 25])]) = core_columns /\
   index_len
     (mkDF 3 [("Ticker", Object [Some "TCS"; Some "INFY"; Some "HDFC"]);
              ("Shares Held", Int64 [10; 20; 12]%Z);
              ("Target Weight (%)", Float64 [25; 50; 25])])
   = index_len sector_out /\
   (forall name,
       In name core_columns ->
       column name
         (mkDF 3 [("Ticker", Object [Some "TCS"; Some "INFY"; Some "HDFC"]);
                  ("Shares Held", Int64 [10; 20; 12]%Z);
                  ("Target Weight (%)", Float64 [25; 50; 25])])
       = column name sector_out)) /\
  (exists col,
      "Missing required column: Shares Held" = "Missing required column: " ++ col /\
      In col core_columns /\
      column col (mkDF 1 [("Ticker", Object [Some "TCS"])]) = None).
Proof.
  split; [| split].
  - apply (proj1 (save_column_check sector_out)). reflexivity.
  - apply (proj1 (proj2 (save_column_check sector_out))). reflexivity.
  - apply (proj2 (proj2 (save_column_check
                           (mkDF 1 [("Ticker", Object [Some "TCS"])])))).
    reflexivity.
Defined.

Lemma any_false_inv {A} (f : A -> bool) (l : list A) :
  any (map f l) = false -> Forall (fun a => f a = false) l.
Proof.
  unfold any. induction l as [| a l IH]; simpl; [constructor |].
  intros H. apply orb_false_iff in H as [Ha Hl]. constructor; auto.
Qed.

Lemma lt0_floats_not_negative (s : series) (neg : list bool) :
  series_lt0 s = Ok neg -> any neg = false ->
  exists xs, to_floats s = Ok xs /\ Forall not_negative xs.
Proof.
  destruct s as [l | l | [| o l]]; simpl; try discriminate; intros [= <-] H.
  - eexists; split; [reflexivity |]. apply Forall_map.
    apply any_false_inv in H. eapply Forall_impl; [| exact H].
    intros z Hz. apply of_Z_not_negative. now apply Z.ltb_ge.
  - eexists; split; [reflexivity |]. now apply any_false_inv in H.
  - eexists; split; [reflexivity | constructor].
Qed.

(** X16: after a rebalancing of a validated table whose total current
    value and additional capital are not negative, the basket state
    offered for download has the tickers and target weights of the
    table and the target shares as shares held; it passes the schema
    check of the CSV reader and the validator accepts it again. *)
Theorem basket_state_validates :
  forall cap df out df' cvs total,
    validate_portfolio_data df = (Ok [], df) ->
    calculate_rebalancing_metrics cap df = (Ok out, df') ->
    column "Current Value" df = Some cvs -> series_sum cvs = Ok total ->
    not_negative (scalar_float total) -> not_negative cap ->
    exists state,
      basket_state out = Ok state /\
      validate_portfolio_data state = (Ok [], state) /\
      validate_csv_columns state = None /\
      index_len state = index_len df /\
      column "Ticker" state = column "Ticker" df /\
      column "Target Weight (%)" state = column "Target Weight (%)" df /\
      column "Shares Held" state = column "Target Shares" out.
Proof.
  intros cap df out df' cvs total Hv H Hcv Ht Nt Ncap. unfold column in Hcv.
  destruct (validate_passes df Hv)
    as (tk & sh & tw & n1 & n2 & Htk & Hsh & Htw & L1 & A1 & L2 & A2 & A3).
  destruct (lt0_floats_not_negative tw n2 L2 A2) as (ws & Ews & Nws).
  destruct (engine_output cap df out df' H)
    as (cvs' & tws' & prs & hs & d & Hin & _ & Hi & Hc & _).
  destruct Hin as (H1 & H3 & _ & _ & D).
  destruct D as (Ht' & E3 & _ & Hopt & _).
  assert (cvs' = cvs) by congruence. subst cvs'.
  assert (tws' = tw) by congruence. subst tws'.
  assert (Et : d_total d = total) by congruence.
  assert (Ew : d_weights d = ws) by congruence.
  rewrite Et, Ew in Hopt.
  set (shares := d_shares d) in *.
  assert (Nsh : Forall (fun n => 0 <= n)%Z shares).
  { eapply optimize_shares_not_negative; [| exact Hopt].
    now apply target_values_not_negative. }
  assert (Ktk : lookup "Ticker" (columns out) = Some tk).
  { specialize (Hc "Ticker"). unfold column in Hc. rewrite Hc.
    unfold derived_columns, rebalanced_columns. frame_simpl. exact Htk. }
  assert (Kts : lookup "Target Shares" (columns out) = Some (Int64 shares)).
  { specialize (Hc "Target Shares"). unfold column in Hc. rewrite Hc.
    unfold derived_columns, rebalanced_columns. frame_simpl. reflexivity. }
  assert (Ktw : lookup "Target Weight (%)" (columns out) = Some tw).
  { specialize (Hc "Target Weight (%)"). unfold column in Hc. rewrite Hc.
    unfold derived_columns, rebalanced_columns. frame_simpl. exact Htw. }
  eexists. unfold basket_state. rewrite Ktk, Kts, Ktw.
  split; [reflexivity |]. unfold column. cbn [columns index_len].
  split; [| repeat split; simpl; auto].
  rewrite validate_checks.
  unfold check_negative, check_ticker, check_missing, column_names.
  cbn [columns map fst lookup String.eqb Ascii.eqb Bool.eqb].
  simpl lookup. rewrite L2. simpl series_lt0.
  assert (An : any (map (fun z => (z <? 0)%Z) shares) = false).
  { apply any_false_Forall. eapply Forall_impl; [| exact Nsh].
    intros z Hz. now apply Z.ltb_ge. }
  cbn [rbind]. rewrite An, A2, A3. reflexivity.
Qed.

Lemma basket_state_validates_witness :
  exists state,
    basket_state missing_price_out = Ok state /\
    validate_portfolio_data state = (Ok [], state) /\
    validate_csv_columns state = None /\
    index_len state = index_len missing_price_enriched /\
    column "Ticker" state = column "Ticker" missing_price_enriched /\
    column "Target Weight (%)" state
    = column "Target Weight (%)" missing_price_enriched /\
    column "Shares Held" state = column "Target Shares" missing_price_out.
Proof.
  apply (basket_state_validates 0 missing_price_enriched missing_price_out
           (snd (calculate_rebalancing_metrics 0 missing_price_enriched))
           (Float64 [1000; 1000; nan]) (FloatS 2000)).
  - reflexivity.
  - vm_compute. reflexivity.
  - reflexivity.
  - reflexivity.
  - reflexivity.
  - reflexivity.
Defined.

End SaveAndLoad.

(** ** [read_portfolio_csv] *)

Section Read.

Variables clean_tickers coerce_shares coerce_weights : series -> result series.

Lemma list_string_eqb_eq (a b : list string) :
  list_string_eqb a b = true <-> a = b.
Proof.
  unfold list_string_eqb. destruct (list_eq_dec string_dec a b); split;
    auto; discriminate.
Qed.

Lemma schema_accepts (df : DataFrame) :
  validate_csv_columns df = None ->
  exists a b c sa sb sc,
    columns df = [(a, sa); (b, sb); (c, sc)] /\
    py_strip a = "Ticker" /\ py_strip b = "Shares Held" /\
    py_strip c = "Target Weight (%)".
Proof.
  unfold validate_csv_columns, column_names, expected_columns.
  destruct (list_string_eqb _ _) eqn:E; [| discriminate]. intros _.
  apply list_string_eqb_eq in E.
  destruct (columns df) as [| [a sa] [| [b sb] [| [c sc] [| d l]]]];
    simpl in E; try discriminate.
  injection E as Ea Eb Ec. exists a, b, c, sa, sb, sc. auto.
Qed.

Lemma strip_ticker : py_strip "Ticker" = "Ticker".
Proof. reflexivity. Qed.

Lemma strip_shares : py_strip "Shares Held" = "Shares Held".
Proof. reflexivity. Qed.

Lemma strip_weights : py_strip "Target Weight (%)" = "Target Weight (%)".
Proof. reflexivity. Qed.

(** What the header must be for the three columns to be found. *)
Lemma header_exact (a b c : string) (sa sb sc : series) :
  py_strip a = "Ticker" -> py_strip b = "Shares Held" ->
  py_strip c = "Target Weight (%)" ->
  lookup "Ticker" [(a, sa); (b, sb); (c, sc)] <> None ->
  lookup "Shares Held" [(a, sa); (b, sb); (c, sc)] <> None ->
  lookup "Target Weight (%)" [(a, sa); (b, sb); (c, sc)] <> None ->
  a = "Ticker" /\ b = "Shares Held" /\ c = "Target Weight (%)".
Proof.
  intros Ha Hb Hc. simpl.
  destruct (String.eqb_spec a "Ticker") as [-> | Na];
    destruct (String.eqb_spec b "Shares Held") as [-> | Nb];
    destruct (String.eqb_spec c "Target Weight (%)") as [-> | Nc];
    simpl; auto;
    repeat match goal with
      | |- context [String.eqb ?x ?y] =>
          destruct (String.eqb_spec x y) as [-> | ?]; simpl
      end;
    try congruence;
    try (rewrite ?strip_ticker, ?strip_shares, ?strip_weights in *;
         discriminate).
Qed.

Lemma names_assign_present (name : string) (s : series) cols :
  lookup name cols <> None -> map fst (assign name s cols) = map fst cols.
Proof.
  induction cols as [| [n s'] cols IH]; simpl; [congruence |].
  destruct (String.eqb n name); simpl; [reflexivity |].
  intros H. now rewrite IH.
Qed.

(** The run of the three coercions on a frame. *)
Lemma read_loaded (df df' : DataFrame) :
  read_portfolio_csv clean_tickers coerce_shares coerce_weights df = Loaded df' ->
  validate_csv_columns df = None /\
  lookup "Ticker" (columns df) <> None /\
  lookup "Shares Held" (columns df) <> None /\
  lookup "Target Weight (%)" (columns df) <> None /\
  column_names df' = column_names df /\
  index_len df' = index_len df.
Proof.
  unfold read_portfolio_csv.
  destruct (validate_csv_columns df) as [inc |]; [discriminate |].
  destruct (lookup "Ticker" (columns df)) as [tk |] eqn:Htk.
  2: { msteps. discriminate. }
  msteps. destruct (clean_tickers tk) as [tk' |]; [| discriminate].
  msteps.
  destruct (lookup "Shares Held" (columns df)) as [sh |] eqn:Hsh.
  2: { discriminate. }
  msteps. destruct (coerce_shares sh) as [sh' |]; [| discriminate].
  msteps.
  destruct (lookup "Target Weight (%)" (columns df)) as [tw |] eqn:Htw.
  2: { discriminate. }
  msteps. destruct (coerce_weights tw) as [tw' |]; [| discriminate].
  unfold setitem. intros [= <-]. cbn [index_len columns].
  repeat split; try discriminate.
  unfold column_names. cbn [columns].
  rewrite !names_assign_present; frame_simpl; congruence.
Qed.

(** X17: [read_portfolio_csv] returns a table only when the parsed
    column names are exactly the three expected ones: a header that
    passes the schema check thanks to the stripping of white space alone
    ends in an exception, KeyError "Ticker" when that name is the padded
    one. *)
Theorem read_csv_needs_exact_header :
  forall df,
    (forall incoming,
        validate_csv_columns df = Some incoming ->
        read_portfolio_csv clean_tickers coerce_shares coerce_weights df
        = SchemaMismatch incoming) /\
    (forall df',
        read_portfolio_csv clean_tickers coerce_shares coerce_weights df
        = Loaded df' ->
        column_names df = expected_columns /\
        column_names df' = expected_columns /\
        index_len df' = index_len df) /\
    (validate_csv_columns df = None ->
     column_names df <> expected_columns ->
     exists e,
       read_portfolio_csv clean_tickers coerce_shares coerce_weights df
       = ReadRaised e) /\
    (validate_csv_columns df = None ->
     column "Ticker" df = None ->
     read_portfolio_csv clean_tickers coerce_shares coerce_weights df
     = ReadRaised (KeyError "Ticker")).
Proof.
  intros df.
  assert (L : forall df',
             read_portfolio_csv clean_tickers coerce_shares coerce_weights df
             = Loaded df' ->
             column_names df = expected_columns /\
             column_names df' = expected_columns /\
             index_len df' = index_len df).
  { intros df' H. apply read_loaded in H.
    destruct H as (Hv & H1 & H2 & H3 & Hn & Hi).
    destruct (schema_accepts df Hv) as (a & b & c & sa & sb & sc & Hc & Sa & Sb & Sc).
    rewrite Hc in H1, H2, H3.
    destruct (header_exact a b c sa sb sc Sa Sb Sc H1 H2 H3) as (-> & -> & ->).
    assert (E : column_names df = expected_columns)
      by (unfold column_names; rewrite Hc; reflexivity).
    rewrite Hn. auto. }
  split; [| split; [exact L | split]].
  - intros incoming H. unfold read_portfolio_csv. now rewrite H.
  - intros Hv Hne.
    destruct (read_portfolio_csv clean_tickers coerce_shares coerce_weights df)
      as [df' | inc | e] eqn:E.
    + destruct (L df' eq_refl) as (Hn & _). contradiction.
    + unfold read_portfolio_csv in E. rewrite Hv in E.
      match type of E with
      | (let (_, _) := ?x in _) = _ => destruct x as [[u | e] d]
      end; discriminate.
    + eauto.
  - intros Hv Htk. unfold column in Htk. unfold read_portfolio_csv.
    rewrite Hv. msteps. reflexivity.
Qed.

End Read.

Lemma read_csv_needs_exact_header_witness :
  validate_csv_columns
    (mkDF 1 [("Ticker", Object [Some "TCS"]);
             (String (ascii_of_nat 32) "Shares Held", Int64 [10%Z]);
             (String (ascii_of_nat 32) "Target Weight (%)", Float64 [100%float])])
  = None /\
  exists e,
    read_portfolio_csv (fun s => Ok s) (fun s => Ok s) (fun s => Ok s)
      (mkDF 1 [("Ticker", Object [Some "TCS"]);
               (String (ascii_of_nat 32) "Shares Held", Int64 [10%Z]);
               (String (ascii_of_nat 32) "Target Weight (%)",
                Float64 [100%float])])
    = ReadRaised e.
Proof.
  split; [reflexivity |].
  apply (proj1 (proj2 (proj2 (read_csv_needs_exact_header
                                (fun s => Ok s) (fun s => Ok s) (fun s => Ok s) _))));
    [reflexivity | discriminate].
Defined.
